(** * Flutter log analysis script: a shallow embedding of [analyze_logs.py]

    The development follows [dart-detective/scripts/analyze_logs.py]:
    the [LogAnalyzer] object with its four finding lists, its pattern
    counter and its stack-trace list, the five pattern passes and the
    stack-trace pass of [_process_line], the two drivers [analyze_file] and
    [analyze_stdin], the report printer and [main].

    Modelling conventions.
    - A Python [str] is a [string]; its characters are the code points below
      256.  On that range the case folding of [re.IGNORECASE] only relates
      the ASCII letters to each other, and [str.strip] removes the characters
      listed in [isspace] below.
    - A method that mutates [self] is a function from the analyzer to the
      analyzer; the list and the counter of a pass are updated in the order
      of the source.  Where it matters which objects are shared, the same
      methods are embedded again in [OnHeap], on a store of objects that
      the attributes refer to, and the two embeddings are related.
    - [print]ed lines and raised exceptions are threaded through a small
      output-and-exception monad; [open] either yields the decoded content
      of the file or fails with [FileNotFoundError]. *)

From Stdlib Require Import String Ascii List Arith Bool Lia Permutation Sorted.
From Stdlib Require Import Numbers.DecimalString.
Import ListNotations.
Local Open Scope string_scope.
Local Open Scope list_scope.
Local Open Scope nat_scope.

(* ================================================================= *)
(** ** Python string operations *)

Module Str.

Definition newline : ascii := "010"%char.

(** [str.isspace] on one character (code points below 256). *)
Definition isspace (c : ascii) : bool :=
  let n := nat_of_ascii c in
  ((9 <=? n) && (n <=? 13)) || ((28 <=? n) && (n <=? 32))
  || (n =? 133) || (n =? 160).

(** The case folding of the ASCII letters: [A] to [Z] go to [a] to [z],
    every other character stays.  On code points below 256 this is how
    [re.IGNORECASE] relates a character of the text to an ASCII letter of a
    pattern. *)
Definition lower (c : ascii) : ascii :=
  let n := nat_of_ascii c in
  if (65 <=? n) && (n <=? 90) then ascii_of_nat (n + 32) else c.

(** Equality of two characters up to letter case. *)
Definition eqb_ci (c d : ascii) : bool := Ascii.eqb (lower c) (lower d).

Fixpoint lstrip (s : string) : string :=
  match s with
  | "" => ""
  | String c s' => if isspace c then lstrip s' else s
  end.

Fixpoint rstrip (s : string) : string :=
  match s with
  | "" => ""
  | String c s' =>
      match rstrip s' with
      | "" => if isspace c then "" else String c ""
      | r => String c r
      end
  end.

(** Every character of the string is white space. *)
Fixpoint all_space (s : string) : bool :=
  match s with
  | "" => true
  | String c s' => isspace c && all_space s'
  end.

(** [s.strip()] *)
Definition strip (s : string) : string := rstrip (lstrip s).

(** The string with its ASCII letters [A] to [Z] in lower case; all other
    characters, the letters beyond ASCII too, are kept as they are. *)
Fixpoint lower_str (s : string) : string :=
  match s with
  | "" => ""
  | String c s' => String (lower c) (lower_str s')
  end.

(** [s.startswith(p)] *)
Definition startswith (p s : string) : bool := String.prefix p s.

(** [needle in hay] *)
Fixpoint contains (needle hay : string) : bool :=
  String.prefix needle hay
  || match hay with
     | "" => false
     | String _ hay' => contains needle hay'
     end.

(** [hay] contains [needle] up to the case of the ASCII letters. *)
Definition contains_ci (needle hay : string) : bool :=
  contains (lower_str needle) (lower_str hay).

(** [s.split('\n')]: the pieces between the newline characters; there is
    always at least one piece. *)
Fixpoint split_newline (s : string) : list string :=
  match s with
  | "" => [""]
  | String c s' =>
      if Ascii.eqb c newline then "" :: split_newline s'
      else match split_newline s' with
           | [] => [String c ""]
           | p :: ps => String c p :: ps
           end
  end.

(** The one-character string ["\n"]. *)
Definition nl : string := String newline "".

(** [sep.join(l)] *)
Definition join (sep : string) (l : list string) : string :=
  String.concat sep l.

(** [s[:n]] *)
Definition upto (n : nat) (s : string) : string := String.substring 0 n s.

(** [str(n)] for a natural number. *)
Definition of_nat (n : nat) : string :=
  NilZero.string_of_uint (Nat.to_uint n).

(** [c * n] for a one-character string. *)
Fixpoint repeat (c : ascii) (n : nat) : string :=
  match n with
  | O => ""
  | S n' => String c (repeat c n')
  end.

End Str.

(* ================================================================= *)
(** ** Regular expressions of the pattern catalogs

    The catalogs only use literal text, [.*], concatenation and
    alternation; groups do not change whether [re.search] finds a match.
    Every search of the script passes [re.IGNORECASE]. *)

Module Re.

Inductive regex : Type :=
| Lit (s : string)          (* literal text *)
| DotStar                   (* [.*]: any run of characters but newline *)
| Cat (a b : regex)         (* [ab] *)
| Alt (a b : regex).        (* [a|b] *)

(** Consume literal [p] at the head of [t], ignoring letter case. *)
Fixpoint eat_literal (p t : string) : option string :=
  match p with
  | "" => Some t
  | String c p' =>
      match t with
      | "" => None
      | String d t' => if Str.eqb_ci c d then eat_literal p' t' else None
      end
  end.

(** [.*] followed by the continuation [k]: the longest run first. *)
Fixpoint dotstar (k : string -> bool) (t : string) : bool :=
  match t with
  | "" => k ""
  | String c t' =>
      (negb (Ascii.eqb c Str.newline) && dotstar k t') || k t
  end.

(** Backtracking match of [r] at the head of [t]; [k] receives the rest. *)
Fixpoint match_here (r : regex) (t : string) (k : string -> bool) : bool :=
  match r with
  | Lit s => match eat_literal s t with Some t' => k t' | None => false end
  | DotStar => dotstar k t
  | Cat a b => match_here a t (fun t' => match_here b t' k)
  | Alt a b => match_here a t k || match_here b t k
  end.

(** [re.search(r, t, re.IGNORECASE)] as a truth value. *)
Fixpoint search (r : regex) (t : string) : bool :=
  match_here r t (fun _ => true)
  || match t with
     | "" => false
     | String _ t' => search r t'
     end.

(** The language of a pattern: [Matches r m] when [r] matches exactly
    the text [m]. *)
Inductive Matches : regex -> string -> Prop :=
| MLit p m : eat_literal p m = Some "" -> Matches (Lit p) m
| MDotNil : Matches DotStar ""
| MDotCons c m :
    c <> Str.newline -> Matches DotStar m -> Matches DotStar (String c m)
| MCat a b m1 m2 : Matches a m1 -> Matches b m2 -> Matches (Cat a b) (m1 ++ m2)%string
| MAltL a b m : Matches a m -> Matches (Alt a b) m
| MAltR a b m : Matches b m -> Matches (Alt a b) m.

End Re.


Declare Scope re_scope.
Delimit Scope re_scope with re.
Bind Scope re_scope with Re.regex.
Coercion Re.Lit : string >-> Re.regex.
Notation "a <|> b" := (Re.Alt a b) (at level 62, right associativity) : re_scope.
Notation "a <&> b" := (Re.Cat a b) (at level 61, right associativity) : re_scope.
Notation "'.*'" := Re.DotStar : re_scope.

(* ================================================================= *)
(** ** The analyzer object *)

(** A finding: the dictionary with the keys ['type'] and ['line']. *)
Record Finding : Type := mkFinding { ftype : string; fline : string }.

(** [defaultdict(int)]: keys in insertion order, a missing key counts 0. *)
Definition Counter : Type := list (string * nat).

Module Counter.

(** [m[k]] *)
Fixpoint get (k : string) (m : Counter) : nat :=
  match m with
  | [] => 0
  | (k', v) :: m' => if String.eqb k k' then v else get k m'
  end.

(** [m[k] += 1]: a new key is inserted last. *)
Fixpoint incr (k : string) (m : Counter) : Counter :=
  match m with
  | [] => [(k, 1)]
  | (k', v) :: m' =>
      if String.eqb k k' then (k', v + 1) :: m' else (k', v) :: incr k m'
  end.

(** [m[k] += 1] for each key of [ks] in turn. *)
Definition incr_all (ks : list string) (m : Counter) : Counter :=
  fold_left (fun m k => incr k m) ks m.

(** [sum(m.values())] *)
Definition total (m : Counter) : nat := list_sum (map snd m).

(** [m.keys()] *)
Definition keys (m : Counter) : list string := map fst m.

End Counter.

Record LogAnalyzer : Type := mkLogAnalyzer {
  errors : list Finding;
  warnings : list Finding;
  stack_traces : list string;
  patterns : Counter;
  security_issues : list Finding;
  performance_issues : list Finding
}.

(** [LogAnalyzer.__init__] *)
Definition __init__ : LogAnalyzer :=
  {| errors := []; warnings := []; stack_traces := []; patterns := [];
     security_issues := []; performance_issues := [] |}.

(** [self.errors.append(f)] and its siblings; [self.patterns[k] += 1]. *)
Definition errors_append (f : Finding) (self : LogAnalyzer) : LogAnalyzer :=
  {| errors := errors self ++ [f]; warnings := warnings self;
     stack_traces := stack_traces self; patterns := patterns self;
     security_issues := security_issues self;
     performance_issues := performance_issues self |}.

Definition warnings_append (f : Finding) (self : LogAnalyzer) : LogAnalyzer :=
  {| errors := errors self; warnings := warnings self ++ [f];
     stack_traces := stack_traces self; patterns := patterns self;
     security_issues := security_issues self;
     performance_issues := performance_issues self |}.

Definition security_issues_append (f : Finding) (self : LogAnalyzer)
  : LogAnalyzer :=
  {| errors := errors self; warnings := warnings self;
     stack_traces := stack_traces self; patterns := patterns self;
     security_issues := security_issues self ++ [f];
     performance_issues := performance_issues self |}.

Definition performance_issues_append (f : Finding) (self : LogAnalyzer)
  : LogAnalyzer :=
  {| errors := errors self; warnings := warnings self;
     stack_traces := stack_traces self; patterns := patterns self;
     security_issues := security_issues self;
     performance_issues := performance_issues self ++ [f] |}.

Definition stack_traces_append (t : string) (self : LogAnalyzer)
  : LogAnalyzer :=
  {| errors := errors self; warnings := warnings self;
     stack_traces := stack_traces self ++ [t]; patterns := patterns self;
     security_issues := security_issues self;
     performance_issues := performance_issues self |}.

Definition patterns_incr (k : string) (self : LogAnalyzer) : LogAnalyzer :=
  {| errors := errors self; warnings := warnings self;
     stack_traces := stack_traces self;
     patterns := Counter.incr k (patterns self);
     security_issues := security_issues self;
     performance_issues := performance_issues self |}.

(* ================================================================= *)
(** ** The pattern catalogs *)

Definition error_patterns : list (Re.regex * string) :=
  [ (("NullPointerException" <|> "null pointer")%re, "Null Pointer Exception");
    (Re.Lit "NoSuchMethodError", "No Such Method Error");
    (Re.Lit "ClassCastException", "Type Cast Error");
    (Re.Lit "OutOfMemoryError", "Out of Memory");
    (Re.Lit "StackOverflowError", "Stack Overflow");
    (("IOException" <|> "File not found")%re, "File I/O Error");
    (("NetworkError" <|> "Connection refused")%re, "Network Error");
    (Re.Lit "TimeoutException", "Timeout Error");
    (("FormatException" <|> "JSON parsing")%re, "Format/JSON Parse Error");
    (("StateError" <|> "Invalid state")%re, "State Error") ].

Definition null_patterns : list Re.regex :=
  [ Re.Lit "null safety";
    Re.Lit "nullable type";
    Re.Lit "null propagation";
    ("Unhandled Exception" <&> .* <&> "null")%re;
    ("accessing" <&> .* <&> "null")%re ].

Definition async_patterns : list Re.regex :=
  [ (("uncaught" <|> "unhandled") <&> .*
       <&> ("future" <|> "async" <|> "await"))%re;
    ("future" <&> .* <&> "failed")%re;
    ("bad state" <|> "invalid async")%re;
    ("stream" <&> .* <&> "closed")%re;
    ("subscript" <&> .* <&> "cancelled")%re;
    Re.Lit "MissingPluginException" ].

Definition security_patterns : list (Re.regex * string) :=
  [ ((("password" <|> "secret" <|> "token" <|> ("api" <&> .* <&> "key"))
       <&> .* <&> ("stored" <|> "saved" <|> "hardcoded"))%re,
     "Credential Storage");
    ((("ssl" <|> "certificate" <|> "tls") <&> .* <&> "verification"
       <&> .* <&> ("disabled" <|> "false"))%re,
     "SSL Verification Disabled");
    ((("sql" <&> .* <&> "injection") <|> ("command" <&> .* <&> "injection"))%re,
     "Injection Vulnerability");
    (("xss" <|> ("cross" <&> .* <&> "site" <&> .* <&> "scripting"))%re,
     "XSS Vulnerability");
    (("debug" <&> .* <&> ("enabled" <|> "true") <&> .* <&> "production")%re,
     "Debug Enabled in Production");
    ((("log" <&> .* <&> "password") <|> ("password" <&> .* <&> "log"))%re,
     "Password in Logs") ].

Definition perf_patterns : list (Re.regex * string) :=
  [ (("ANR" <&> .* <&> "application not responding")%re,
     "ANR (App Not Responding)");
    (("jank" <|> ("frame" <&> .* <&> "drop")
       <|> ("dropped" <&> .* <&> "frame"))%re,
     "Dropped Frames");
    ((("memory" <&> .* <&> "pressure") <|> ("low" <&> .* <&> "memory"))%re,
     "Memory Pressure");
    (("OutOfMemory" <|> ("heap" <&> .* <&> "size"))%re, "Memory Issues");
    ((("garbage" <&> .* <&> "collect") <|> "GC")%re, "Garbage Collection");
    ((("disk" <&> .* <&> "full") <|> ("storage" <&> .* <&> "full"))%re,
     "Disk Full") ].

(* ================================================================= *)
(** ** The passes over one line *)

(** [LogAnalyzer._check_error_patterns] *)
Definition _check_error_patterns (line : string) (self : LogAnalyzer)
  : LogAnalyzer :=
  fold_left
    (fun self '(pattern, name) =>
       if Re.search pattern line
       then patterns_incr name
              (errors_append (mkFinding name (Str.strip line)) self)
       else self)
    error_patterns self.

(** [LogAnalyzer._check_null_safety_issues] *)
Definition _check_null_safety_issues (line : string) (self : LogAnalyzer)
  : LogAnalyzer :=
  fold_left
    (fun self pattern =>
       if Re.search pattern line
       then patterns_incr "Null Safety Issue"
              (warnings_append
                 (mkFinding "Null Safety Issue" (Str.strip line)) self)
       else self)
    null_patterns self.

(** [LogAnalyzer._check_async_errors] *)
Definition _check_async_errors (line : string) (self : LogAnalyzer)
  : LogAnalyzer :=
  fold_left
    (fun self pattern =>
       if Re.search pattern line
       then patterns_incr "Async Error"
              (errors_append
                 (mkFinding "Async/Future Error" (Str.strip line)) self)
       else self)
    async_patterns self.

(** [LogAnalyzer._check_security_issues] *)
Definition _check_security_issues (line : string) (self : LogAnalyzer)
  : LogAnalyzer :=
  fold_left
    (fun self '(pattern, issue_type) =>
       if Re.search pattern line
       then patterns_incr ("Security: " ++ issue_type)%string
              (security_issues_append
                 (mkFinding issue_type (Str.strip line)) self)
       else self)
    security_patterns self.

(** [LogAnalyzer._check_performance_issues] *)
Definition _check_performance_issues (line : string) (self : LogAnalyzer)
  : LogAnalyzer :=
  fold_left
    (fun self '(pattern, issue_type) =>
       if Re.search pattern line
       then patterns_incr ("Performance: " ++ issue_type)%string
              (performance_issues_append
                 (mkFinding issue_type (Str.strip line)) self)
       else self)
    perf_patterns self.

(** The test that opens a stack trace and the test that continues it. *)
Definition trace_start (line : string) : bool :=
  Str.contains "at " line
  || (Str.contains "File" line && Str.contains "Line" line).

Definition trace_continues (l : string) : bool :=
  Str.startswith "at " l || Str.startswith "  " l || Str.contains "File" l.

Fixpoint take_while {A : Type} (p : A -> bool) (l : list A) : list A :=
  match l with
  | [] => []
  | x :: l' => if p x then x :: take_while p l' else []
  end.

(** [LogAnalyzer._check_stack_traces]: the [while] loop walks
    [all_lines[index + 1:]] for as long as the lines continue the trace. *)
Definition _check_stack_traces (line : string) (index : nat)
  (all_lines : list string) (self : LogAnalyzer) : LogAnalyzer :=
  if trace_start line then
    let trace := line :: take_while trace_continues (skipn (index + 1) all_lines) in
    if 1 <? length trace
    then stack_traces_append (Str.join Str.nl trace) self
    else self
  else self.

(** The block that [_check_stack_traces] records for a line that is not
    blank: none or one. *)
Definition recorded_block (line : string) (index : nat)
  (all_lines : list string) : list string :=
  if String.eqb (Str.strip line) "" then []
  else if trace_start line then
    let trace := line :: take_while trace_continues (skipn (index + 1) all_lines) in
    if 1 <? length trace then [Str.join Str.nl trace] else []
  else [].

(** [LogAnalyzer._process_line] *)
Definition _process_line (line : string) (index : nat)
  (all_lines : list string) (self : LogAnalyzer) : LogAnalyzer :=
  if String.eqb (Str.strip line) "" then self
  else
    let self := _check_error_patterns line self in
    let self := _check_null_safety_issues line self in
    let self := _check_async_errors line self in
    let self := _check_security_issues line self in
    let self := _check_performance_issues line self in
    _check_stack_traces line index all_lines self.

(** [enumerate(l)] *)
Definition enumerate {A : Type} (l : list A) : list (nat * A) :=
  combine (seq 0 (length l)) l.

(** The loop of [analyze_file] over the lines of the file. *)
Definition analyze_lines (lines : list string) (self : LogAnalyzer)
  : LogAnalyzer :=
  fold_left (fun self '(i, line) => _process_line line i lines self)
    (enumerate lines) self.

(** [LogAnalyzer.analyze_stdin], given what [sys.stdin.readlines()]
    returned. *)
Definition analyze_stdin (lines : list string) (self : LogAnalyzer)
  : LogAnalyzer :=
  fold_left (fun self '(i, line) => _process_line (Str.strip line) i lines self)
    (enumerate lines) self.

(* ================================================================= *)
(** ** The order of the passes

    [_process_line] runs the five pattern passes in a fixed order.  The
    passes are named so that other orders can be compared with it. *)

Inductive Pass : Type :=
| PError | PNullSafety | PAsync | PSecurity | PPerformance.

Definition run_pass (p : Pass) (line : string) (self : LogAnalyzer)
  : LogAnalyzer :=
  match p with
  | PError => _check_error_patterns line self
  | PNullSafety => _check_null_safety_issues line self
  | PAsync => _check_async_errors line self
  | PSecurity => _check_security_issues line self
  | PPerformance => _check_performance_issues line self
  end.

(** The order written in [_process_line]. *)
Definition source_order : list Pass :=
  [PError; PNullSafety; PAsync; PSecurity; PPerformance].

(** [_process_line] with its pattern passes run in the given order. *)
Definition process_line_in (order : list Pass) (line : string) (index : nat)
  (all_lines : list string) (self : LogAnalyzer) : LogAnalyzer :=
  if String.eqb (Str.strip line) "" then self
  else
    let self := fold_left (fun self p => run_pass p line self) order self in
    _check_stack_traces line index all_lines self.

Definition analyze_lines_in (order : list Pass) (lines : list string)
  (self : LogAnalyzer) : LogAnalyzer :=
  fold_left (fun self '(i, line) => process_line_in order line i lines self)
    (enumerate lines) self.

(** The attribute of the analyzer that a pass appends its findings to. *)
Inductive Collection : Type :=
| Errors | Warnings | SecurityIssues | PerformanceIssues.

Definition collection (c : Collection) (self : LogAnalyzer) : list Finding :=
  match c with
  | Errors => errors self
  | Warnings => warnings self
  | SecurityIssues => security_issues self
  | PerformanceIssues => performance_issues self
  end.

(** [writes_to p c]: some line makes pass [p] change collection [c]. *)
Definition writes_to (p : Pass) (c : Collection) : Prop :=
  exists line self,
    collection c (run_pass p line self) <> collection c self.

(** [p] occurs in [order] before [q] does. *)
Definition runs_before (p q : Pass) (order : list Pass) : Prop :=
  exists l1 l2 l3, order = l1 ++ p :: l2 ++ q :: l3.

(* ================================================================= *)
(** ** Stack-trace spans

    A recorded block is stored as one joined string.  [trace_span] names
    the lines of [all_lines] that the block of a start line is made of: the
    index of the start line and the number of lines of the block. *)

Definition trace_span (line : string) (index : nat)
  (all_lines : list string) : option (nat * nat) :=
  if String.eqb (Str.strip line) "" then None
  else if trace_start line then
    let n := 1 + length (take_while trace_continues (skipn (index + 1) all_lines)) in
    if 1 <? n then Some (index, n) else None
  else None.

(** The spans of all blocks that [analyze_lines] records, in order. *)
Definition trace_spans (lines : list string) : list (nat * nat) :=
  flat_map (fun '(i, line) =>
              match trace_span line i lines with
              | Some sp => [sp]
              | None => []
              end)
    (enumerate lines).

(** The lines [i, i + n) of the input, joined as a block is. *)
Definition span_block (lines : list string) (sp : nat * nat) : string :=
  Str.join Str.nl (firstn (snd sp) (skipn (fst sp) lines)).

(** The spans of the blocks that [analyze_stdin] records: the start test
    sees the stripped line, the lines that follow are taken as read. *)
Definition stdin_spans (lines : list string) : list (nat * nat) :=
  flat_map (fun '(i, line) =>
              match trace_span (Str.strip line) i lines with
              | Some sp => [sp]
              | None => []
              end)
    (enumerate lines).

(** The block that [analyze_stdin] stores for a span: the lines [i, i + n)
    of the input joined, the first of them stripped. *)
Definition stdin_block (lines : list string) (sp : nat * nat) : string :=
  match firstn (snd sp) (skipn (fst sp) lines) with
  | [] => ""
  | first :: others => Str.join Str.nl (Str.strip first :: others)
  end.

(** Line [j] lies inside the span. *)
Definition in_span (j : nat) (sp : nat * nat) : Prop :=
  fst sp <= j < fst sp + snd sp.

(** The number of lines of a joined block. *)
Definition block_lines (block : string) : nat :=
  length (Str.split_newline block).

(* ================================================================= *)
(** ** Output and exceptions *)

Inductive Exn : Type :=
| AttributeError (name : string)
| SystemExit (code : nat).

(** A computation prints lines and then returns or raises. *)
Definition IO (A : Type) : Type := list string * (Exn + A).

Definition ret {A : Type} (a : A) : IO A := ([], inr a).

Definition raise {A : Type} (e : Exn) : IO A := ([], inl e).

Definition bind {A B : Type} (m : IO A) (f : A -> IO B) : IO B :=
  match m with
  | (out, inl e) => (out, inl e)
  | (out, inr a) => let (out', r) := f a in (out ++ out', r)
  end.

(** [print(s)] *)
Definition print (s : string) : IO unit := ([s], inr tt).

Notation "x <- m ;; k" := (bind m (fun x => k))
  (at level 65, m at next level, right associativity).
Notation "m ;; k" := (bind m (fun _ => k))
  (at level 65, right associativity).

(** [if c: body] *)
Definition when (c : bool) (body : IO unit) : IO unit :=
  if c then body else ret tt.

(** [for x in l: body(x)] *)
Fixpoint for_each {A : Type} (l : list A) (body : A -> IO unit) : IO unit :=
  match l with
  | [] => ret tt
  | x :: l' => body x ;; for_each l' body
  end.

Definition stdout {A : Type} (m : IO A) : list string := fst m.
Definition outcome {A : Type} (m : IO A) : Exn + A := snd m.

(** A computation that returns and raises nothing. *)
Definition safe (m : IO unit) : Prop := outcome m = inr tt.

(** The exit status of the interpreter: 0 when the script returns, the
    argument of [sys.exit], 1 for any other exception that is not caught. *)
Definition exit_status {A : Type} (m : IO A) : nat :=
  match outcome m with
  | inr _ => 0
  | inl (SystemExit code) => code
  | inl (AttributeError _) => 1
  end.

(* ================================================================= *)
(** ** Attributes of the analyzer *)

Inductive Value : Type :=
| VFindings (l : list Finding)
| VStrings (l : list string)
| VCounter (m : Counter)
| VMethod (name : string).

(** Truth value of an attribute in a condition. *)
Definition truthy (v : Value) : bool :=
  match v with
  | VFindings l => negb (length l =? 0)
  | VStrings l => negb (length l =? 0)
  | VCounter m => negb (length m =? 0)
  | VMethod _ => true
  end.

(** The instance attributes: those that [__init__] assigns; no method
    assigns another one. *)
Definition instance_dict (self : LogAnalyzer) : list (string * Value) :=
  [ ("errors", VFindings (errors self));
    ("warnings", VFindings (warnings self));
    ("stack_traces", VStrings (stack_traces self));
    ("patterns", VCounter (patterns self));
    ("security_issues", VFindings (security_issues self));
    ("performance_issues", VFindings (performance_issues self)) ].

(** The attributes of the class: its methods. *)
Definition class_dict : list (string * Value) :=
  map (fun name => (name, VMethod name))
    [ "__init__"; "analyze_file"; "analyze_stdin"; "_process_line";
      "_check_error_patterns"; "_check_null_safety_issues";
      "_check_async_errors"; "_check_security_issues";
      "_check_performance_issues"; "_check_stack_traces"; "print_report" ].

Fixpoint lookup (name : string) (d : list (string * Value)) : option Value :=
  match d with
  | [] => None
  | (k, v) :: d' => if String.eqb name k then Some v else lookup name d'
  end.

(** [self.name]: the instance attributes, then the class. *)
Definition getattr (self : LogAnalyzer) (name : string) : IO Value :=
  match lookup name (instance_dict self) with
  | Some v => ret v
  | None =>
      match lookup name class_dict with
      | Some v => ret v
      | None => raise (AttributeError name)
      end
  end.

(* ================================================================= *)
(** ** The report *)

(** The bullet U+2022 of the pattern table, as the bytes of its UTF-8
    encoding; it only occurs in printed text. *)
Definition bullet : string :=
  String (ascii_of_nat 226) (String (ascii_of_nat 128)
    (String (ascii_of_nat 162) "")).

(** [sorted(items, key=lambda x: x[1], reverse=True)]: by descending count,
    entries of equal count in their original order. *)
Fixpoint insert_desc (x : string * nat) (l : list (string * nat))
  : list (string * nat) :=
  match l with
  | [] => [x]
  | y :: l' => if snd x <? snd y then y :: insert_desc x l' else x :: l
  end.

Definition sorted_desc (l : list (string * nat)) : list (string * nat) :=
  fold_right insert_desc [] l.

(** [enumerate(l, 1)] *)
Definition enumerate1 {A : Type} (l : list A) : list (nat * A) :=
  combine (seq 1 (length l)) l.

Definition nonempty {A : Type} (l : list A) : bool := negb (length l =? 0).

Definition rule (c : ascii) : string := Str.repeat c 60.

(** The two lines printed for one listed finding. *)
Definition print_finding (entry : nat * Finding) : IO unit :=
  let (i, f) := entry in
  print ("  " ++ Str.of_nat i ++ ". [" ++ ftype f ++ "]")%string ;;
  print ("     " ++ Str.upto 80 (fline f) ++ "...")%string.

(** [LogAnalyzer.print_report] *)
Definition print_report (self : LogAnalyzer) : IO unit :=
  print (Str.nl ++ rule "=")%string ;;
  print "FLUTTER LOG ANALYSIS REPORT" ;;
  print (rule "=" ++ Str.nl)%string ;;
  (* Summary *)
  print ("Total Issues Found: "
         ++ Str.of_nat (length (errors self) + length (warnings self)))%string ;;
  print ("  - Critical Errors: " ++ Str.of_nat (length (errors self)))%string ;;
  print ("  - Warnings: " ++ Str.of_nat (length (warnings self)))%string ;;
  print ("  - Security Issues: "
         ++ Str.of_nat (length (security_issues self)))%string ;;
  print ("  - Performance Issues: "
         ++ Str.of_nat (length (performance_issues self)))%string ;;
  print "" ;;
  (* Error Patterns *)
  when (nonempty (patterns self))
    (print "ERROR PATTERNS DETECTED:" ;;
     print (rule "-") ;;
     for_each (sorted_desc (patterns self))
       (fun '(pattern, count) =>
          print ("  " ++ bullet ++ " " ++ pattern ++ ": "
                 ++ Str.of_nat count ++ " occurrence(s)")%string) ;;
     print "") ;;
  (* Critical Errors *)
  when (nonempty (errors self))
    (print "CRITICAL ERRORS:" ;;
     print (rule "-") ;;
     for_each (enumerate1 (firstn 10 (errors self))) print_finding ;;
     when (10 <? length (errors self))
       (print ("  ... and " ++ Str.of_nat (length (errors self) - 10)
               ++ " more")%string) ;;
     print "") ;;
  (* Security Issues *)
  when (nonempty (security_issues self))
    (print "SECURITY ISSUES:" ;;
     print (rule "-") ;;
     for_each (enumerate1 (firstn 10 (security_issues self))) print_finding ;;
     when (10 <? length (security_issues self))
       (print ("  ... and " ++ Str.of_nat (length (security_issues self) - 10)
               ++ " more")%string) ;;
     print "") ;;
  (* Performance Issues *)
  when (nonempty (performance_issues self))
    (print "PERFORMANCE ISSUES:" ;;
     print (rule "-") ;;
     for_each (enumerate1 (firstn 5 (performance_issues self))) print_finding ;;
     when (5 <? length (performance_issues self))
       (print ("  ... and "
               ++ Str.of_nat (length (performance_issues self) - 5)
               ++ " more")%string) ;;
     print "") ;;
  (* Stack Traces *)
  when (nonempty (stack_traces self))
    (print "STACK TRACES:" ;;
     print (rule "-") ;;
     for_each (enumerate1 (firstn 3 (stack_traces self)))
       (fun '(i, trace) =>
          print (Str.nl ++ "Trace " ++ Str.of_nat i ++ ":")%string ;;
          print (Str.upto 500 trace
                 ++ (if (500 <? String.length trace)%nat then "..." else ""))%string) ;;
     when (3 <? length (stack_traces self))
       (print (Str.nl ++ "... and "
               ++ Str.of_nat (length (stack_traces self) - 3)
               ++ " more stack traces")%string) ;;
     print "") ;;
  print (rule "=") ;;
  print "RECOMMENDATIONS:" ;;
  print (rule "-") ;;
  when (nonempty (errors self))
    (print "  1. Address critical errors immediately (NullPointerException, etc.)") ;;
  async_errors <- getattr self "async_errors" ;;
  when (truthy async_errors)
    (print "  2. Review async/await code for proper error handling") ;;
  when (nonempty (security_issues self))
    (print "  3. Address security issues before release") ;;
  when (nonempty (performance_issues self))
    (print "  4. Investigate performance issues (ANRs, memory usage)") ;;
  print "  5. Run 'flutter doctor -v' to verify environment" ;;
  print (rule "=" ++ Str.nl)%string.

(** The part of the report that precedes the recommendations. *)
Definition report_head (self : LogAnalyzer) : list string :=
  [ (Str.nl ++ rule "=")%string;
    "FLUTTER LOG ANALYSIS REPORT";
    (rule "=" ++ Str.nl)%string;
    ("Total Issues Found: "
     ++ Str.of_nat (length (errors self) + length (warnings self)))%string;
    ("  - Critical Errors: " ++ Str.of_nat (length (errors self)))%string;
    ("  - Warnings: " ++ Str.of_nat (length (warnings self)))%string;
    ("  - Security Issues: "
     ++ Str.of_nat (length (security_issues self)))%string;
    ("  - Performance Issues: "
     ++ Str.of_nat (length (performance_issues self)))%string;
    "" ].

(** *** The text of the report, section by section *)

(** One row of the table of pattern counts. *)
Definition pattern_row (e : string * nat) : string :=
  ("  " ++ bullet ++ " " ++ fst e ++ ": " ++ Str.of_nat (snd e)
   ++ " occurrence(s)")%string.

(** The table of pattern counts: nothing for an empty counter. *)
Definition table_text (m : Counter) : list string :=
  if nonempty m
  then "ERROR PATTERNS DETECTED:" :: rule "-"
       :: map pattern_row (sorted_desc m) ++ [""]
  else [].

(** The two lines of a listed finding. *)
Definition finding_lines (e : nat * Finding) : list string :=
  [ ("  " ++ Str.of_nat (fst e) ++ ". [" ++ ftype (snd e) ++ "]")%string;
    ("     " ++ Str.upto 80 (fline (snd e)) ++ "...")%string ].

(** A listing of findings under a title: at most [limit] of them, then
    how many more there are; nothing for an empty list. *)
Definition listing_text (title : string) (limit : nat) (l : list Finding)
  : list string :=
  if nonempty l
  then title :: rule "-"
       :: flat_map finding_lines (enumerate1 (firstn limit l))
          ++ (if limit <? length l
              then [("  ... and " ++ Str.of_nat (length l - limit)
                     ++ " more")%string]
              else [])
          ++ [""]
  else [].

(** The two lines of a listed stack trace. *)
Definition trace_lines (e : nat * string) : list string :=
  [ (Str.nl ++ "Trace " ++ Str.of_nat (fst e) ++ ":")%string;
    (Str.upto 500 (snd e)
     ++ (if (500 <? String.length (snd e))%nat then "..." else ""))%string ].

Definition traces_text (l : list string) : list string :=
  if nonempty l
  then "STACK TRACES:" :: rule "-"
       :: flat_map trace_lines (enumerate1 (firstn 3 l))
          ++ (if 3 <? length l
              then [(Str.nl ++ "... and " ++ Str.of_nat (length l - 3)
                     ++ " more stack traces")%string]
              else [])
          ++ [""]
  else [].

(** All that [print_report] prints before it fails. *)
Definition report_text (self : LogAnalyzer) : list string :=
  report_head self
  ++ table_text (patterns self)
  ++ listing_text "CRITICAL ERRORS:" 10 (errors self)
  ++ listing_text "SECURITY ISSUES:" 10 (security_issues self)
  ++ listing_text "PERFORMANCE ISSUES:" 5 (performance_issues self)
  ++ traces_text (stack_traces self)
  ++ [rule "="; "RECOMMENDATIONS:"; rule "-"]
  ++ (if nonempty (errors self)
      then ["  1. Address critical errors immediately (NullPointerException, etc.)"]
      else []).

(* ================================================================= *)
(** ** The drivers *)

(** The file system as [open] sees it: the decoded content of a file, or
    nothing when the file does not exist ([FileNotFoundError]). *)
Definition FileSystem : Type := string -> option string.

(** [LogAnalyzer.analyze_file]: the truth value returned, and the analyzer
    after the call. *)
Definition analyze_file (fs : FileSystem) (filepath : string)
  (self : LogAnalyzer) : IO (bool * LogAnalyzer) :=
  match fs filepath with
  | None =>
      print ("Error: File not found: " ++ filepath)%string ;;
      ret (false, self)
  | Some content =>
      let lines := Str.split_newline content in
      ret (true, analyze_lines lines self)
  end.

(** [main], given [sys.argv], the file system and the lines of the
    standard input. *)
Definition main (argv : list string) (fs : FileSystem) (stdin_lines : list string)
  : IO unit :=
  analyzer <-
    (if length argv <? 2 then
       let analyzer := __init__ in
       print "Reading logs from stdin (Ctrl+D to end)..." ;;
       ret (analyze_stdin stdin_lines analyzer)
     else
       let logfile := nth 1 argv "" in
       let analyzer := __init__ in
       r <- analyze_file fs logfile analyzer ;;
       if negb (fst r) then raise (SystemExit 1) else ret (snd r)) ;;
  print_report analyzer ;;
  (* Return error code if issues found *)
  when (nonempty (errors analyzer) || nonempty (security_issues analyzer))
    (raise (SystemExit 1)).

(** What [main] would do if [print_report] returned: the exit status that
    the last statement of [main] chooses. *)
Definition final_status (analyzer : LogAnalyzer) : nat :=
  exit_status
    (when (nonempty (errors analyzer) || nonempty (security_issues analyzer))
       (raise (SystemExit 1))).

(* ================================================================= *)
(** ** Analyzer objects in the store of the interpreter

    The four lists, the list of stack traces and the counter of an analyzer
    are objects of their own in the store of the interpreter, and the
    attributes of the analyzer refer to them.  [OnHeap] embeds the methods
    as they act on that store: [append] and [+= 1] change the object that
    an attribute refers to, and with it what every other reference to that
    object sees. *)

Definition Ref : Type := nat.

(** The store: the objects in the order of their creation. *)
Definition Heap : Type := list Value.

(** An analyzer: what its six attributes refer to. *)
Record Object : Type := mkObject {
  r_errors : Ref;
  r_warnings : Ref;
  r_stack_traces : Ref;
  r_patterns : Ref;
  r_security_issues : Ref;
  r_performance_issues : Ref
}.

Definition refs (o : Object) : list Ref :=
  [r_errors o; r_warnings o; r_stack_traces o; r_patterns o;
   r_security_issues o; r_performance_issues o].

Module OnHeap.

(** A new object. *)
Definition alloc (v : Value) (h : Heap) : Ref * Heap := (length h, h ++ [v]).

(** A change of the object behind a reference. *)
Fixpoint modify (r : Ref) (g : Value -> Value) (h : Heap) : Heap :=
  match h, r with
  | [], _ => []
  | v :: h', O => g v :: h'
  | v :: h', S r' => v :: modify r' g h'
  end.

(** [l.append(f)] on the list of findings behind [r]. *)
Definition append_finding (r : Ref) (f : Finding) (h : Heap) : Heap :=
  modify r (fun v => match v with
                     | VFindings l => VFindings (l ++ [f])
                     | _ => v
                     end) h.

(** [l.append(t)] on the list of strings behind [r]. *)
Definition append_string (r : Ref) (t : string) (h : Heap) : Heap :=
  modify r (fun v => match v with
                     | VStrings l => VStrings (l ++ [t])
                     | _ => v
                     end) h.

(** [m[k] += 1] on the counter behind [r]. *)
Definition increment (r : Ref) (k : string) (h : Heap) : Heap :=
  modify r (fun v => match v with
                     | VCounter m => VCounter (Counter.incr k m)
                     | _ => v
                     end) h.

(** [LogAnalyzer()]: [__init__] creates the six objects, one after the
    other, and binds the attributes to them. *)
Definition __init__ (h : Heap) : Object * Heap :=
  let (errors, h) := alloc (VFindings []) h in
  let (warnings, h) := alloc (VFindings []) h in
  let (stack_traces, h) := alloc (VStrings []) h in
  let (patterns, h) := alloc (VCounter []) h in
  let (security_issues, h) := alloc (VFindings []) h in
  let (performance_issues, h) := alloc (VFindings []) h in
  (mkObject errors warnings stack_traces patterns security_issues
     performance_issues, h).

Definition _check_error_patterns (self : Object) (line : string) (h : Heap)
  : Heap :=
  fold_left
    (fun h '(pattern, name) =>
       if Re.search pattern line
       then increment (r_patterns self) name
              (append_finding (r_errors self)
                 (mkFinding name (Str.strip line)) h)
       else h)
    error_patterns h.

Definition _check_null_safety_issues (self : Object) (line : string)
  (h : Heap) : Heap :=
  fold_left
    (fun h pattern =>
       if Re.search pattern line
       then increment (r_patterns self) "Null Safety Issue"
              (append_finding (r_warnings self)
                 (mkFinding "Null Safety Issue" (Str.strip line)) h)
       else h)
    null_patterns h.

Definition _check_async_errors (self : Object) (line : string) (h : Heap)
  : Heap :=
  fold_left
    (fun h pattern =>
       if Re.search pattern line
       then increment (r_patterns self) "Async Error"
              (append_finding (r_errors self)
                 (mkFinding "Async/Future Error" (Str.strip line)) h)
       else h)
    async_patterns h.

Definition _check_security_issues (self : Object) (line : string) (h : Heap)
  : Heap :=
  fold_left
    (fun h '(pattern, issue_type) =>
       if Re.search pattern line
       then increment (r_patterns self) ("Security: " ++ issue_type)%string
              (append_finding (r_security_issues self)
                 (mkFinding issue_type (Str.strip line)) h)
       else h)
    security_patterns h.

Definition _check_performance_issues (self : Object) (line : string)
  (h : Heap) : Heap :=
  fold_left
    (fun h '(pattern, issue_type) =>
       if Re.search pattern line
       then increment (r_patterns self) ("Performance: " ++ issue_type)%string
              (append_finding (r_performance_issues self)
                 (mkFinding issue_type (Str.strip line)) h)
       else h)
    perf_patterns h.

Definition _check_stack_traces (self : Object) (line : string) (index : nat)
  (all_lines : list string) (h : Heap) : Heap :=
  if trace_start line then
    let trace := line :: take_while trace_continues (skipn (index + 1) all_lines) in
    if 1 <? length trace
    then append_string (r_stack_traces self) (Str.join Str.nl trace) h
    else h
  else h.

Definition _process_line (self : Object) (line : string) (index : nat)
  (all_lines : list string) (h : Heap) : Heap :=
  if String.eqb (Str.strip line) "" then h
  else
    let h := _check_error_patterns self line h in
    let h := _check_null_safety_issues self line h in
    let h := _check_async_errors self line h in
    let h := _check_security_issues self line h in
    let h := _check_performance_issues self line h in
    _check_stack_traces self line index all_lines h.

(** The loop of [analyze_file] and [analyze_stdin]. *)
Definition analyze_lines (self : Object) (lines : list string) (h : Heap)
  : Heap :=
  fold_left (fun h '(i, line) => _process_line self line i lines h)
    (enumerate lines) h.

Definition analyze_stdin (self : Object) (lines : list string) (h : Heap)
  : Heap :=
  fold_left (fun h '(i, line) => _process_line self (Str.strip line) i lines h)
    (enumerate lines) h.

End OnHeap.

(** The objects behind the attributes of [o] hold what the analyzer [a]
    holds. *)
Definition holds (o : Object) (a : LogAnalyzer) (h : Heap) : Prop :=
  nth_error h (r_errors o) = Some (VFindings (errors a))
  /\ nth_error h (r_warnings o) = Some (VFindings (warnings a))
  /\ nth_error h (r_stack_traces o) = Some (VStrings (stack_traces a))
  /\ nth_error h (r_patterns o) = Some (VCounter (patterns a))
  /\ nth_error h (r_security_issues o) = Some (VFindings (security_issues a))
  /\ nth_error h (r_performance_issues o)
     = Some (VFindings (performance_issues a)).

(** From [h0] to [h] no object was created and every object that [o] does
    not refer to is as it was. *)
Definition unchanged_outside (o : Object) (h0 h : Heap) : Prop :=
  length h = length h0
  /\ forall r, ~ In r (refs o) -> nth_error h r = nth_error h0 r.

(** The store [h] has followed the analyzer [a] since [h0]: the six
    attributes of [o] refer to six distinct objects, these hold what [a]
    holds, and nothing else has changed. *)
Definition mirrors (o : Object) (h0 : Heap) (a : LogAnalyzer) (h : Heap)
  : Prop :=
  NoDup (refs o) /\ holds o a h /\ unchanged_outside o h0 h.

(* ================================================================= *)
(** ** The passes in one shape

    Every pattern pass walks a catalog and, for each entry whose pattern is
    found in the line, appends one finding to one collection and increments
    one counter.  [entries] lists, for a pass, the pattern, the type of the
    finding and the key of the counter of each catalog entry. *)

Definition Entry : Type := (Re.regex * string * string)%type.

Definition e_pattern (e : Entry) : Re.regex := fst (fst e).
Definition e_type (e : Entry) : string := snd (fst e).
Definition e_key (e : Entry) : string := snd e.

Definition entries (p : Pass) : list Entry :=
  match p with
  | PError => map (fun '(pattern, name) => (pattern, name, name)) error_patterns
  | PNullSafety =>
      map (fun pattern => (pattern, "Null Safety Issue", "Null Safety Issue"))
        null_patterns
  | PAsync =>
      map (fun pattern => (pattern, "Async/Future Error", "Async Error"))
        async_patterns
  | PSecurity =>
      map (fun '(pattern, issue_type) =>
             (pattern, issue_type, ("Security: " ++ issue_type)%string))
        security_patterns
  | PPerformance =>
      map (fun '(pattern, issue_type) =>
             (pattern, issue_type, ("Performance: " ++ issue_type)%string))
        perf_patterns
  end.

(** The collection that a pass appends to. *)
Definition target (p : Pass) : Collection :=
  match p with
  | PError => Errors
  | PNullSafety => Warnings
  | PAsync => Errors
  | PSecurity => SecurityIssues
  | PPerformance => PerformanceIssues
  end.

Definition append_to (c : Collection) (f : Finding) (self : LogAnalyzer)
  : LogAnalyzer :=
  match c with
  | Errors => errors_append f self
  | Warnings => warnings_append f self
  | SecurityIssues => security_issues_append f self
  | PerformanceIssues => performance_issues_append f self
  end.

Definition walk (c : Collection) (catalog : list Entry) (line : string)
  (self : LogAnalyzer) : LogAnalyzer :=
  fold_left
    (fun self e =>
       if Re.search (e_pattern e) line
       then patterns_incr (e_key e)
              (append_to c (mkFinding (e_type e) (Str.strip line)) self)
       else self)
    catalog self.

(** The catalog entries of a pass whose pattern is found in the line. *)
Definition hits (catalog : list Entry) (line : string) : list Entry :=
  filter (fun e => Re.search (e_pattern e) line) catalog.

Definition finding_of (line : string) (e : Entry) : Finding :=
  mkFinding (e_type e) (Str.strip line).

Definition Collection_eqb (c d : Collection) : bool :=
  match c, d with
  | Errors, Errors | Warnings, Warnings | SecurityIssues, SecurityIssues
  | PerformanceIssues, PerformanceIssues => true
  | _, _ => false
  end.

(** What the passes of [order] append to collection [c] for one line, and
    the counter keys they increment. *)
Definition appended (c : Collection) (order : list Pass) (line : string)
  : list Finding :=
  flat_map (fun p => if Collection_eqb (target p) c
                     then map (finding_of line) (hits (entries p) line)
                     else [])
    order.

Definition incremented (order : list Pass) (line : string) : list string :=
  flat_map (fun p => map e_key (hits (entries p) line)) order.

Definition has_type (t : string) (f : Finding) : bool := String.eqb (ftype f) t.

(** A span that starts a trace, continues over qualifying lines and cannot
    be extended forward. *)
Definition forward_maximal_run (lines : list string) (sp : nat * nat) : Prop :=
  let (i, n) := sp in
  2 <= n /\ i + n <= length lines
  /\ (exists l, nth_error lines i = Some l
                /\ Str.strip l <> "" /\ trace_start l = true)
  /\ (forall j, i < j < i + n ->
        exists l, nth_error lines j = Some l /\ trace_continues l = true)
  /\ (forall l, nth_error lines (i + n) = Some l -> trace_continues l = false).

(** The same for [analyze_stdin], whose start test sees the stripped
    line. *)
Definition stdin_run (lines : list string) (sp : nat * nat) : Prop :=
  let (i, n) := sp in
  2 <= n /\ i + n <= length lines
  /\ (exists l, nth_error lines i = Some l
                /\ Str.strip (Str.strip l) <> ""
                /\ trace_start (Str.strip l) = true)
  /\ (forall j, i < j < i + n ->
        exists l, nth_error lines j = Some l /\ trace_continues l = true)
  /\ (forall l, nth_error lines (i + n) = Some l -> trace_continues l = false).

(** The lines after the first of a span continue the trace, and the line
    after the span, if any, does not. *)
Definition run_tail (lines : list string) (sp : nat * nat) : Prop :=
  (forall j, fst sp < j < fst sp + snd sp ->
     exists l, nth_error lines j = Some l /\ trace_continues l = true)
  /\ (forall l, nth_error lines (fst sp + snd sp) = Some l ->
                trace_continues l = false).

(** No input line lies inside two distinct spans. *)
Definition non_overlapping (spans : list (nat * nat)) : Prop :=
  forall sp1 sp2 j,
    In sp1 spans -> In sp2 spans -> in_span j sp1 -> in_span j sp2 -> sp1 = sp2.

(** Two analyzers hold the same findings. *)
Definition same_findings (a b : LogAnalyzer) : Prop :=
  errors a = errors b /\ warnings a = warnings b
  /\ security_issues a = security_issues b
  /\ performance_issues a = performance_issues b.

(** Two counters hold the same count for every key. *)
Definition same_counts (m m' : Counter) : Prop :=
  forall k, Counter.get k m = Counter.get k m'.

(** Two analyzers hold the same report, up to a relation [E] of their
    errors lists and up to the order of the counter keys. *)
Definition alike (E : list Finding -> list Finding -> Prop)
  (a b : LogAnalyzer) : Prop :=
  E (errors a) (errors b)
  /\ warnings a = warnings b
  /\ security_issues a = security_issues b
  /\ performance_issues a = performance_issues b
  /\ stack_traces a = stack_traces b
  /\ same_counts (patterns a) (patterns b).

(** The number of findings in the four lists. *)
Definition total_findings (self : LogAnalyzer) : nat :=
  length (errors self) + length (warnings self)
  + length (security_issues self) + length (performance_issues self).

(* ================================================================= *)
(** ** Checks on the catalogs *)

Definition Pass_eqb (p q : Pass) : bool :=
  match p, q with
  | PError, PError | PNullSafety, PNullSafety | PAsync, PAsync
  | PSecurity, PSecurity | PPerformance, PPerformance => true
  | _, _ => false
  end.

Definition mem (k : string) (l : list string) : bool :=
  existsb (String.eqb k) l.

Fixpoint distinct (l : list string) : bool :=
  match l with
  | [] => true
  | x :: l' => negb (mem x l') && distinct l'
  end.

(** No other pass uses the counter key of entry [e], and no other pass
    that appends to the same collection uses its finding type. *)
Definition apart_from (p : Pass) (e : Entry) (q : Pass) : bool :=
  negb (mem (e_key e) (map e_key (entries q)))
  && (negb (Collection_eqb (target q) (target p))
      || negb (mem (e_type e) (map e_type (entries q)))).

(** Entry [e] of pass [p] has a finding type and a counter key of its own:
    the types and the keys of [p] are pairwise distinct, and [e] is apart
    from every other pass. *)
Definition isolated (p : Pass) (e : Entry) : bool :=
  distinct (map e_type (entries p)) && distinct (map e_key (entries p))
  && forallb (fun q => Pass_eqb q p || apart_from p e q) source_order.

(** The text begins with a letter. *)
Definition starts_with_letter (s : string) : bool :=
  match Str.lower_str s with
  | "" => false
  | String c _ => (97 <=? nat_of_ascii c) && (nat_of_ascii c <=? 122)
  end.

(* ================================================================= *)
(** ** What one line contributes *)

(** [not line.strip()] *)
Definition is_blank (line : string) : bool := String.eqb (Str.strip line) "".

(** The findings that [_process_line] appends to a collection for a line,
    and the counter keys it increments, in the order of the source. *)
Definition line_findings (c : Collection) (line : string) : list Finding :=
  if is_blank line then [] else appended c source_order line.

Definition line_keys (line : string) : list string :=
  if is_blank line then [] else incremented source_order line.

(** The most findings that one line can add to a collection: the number
    of catalog entries of the passes that append to it. *)
Definition writers_size (c : Collection) : nat :=
  length (flat_map (fun p => if Collection_eqb (target p) c
                             then entries p else [])
            source_order).

(** In pass [q], seen from collection [c]: the entries with finding type
    [t] are those with counter key [k]; a pass that appends elsewhere does
    not use the key [k]. *)
Definition agrees (c : Collection) (t k : string) (q : Pass) : bool :=
  if Collection_eqb (target q) c
  then forallb (fun a => Bool.eqb (String.eqb (e_type a) t)
                           (String.eqb (e_key a) k))
         (entries q)
  else negb (mem k (map e_key (entries q))).

(** The string holds no newline character. *)
Fixpoint no_newline (s : string) : bool :=
  match s with
  | "" => true
  | String c s' => negb (Ascii.eqb c Str.newline) && no_newline s'
  end.

(** The number of findings of a given type in a list. *)
Definition count_type (t : string) (l : list Finding) : nat :=
  length (filter (has_type t) l).

(* ================================================================= *)
(** ** Sample inputs *)

(** The lines of the stack-trace example of the specification. *)
Definition trace_example : list string :=
  ["Exception foo"; "  at bar()"; "  at baz()"; "next unrelated"].

(** Three frames in a row: each of the first two starts a block. *)
Definition three_frames : list string := ["  at a"; "  at b"; "  at c"].

(** The async pass moved in front of the error pass. *)
Definition async_first : list Pass :=
  [PAsync; PError; PNullSafety; PSecurity; PPerformance].

(** A log file without any finding, and a file system that holds it. *)
Definition clean_log : string := ("all good" ++ Str.nl)%string.

Definition one_file (name content : string) : FileSystem :=
  fun filepath => if String.eqb filepath name then Some content else None.

(* ================================================================= *)
(** * Properties *)

(** ** Strings *)

Module StrFacts.
Import Str.

Lemma append_assoc (a b c : string) :
  ((a ++ b) ++ c = a ++ (b ++ c))%string.
Proof. induction a as [|x a IH]; simpl; [reflexivity | now rewrite IH]. Qed.

Lemma rstrip_empty (s : string) : rstrip s = "" <-> all_space s = true.
Proof.
  induction s as [|c s IH]; simpl.
  - tauto.
  - destruct (rstrip s) eqn:E.
    + destruct (isspace c); simpl.
      * split; intros _; [apply IH|]; reflexivity.
      * split; discriminate.
    + split; [discriminate|].
      intros H. apply andb_true_iff in H as [_ H].
      apply IH in H. discriminate.
Qed.

Lemma all_space_lstrip (s : string) : all_space (lstrip s) = all_space s.
Proof.
  induction s as [|c s IH]; simpl; [reflexivity|].
  destruct (isspace c) eqn:E; simpl; [exact IH | now rewrite E].
Qed.

(** [not s.strip()] holds exactly of the strings of white space. *)
Lemma strip_empty (s : string) : strip s = "" <-> all_space s = true.
Proof. unfold strip. rewrite rstrip_empty, all_space_lstrip. tauto. Qed.

Lemma prefix_nil (s : string) : String.prefix "" s = true.
Proof. destruct s; reflexivity. Qed.

Lemma prefix_cons (a b : ascii) (p s : string) :
  String.prefix (String a p) (String b s)
  = Ascii.eqb a b && String.prefix p s.
Proof.
  simpl. destruct (ascii_dec a b) as [->|N].
  - now rewrite Ascii.eqb_refl.
  - apply Ascii.eqb_neq in N. now rewrite N.
Qed.

(** A character that folds to a lower-case letter is not white space. *)
Lemma lower_letter_not_space (c : ascii) :
  (97 <=? nat_of_ascii (lower c)) && (nat_of_ascii (lower c) <=? 122) = true ->
  isspace c = false.
Proof.
  destruct c as [[] [] [] [] [] [] [] []]; vm_compute; congruence.
Qed.

(** A string that holds a character which is not white space does not
    strip to nothing. *)
Lemma all_space_contains (needle hay : string) (c : ascii) (rest : string) :
  needle = String c rest ->
  (forall d, lower d = c -> isspace d = false) ->
  contains needle (lower_str hay) = true ->
  all_space hay = false.
Proof.
  intros -> Hc. induction hay as [|d hay IH]; simpl.
  - discriminate.
  - intros H. apply orb_true_iff in H as [H|H].
    + destruct (ascii_dec c (lower d)) as [E|]; [|discriminate].
      now rewrite (Hc d (eq_sym E)).
    + rewrite (IH H). apply andb_false_r.
Qed.

End StrFacts.

(** ** Regular expressions *)

Module ReFacts.
Import Str Re.

Lemma eat_literal_app (p m rest : string) :
  eat_literal p m = Some "" -> eat_literal p (m ++ rest) = Some rest.
Proof.
  revert m. induction p as [|c p IH]; intros m; simpl.
  - intros [= ->]. reflexivity.
  - destruct m as [|d m]; [discriminate|]. simpl.
    destruct (eqb_ci c d); [apply IH | discriminate].
Qed.

Lemma eat_literal_split (p t t' : string) :
  eat_literal p t = Some t' ->
  exists m, t = (m ++ t')%string /\ eat_literal p m = Some "".
Proof.
  revert t. induction p as [|c p IH]; intros t; simpl.
  - intros [= ->]. now exists "".
  - destruct t as [|d t]; [discriminate|].
    destruct (eqb_ci c d) eqn:E; [|discriminate].
    intros H. destruct (IH _ H) as (m & -> & Hm).
    exists (String d m). simpl. now rewrite E.
Qed.

Lemma dotstar_here (k : string -> bool) (t : string) :
  k t = true -> dotstar k t = true.
Proof. destruct t; simpl; intros ->; [reflexivity | apply orb_true_r]. Qed.

(** The matcher finds every match of the language. *)
Lemma match_here_complete (r : regex) (m : string) :
  Matches r m ->
  forall k rest, k rest = true -> match_here r (m ++ rest) k = true.
Proof.
  induction 1 as [p m Hp | | c m Hc _ IH | a b m1 m2 _ IH1 _ IH2
                 | a b m _ IH | a b m _ IH]; intros k rest Hk; simpl.
  - now rewrite (eat_literal_app _ _ rest Hp).
  - now apply dotstar_here.
  - apply Ascii.eqb_neq in Hc. rewrite Hc. simpl.
    specialize (IH k rest Hk). simpl in IH. now rewrite IH.
  - rewrite StrFacts.append_assoc. apply IH1. now apply IH2.
  - now rewrite IH.
  - rewrite (IH k rest Hk). apply orb_true_r.
Qed.

Lemma dotstar_sound (k : string -> bool) (t : string) :
  dotstar k t = true ->
  exists m rest, t = (m ++ rest)%string /\ Matches DotStar m /\ k rest = true.
Proof.
  induction t as [|c t IH]; simpl.
  - intros H. exists "", "". repeat split; [constructor | exact H].
  - intros H. apply orb_true_iff in H as [H|H].
    + apply andb_true_iff in H as [Hc H].
      destruct (IH H) as (m & rest & -> & Hm & Hk).
      exists (String c m), rest. repeat split; [|exact Hk].
      constructor; [|exact Hm].
      intros ->. now rewrite Ascii.eqb_refl in Hc.
    + exists "", (String c t). repeat split; [constructor | exact H].
Qed.

(** Every success of the matcher is a match of the language. *)
Lemma match_here_sound (r : regex) :
  forall t k, match_here r t k = true ->
  exists m rest, t = (m ++ rest)%string /\ Matches r m /\ k rest = true.
Proof.
  induction r as [p | | a IHa b IHb | a IHa b IHb]; intros t k; simpl.
  - destruct (eat_literal p t) as [t'|] eqn:E; [|discriminate].
    intros Hk. destruct (eat_literal_split _ _ _ E) as (m & -> & Hm).
    exists m, t'. repeat split; [now constructor | exact Hk].
  - apply dotstar_sound.
  - intros H. destruct (IHa _ _ H) as (m1 & r1 & -> & H1 & H').
    destruct (IHb _ _ H') as (m2 & r2 & -> & H2 & Hk).
    exists (m1 ++ m2)%string, r2. rewrite StrFacts.append_assoc.
    repeat split; [now constructor | exact Hk].
  - intros H. apply orb_true_iff in H as [H|H].
    + destruct (IHa _ _ H) as (m & rest & -> & Hm & Hk).
      exists m, rest. repeat split; [now apply MAltL | exact Hk].
    + destruct (IHb _ _ H) as (m & rest & -> & Hm & Hk).
      exists m, rest. repeat split; [now apply MAltR | exact Hk].
Qed.

Lemma search_here (r : regex) (t : string) :
  match_here r t (fun _ => true) = true -> search r t = true.
Proof. destruct t; simpl; intros ->; reflexivity. Qed.

(** [search] succeeds exactly when some part of the text is a match. *)
Lemma search_spec (r : regex) (t : string) :
  search r t = true
  <-> exists pre m suf, t = (pre ++ m ++ suf)%string /\ Matches r m.
Proof.
  split.
  - induction t as [|c t IH]; simpl; intros H.
    + rewrite orb_false_r in H.
      destruct (match_here_sound _ _ _ H) as (m & rest & E & Hm & _).
      exists "", m, rest. now split.
    + apply orb_true_iff in H as [H|H].
      * destruct (match_here_sound _ _ _ H) as (m & rest & E & Hm & _).
        exists "", m, rest. now split.
      * destruct (IH H) as (pre & m & suf & -> & Hm).
        exists (String c pre), m, suf. now split.
  - intros (pre & m & suf & -> & Hm).
    induction pre as [|c pre IH]; simpl.
    + apply search_here. now apply match_here_complete.
    + rewrite IH. apply orb_true_r.
Qed.

Lemma search_alt (a b : regex) (t : string) :
  search (Alt a b) t = search a t || search b t.
Proof.
  induction t as [|c t IH]; simpl.
  - now rewrite !orb_false_r.
  - rewrite IH.
    destruct (match_here a _ _), (match_here b _ _), (search a t);
      reflexivity.
Qed.

Lemma eat_literal_prefix (p t : string) :
  String.prefix (lower_str p) (lower_str t) = true ->
  exists t', eat_literal p t = Some t'.
Proof.
  revert t. induction p as [|c p IH]; intros t; simpl.
  - intros _. now exists t.
  - destruct t as [|d t]; [discriminate|].
    cbn [lower_str]. rewrite StrFacts.prefix_cons.
    intros H. apply andb_true_iff in H as [E H].
    unfold eqb_ci. rewrite E. now apply IH.
Qed.

(** A literal is found in every text that contains it in some letter
    case. *)
Lemma search_literal (p t : string) :
  contains_ci p t = true -> search (Lit p) t = true.
Proof.
  unfold contains_ci. induction t as [|c t IH]; simpl.
  - rewrite orb_false_r. intros H.
    destruct (eat_literal_prefix p "" H) as (t' & ->). reflexivity.
  - intros H. apply orb_true_iff in H as [H|H].
    + destruct (eat_literal_prefix p (String c t) H) as (t' & E).
      simpl in E. now rewrite E.
    + rewrite (IH H). apply orb_true_r.
Qed.

End ReFacts.

(** ** The pattern counter *)

Module CounterFacts.
Import Counter.

Lemma get_incr (k k' : string) (m : Counter) :
  get k (incr k' m) = get k m + (if String.eqb k k' then 1 else 0).
Proof.
  induction m as [|[k0 v] m IH]; simpl.
  - destruct (String.eqb k k'); reflexivity.
  - destruct (String.eqb k' k0) eqn:E0; simpl.
    + apply String.eqb_eq in E0. subst k0.
      destruct (String.eqb k k'); lia.
    + destruct (String.eqb k k0) eqn:E1; [|exact IH].
      apply String.eqb_eq in E1. subst k0.
      rewrite String.eqb_sym in E0. rewrite E0. lia.
Qed.

Lemma total_incr (k : string) (m : Counter) : total (incr k m) = total m + 1.
Proof.
  unfold total. induction m as [|[k0 v] m IH]; simpl; [reflexivity|].
  destruct (String.eqb k k0); simpl; lia.
Qed.

Lemma get_incr_all (k : string) (ks : list string) (m : Counter) :
  get k (incr_all ks m) = get k m + count_occ string_dec ks k.
Proof.
  unfold incr_all. revert m.
  induction ks as [|k' ks IH]; intros m; simpl; [lia|].
  rewrite IH, get_incr.
  destruct (string_dec k' k) as [->|N].
  - rewrite String.eqb_refl. lia.
  - destruct (String.eqb_spec k k'); [congruence | lia].
Qed.

Lemma total_incr_all (ks : list string) (m : Counter) :
  total (incr_all ks m) = total m + length ks.
Proof.
  unfold incr_all. revert m.
  induction ks as [|k ks IH]; intros m; simpl; [lia|].
  rewrite IH, total_incr. lia.
Qed.

Lemma incr_all_app (ks ks' : list string) (m : Counter) :
  incr_all (ks ++ ks') m = incr_all ks' (incr_all ks m).
Proof. unfold incr_all. apply fold_left_app. Qed.

End CounterFacts.

(** ** One pass over one line *)

Lemma collection_append_to (c c' : Collection) (f : Finding) (self : LogAnalyzer) :
  collection c' (append_to c f self)
  = collection c' self ++ (if Collection_eqb c c' then [f] else []).
Proof. destruct c, c'; simpl; now rewrite ?app_nil_r. Qed.

Lemma patterns_append_to (c : Collection) (f : Finding) (self : LogAnalyzer) :
  patterns (append_to c f self) = patterns self.
Proof. destruct c; reflexivity. Qed.

Lemma stack_traces_append_to (c : Collection) (f : Finding) (self : LogAnalyzer) :
  stack_traces (append_to c f self) = stack_traces self.
Proof. destruct c; reflexivity. Qed.

Lemma collection_patterns_incr (c : Collection) (k : string) (self : LogAnalyzer) :
  collection c (patterns_incr k self) = collection c self.
Proof. destruct c; reflexivity. Qed.

Lemma walk_cons (c : Collection) (e : Entry) (catalog : list Entry)
  (line : string) (self : LogAnalyzer) :
  walk c (e :: catalog) line self
  = walk c catalog line
      (if Re.search (e_pattern e) line
       then patterns_incr (e_key e)
              (append_to c (mkFinding (e_type e) (Str.strip line)) self)
       else self).
Proof. reflexivity. Qed.

Lemma hits_cons (e : Entry) (catalog : list Entry) (line : string) :
  hits (e :: catalog) line
  = if Re.search (e_pattern e) line
    then e :: hits catalog line else hits catalog line.
Proof. reflexivity. Qed.

(** What a walk over a catalog leaves in the analyzer. *)
Lemma walk_spec (c : Collection) (catalog : list Entry) (line : string) :
  forall self,
    (forall c', collection c' (walk c catalog line self)
                = collection c' self
                  ++ (if Collection_eqb c c'
                      then map (finding_of line) (hits catalog line) else []))
    /\ patterns (walk c catalog line self)
       = Counter.incr_all (map e_key (hits catalog line)) (patterns self)
    /\ stack_traces (walk c catalog line self) = stack_traces self.
Proof.
  induction catalog as [|e catalog IH]; intros self.
  - simpl. repeat split. intros c'. destruct (Collection_eqb c c'); now rewrite app_nil_r.
  - rewrite walk_cons, hits_cons.
    destruct (Re.search (e_pattern e) line).
    + destruct (IH (patterns_incr (e_key e)
                      (append_to c (mkFinding (e_type e) (Str.strip line)) self)))
        as (Hc & Hp & Hs).
      repeat split.
      * intros c'. rewrite Hc, collection_patterns_incr, collection_append_to.
        destruct (Collection_eqb c c'); simpl.
        -- now rewrite <- app_assoc.
        -- now rewrite !app_nil_r.
      * rewrite Hp. simpl. now rewrite patterns_append_to.
      * rewrite Hs. simpl. apply stack_traces_append_to.
    + apply IH.
Qed.

(** Each pass of the source is the walk over its catalog. *)
Lemma run_pass_walk (p : Pass) (line : string) (self : LogAnalyzer) :
  run_pass p line self = walk (target p) (entries p) line self.
Proof.
  destruct p;
    cbv [run_pass _check_error_patterns _check_null_safety_issues
         _check_async_errors _check_security_issues
         _check_performance_issues walk target entries error_patterns
         null_patterns async_patterns security_patterns perf_patterns
         map fold_left e_pattern e_key e_type fst snd append_to];
    reflexivity.
Qed.

(** What the pattern passes of one line leave, run in any order. *)
Lemma passes_spec (line : string) (order : list Pass) :
  forall self,
    let r := fold_left (fun self p => run_pass p line self) order self in
    (forall c, collection c r = collection c self ++ appended c order line)
    /\ patterns r = Counter.incr_all (incremented order line) (patterns self)
    /\ stack_traces r = stack_traces self.
Proof.
  induction order as [|p order IH]; intros self; cbn zeta.
  - simpl. repeat split. intros c. now rewrite app_nil_r.
  - cbn [fold_left]. destruct (IH (run_pass p line self)) as (Hc & Hp & Hs).
    rewrite run_pass_walk in *.
    destruct (walk_spec (target p) (entries p) line self) as (Wc & Wp & Ws).
    repeat split.
    + intros c. rewrite Hc, Wc. unfold appended. cbn [flat_map].
      now rewrite app_assoc.
    + rewrite Hp, Wp. unfold incremented. cbn [flat_map].
      now rewrite CounterFacts.incr_all_app.
    + now rewrite Hs, Ws.
Qed.

Lemma _check_stack_traces_frame (line : string) (index : nat)
  (all_lines : list string) (self : LogAnalyzer) :
  let r := _check_stack_traces line index all_lines self in
  (forall c, collection c r = collection c self) /\ patterns r = patterns self.
Proof.
  unfold _check_stack_traces.
  destruct (trace_start line); [|now split].
  destruct (1 <? _); [|now split].
  split; [intros []|]; reflexivity.
Qed.

(** [_process_line] is [process_line_in] at the order of the source. *)
Lemma _process_line_source_order (line : string) (index : nat)
  (all_lines : list string) (self : LogAnalyzer) :
  _process_line line index all_lines self
  = process_line_in source_order line index all_lines self.
Proof.
  unfold _process_line, process_line_in.
  destruct (String.eqb (Str.strip line) ""); [reflexivity|].
  cbv beta iota zeta delta [source_order fold_left run_pass].
  reflexivity.
Qed.

(** What one processed line appends and increments. *)
Lemma process_line_in_spec (order : list Pass) (line : string) (index : nat)
  (all_lines : list string) (self : LogAnalyzer) :
  Str.strip line <> "" ->
  let r := process_line_in order line index all_lines self in
  (forall c, collection c r = collection c self ++ appended c order line)
  /\ patterns r = Counter.incr_all (incremented order line) (patterns self).
Proof.
  intros Hne. unfold process_line_in.
  destruct (String.eqb_spec (Str.strip line) ""); [contradiction|].
  cbn zeta.
  destruct (passes_spec line order self) as (Hc & Hp & _).
  destruct (_check_stack_traces_frame line index all_lines
              (fold_left (fun self p => run_pass p line self) order self))
    as (Fc & Fp).
  split.
  - intros c. now rewrite Fc, Hc.
  - now rewrite Fp, Hp.
Qed.

Lemma process_line_in_blank (order : list Pass) (line : string) (index : nat)
  (all_lines : list string) (self : LogAnalyzer) :
  Str.strip line = "" ->
  process_line_in order line index all_lines self = self.
Proof. intros H. unfold process_line_in. now rewrite H. Qed.

(** ** Lines that are not blank *)

Lemma contains_ci_not_blank (needle hay : string) :
  starts_with_letter needle = true ->
  Str.contains_ci needle hay = true ->
  Str.strip hay <> "".
Proof.
  unfold starts_with_letter, Str.contains_ci.
  destruct (Str.lower_str needle) as [|c rest] eqn:E; [discriminate|].
  intros Hc H Hs. apply StrFacts.strip_empty in Hs.
  rewrite (StrFacts.all_space_contains (String c rest) hay c rest eq_refl) in Hs;
    [discriminate | | exact H].
  intros d <-. now apply StrFacts.lower_letter_not_space.
Qed.

(** ** Findings and counts of one catalog entry *)

Lemma mem_false (k : string) (l : list string) : mem k l = false -> ~ In k l.
Proof.
  unfold mem. intros H Hin.
  assert (existsb (String.eqb k) l = true) as E.
  { apply existsb_exists. exists k. split; [exact Hin | apply String.eqb_refl]. }
  congruence.
Qed.

Lemma distinct_NoDup (l : list string) : distinct l = true -> NoDup l.
Proof.
  induction l as [|x l IH]; simpl; intros H; constructor.
  - apply andb_true_iff in H as [H _]. apply mem_false.
    now destruct (mem x l).
  - apply IH. now apply andb_true_iff in H as [_ H].
Qed.

Lemma has_type_finding_of (line : string) (e : Entry) (t : string) :
  has_type t (finding_of line e) = String.eqb (e_type e) t.
Proof. reflexivity. Qed.

Lemma filter_type_none (t : string) (catalog : list Entry) (line : string) :
  ~ In t (map e_type catalog) ->
  filter (has_type t) (map (finding_of line) (hits catalog line)) = [].
Proof.
  induction catalog as [|a catalog IH]; intros Hn; [reflexivity|].
  rewrite hits_cons. simpl in Hn.
  assert (filter (has_type t) (map (finding_of line) (hits catalog line)) = [])
    as IH' by (apply IH; tauto).
  destruct (Re.search (e_pattern a) line); [|exact IH'].
  cbn [map filter]. rewrite has_type_finding_of.
  destruct (String.eqb_spec (e_type a) t); [tauto | exact IH'].
Qed.

Lemma filter_type_hit (catalog : list Entry) (line : string) (e : Entry) :
  NoDup (map e_type catalog) -> In e catalog ->
  Re.search (e_pattern e) line = true ->
  filter (has_type (e_type e)) (map (finding_of line) (hits catalog line))
  = [finding_of line e].
Proof.
  induction catalog as [|a catalog IH]; intros Hnd Hin Hs; [destruct Hin|].
  rewrite hits_cons. cbn [map] in Hnd. apply NoDup_cons_iff in Hnd as [Ha Hnd].
  destruct Hin as [->|Hin].
  - rewrite Hs. cbn [map filter]. rewrite has_type_finding_of, String.eqb_refl.
    now rewrite filter_type_none.
  - assert (e_type a <> e_type e) as Hne.
    { intros E. apply Ha. rewrite E. now apply in_map. }
    destruct (Re.search (e_pattern a) line); [|now apply IH].
    cbn [map filter]. rewrite has_type_finding_of.
    destruct (String.eqb_spec (e_type a) (e_type e)); [contradiction|].
    now apply IH.
Qed.

Lemma count_key_none (k : string) (catalog : list Entry) (line : string) :
  ~ In k (map e_key catalog) ->
  count_occ string_dec (map e_key (hits catalog line)) k = 0.
Proof.
  intros Hn. apply count_occ_not_In. intros Hin. apply Hn.
  apply in_map_iff in Hin as (e & <- & He). apply in_map.
  unfold hits in He. now apply filter_In in He as [He _].
Qed.

Lemma count_key_hit (catalog : list Entry) (line : string) (e : Entry) :
  NoDup (map e_key catalog) -> In e catalog ->
  Re.search (e_pattern e) line = true ->
  count_occ string_dec (map e_key (hits catalog line)) (e_key e) = 1.
Proof.
  induction catalog as [|a catalog IH]; intros Hnd Hin Hs; [destruct Hin|].
  rewrite hits_cons. cbn [map] in Hnd. apply NoDup_cons_iff in Hnd as [Ha Hnd].
  destruct Hin as [->|Hin].
  - rewrite Hs. cbn [map count_occ].
    destruct (string_dec (e_key e) (e_key e)); [|congruence].
    now rewrite count_key_none.
  - assert (e_key a <> e_key e) as Hne.
    { intros E. apply Ha. rewrite E. now apply in_map. }
    destruct (Re.search (e_pattern a) line); [|now apply IH].
    cbn [map count_occ].
    destruct (string_dec (e_key a) (e_key e)); [contradiction|].
    now apply IH.
Qed.

Lemma Pass_eqb_eq (p q : Pass) : Pass_eqb p q = true <-> p = q.
Proof. destruct p, q; simpl; split; congruence. Qed.

Lemma Collection_eqb_eq (c d : Collection) : Collection_eqb c d = true <-> c = d.
Proof. destruct c, d; simpl; split; congruence. Qed.

Lemma appended_cons (c : Collection) (q : Pass) (order : list Pass)
  (line : string) :
  appended c (q :: order) line
  = (if Collection_eqb (target q) c
     then map (finding_of line) (hits (entries q) line) else [])
    ++ appended c order line.
Proof. reflexivity. Qed.

Lemma incremented_cons (q : Pass) (order : list Pass) (line : string) :
  incremented (q :: order) line
  = map e_key (hits (entries q) line) ++ incremented order line.
Proof. reflexivity. Qed.

Section Isolated.

Variables (p : Pass) (e : Entry) (line : string).
Hypothesis He : In e (entries p).
Hypothesis Hs : Re.search (e_pattern e) line = true.

Lemma apart_chunk (q : Pass) :
  apart_from p e q = true ->
  filter (has_type (e_type e))
    (if Collection_eqb (target q) (target p)
     then map (finding_of line) (hits (entries q) line) else []) = []
  /\ count_occ string_dec (map e_key (hits (entries q) line)) (e_key e) = 0.
Proof.
  unfold apart_from. intros H.
  apply andb_true_iff in H as [Hk Ht]. split.
  - destruct (Collection_eqb (target q) (target p)); [|reflexivity].
    cbn [negb orb] in Ht. apply filter_type_none, mem_false.
    now apply negb_true_iff in Ht.
  - apply count_key_none, mem_false. now apply negb_true_iff in Hk.
Qed.

Lemma apart_order (order : list Pass) :
  (forall q, In q order -> apart_from p e q = true) ->
  filter (has_type (e_type e)) (appended (target p) order line) = []
  /\ count_occ string_dec (incremented order line) (e_key e) = 0.
Proof.
  induction order as [|q order IH]; intros H; [now split|].
  rewrite appended_cons, incremented_cons, filter_app, count_occ_app.
  destruct (apart_chunk q) as [-> ->]; [apply H; now left|].
  destruct IH as [-> ->]; [intros; apply H; now right|]. now split.
Qed.

(** Among the findings and the keys of one line, run through the passes
    of [order], the entry [e] of pass [p] shows exactly once. *)
Lemma isolated_order (order : list Pass) :
  distinct (map e_type (entries p)) = true ->
  distinct (map e_key (entries p)) = true ->
  NoDup order -> In p order ->
  (forall q, In q order -> q <> p -> apart_from p e q = true) ->
  filter (has_type (e_type e)) (appended (target p) order line)
  = [finding_of line e]
  /\ count_occ string_dec (incremented order line) (e_key e) = 1.
Proof.
  intros Dt Dk.
  induction order as [|q order IH]; intros Hnd Hin H; [destruct Hin|].
  apply NoDup_cons_iff in Hnd as [Hq Hnd].
  rewrite appended_cons, incremented_cons, filter_app, count_occ_app.
  destruct Hin as [->|Hin].
  - assert (Collection_eqb (target p) (target p) = true) as ->
        by now apply Collection_eqb_eq.
    rewrite (filter_type_hit _ _ _ (distinct_NoDup _ Dt) He Hs).
    rewrite (count_key_hit _ _ _ (distinct_NoDup _ Dk) He Hs).
    destruct (apart_order order) as [-> ->]; [|now split].
    intros q Hq'. apply H; [now right | congruence].
  - assert (q <> p) as Hne by congruence.
    destruct (apart_chunk q) as [-> ->]; [apply H; [now left | exact Hne]|].
    destruct IH as [-> ->]; [exact Hnd | exact Hin | |now split].
    intros q' Hq'. apply H. now right.
Qed.

Lemma NoDup_source_order : NoDup source_order.
Proof. repeat constructor; simpl; intuition discriminate. Qed.

(** What [_process_line] records for an isolated entry whose pattern is
    found in a line that is not blank. *)
Lemma isolated_recorded (index : nat) (all_lines : list string)
  (self : LogAnalyzer) :
  isolated p e = true ->
  Str.strip line <> "" ->
  let r := _process_line line index all_lines self in
  (exists new,
      collection (target p) r = collection (target p) self ++ new
      /\ filter (has_type (e_type e)) new = [finding_of line e])
  /\ Counter.get (e_key e) (patterns r)
     = Counter.get (e_key e) (patterns self) + 1.
Proof.
  unfold isolated. intros Hi Hne. cbn zeta.
  apply andb_true_iff in Hi as [Hi Hq].
  apply andb_true_iff in Hi as [Dt Dk].
  rewrite _process_line_source_order.
  destruct (process_line_in_spec source_order line index all_lines self Hne)
    as [Hc Hp].
  destruct (isolated_order source_order Dt Dk NoDup_source_order) as [Hf Hk].
  - destruct p; simpl; tauto.
  - intros q Hin Hneq. rewrite forallb_forall in Hq.
    specialize (Hq q Hin). apply orb_true_iff in Hq as [Hq|Hq]; [|exact Hq].
    apply Pass_eqb_eq in Hq. contradiction.
  - split.
    + exists (appended (target p) source_order line). split; [apply Hc | exact Hf].
    + rewrite Hp, CounterFacts.get_incr_all, Hk. reflexivity.
Qed.

End Isolated.

(** Every entry of the error catalog and of the performance catalog has a
    finding type and a counter key of its own. *)
Lemma error_entries_isolated :
  forallb (isolated PError) (entries PError) = true.
Proof. vm_compute. reflexivity. Qed.

Lemma performance_entries_isolated :
  forallb (isolated PPerformance) (entries PPerformance) = true.
Proof. vm_compute. reflexivity. Qed.

Lemma error_entry (pattern : Re.regex) (name : string) :
  In (pattern, name) error_patterns ->
  In (pattern, name, name) (entries PError)
  /\ isolated PError (pattern, name, name) = true.
Proof.
  intros H.
  assert (In (pattern, name, name) (entries PError)) as Hin.
  { exact (in_map (fun '(pattern, name) => (pattern, name, name))
             error_patterns (pattern, name) H). }
  split; [exact Hin|].
  exact (proj1 (forallb_forall _ _) error_entries_isolated _ Hin).
Qed.

Lemma performance_entry (pattern : Re.regex) (issue_type : string) :
  In (pattern, issue_type) perf_patterns ->
  In (pattern, issue_type, ("Performance: " ++ issue_type)%string)
    (entries PPerformance)
  /\ isolated PPerformance
       (pattern, issue_type, ("Performance: " ++ issue_type)%string) = true.
Proof.
  intros H.
  assert (In (pattern, issue_type, ("Performance: " ++ issue_type)%string)
            (entries PPerformance)) as Hin.
  { exact (in_map (fun '(pattern, issue_type) =>
                     (pattern, issue_type,
                      ("Performance: " ++ issue_type)%string))
             perf_patterns (pattern, issue_type) H). }
  split; [exact Hin|].
  exact (proj1 (forallb_forall _ _) performance_entries_isolated _ Hin).
Qed.

(* ================================================================= *)
(** ** Claims on the pattern passes *)

(** C6. A line that contains "NullPointerException" in any letter case is
    processed, the count of "Null Pointer Exception" goes up by exactly
    one, and exactly one finding of that type is appended to the errors
    list; it carries the trimmed line. *)
Theorem null_pointer_line_recorded (line : string) (index : nat)
  (all_lines : list string) (self : LogAnalyzer) :
  Str.contains_ci "NullPointerException" line = true ->
  let r := _process_line line index all_lines self in
  Counter.get "Null Pointer Exception" (patterns r)
  = Counter.get "Null Pointer Exception" (patterns self) + 1
  /\ exists new,
      errors r = errors self ++ new
      /\ filter (has_type "Null Pointer Exception") new
         = [mkFinding "Null Pointer Exception" (Str.strip line)].
Proof.
  intros H. cbn zeta.
  assert (In ("NullPointerException" <|> "null pointer", "Null Pointer Exception")%re
            error_patterns) as Hin by (left; reflexivity).
  destruct (error_entry _ _ Hin) as [He Hi].
  assert (Re.search ("NullPointerException" <|> "null pointer")%re line = true)
    as Hs.
  { rewrite ReFacts.search_alt, (ReFacts.search_literal _ _ H). reflexivity. }
  assert (Str.strip line <> "") as Hne.
  { apply (contains_ci_not_blank "NullPointerException"); [reflexivity | exact H]. }
  destruct (isolated_recorded PError _ line He Hs index all_lines self Hi Hne)
    as [Hnew Hcount].
  split; [exact Hcount | exact Hnew].
Qed.

Lemma null_pointer_line_recorded_witness :
  Str.contains_ci "NullPointerException" "E/flutter: nullpointerexception" = true
  /\ let r := _process_line "E/flutter: nullpointerexception" 0
                ["E/flutter: nullpointerexception"] __init__ in
     Counter.get "Null Pointer Exception" (patterns r)
     = Counter.get "Null Pointer Exception" (patterns __init__) + 1
     /\ exists new,
         errors r = errors __init__ ++ new
         /\ filter (has_type "Null Pointer Exception") new
            = [mkFinding "Null Pointer Exception"
                 (Str.strip "E/flutter: nullpointerexception")].
Proof.
  split.
  - vm_compute. reflexivity.
  - apply (null_pointer_line_recorded "E/flutter: nullpointerexception" 0
             ["E/flutter: nullpointerexception"] __init__).
    vm_compute. reflexivity.
Defined.

(** C10. A line that contains "gc" in any letter case, also inside another
    word, is processed, exactly one finding of type "Garbage Collection"
    is appended to the performance list, and the count of
    "Performance: Garbage Collection" goes up by one. *)
Theorem gc_substring_recorded (line : string) (index : nat)
  (all_lines : list string) (self : LogAnalyzer) :
  Str.contains_ci "gc" line = true ->
  let r := _process_line line index all_lines self in
  Str.strip line <> ""
  /\ (exists new,
        performance_issues r = performance_issues self ++ new
        /\ filter (has_type "Garbage Collection") new
           = [mkFinding "Garbage Collection" (Str.strip line)])
  /\ Counter.get "Performance: Garbage Collection" (patterns r)
     = Counter.get "Performance: Garbage Collection" (patterns self) + 1.
Proof.
  intros H. cbn zeta.
  assert (In ((("garbage" <&> .* <&> "collect") <|> "GC")%re, "Garbage Collection")
            perf_patterns) as Hin by (do 4 right; left; reflexivity).
  destruct (performance_entry _ _ Hin) as [He Hi].
  assert (Re.search (("garbage" <&> .* <&> "collect") <|> "GC")%re line = true)
    as Hs.
  { rewrite ReFacts.search_alt, (ReFacts.search_literal "GC" line H).
    apply orb_true_r. }
  assert (Str.strip line <> "") as Hne.
  { apply (contains_ci_not_blank "gc"); [reflexivity | exact H]. }
  destruct (isolated_recorded PPerformance _ line He Hs index all_lines self Hi Hne)
    as [Hnew Hcount].
  split; [exact Hne | split; [exact Hnew | exact Hcount]].
Qed.

Lemma gc_substring_recorded_witness :
  Str.contains_ci "gc" "adb logcat started" = true
  /\ let r := _process_line "adb logcat started" 0 ["adb logcat started"]
                __init__ in
     Str.strip "adb logcat started" <> ""
     /\ (exists new,
           performance_issues r = performance_issues __init__ ++ new
           /\ filter (has_type "Garbage Collection") new
              = [mkFinding "Garbage Collection"
                   (Str.strip "adb logcat started")])
     /\ Counter.get "Performance: Garbage Collection" (patterns r)
        = Counter.get "Performance: Garbage Collection" (patterns __init__) + 1.
Proof.
  split.
  - vm_compute. reflexivity.
  - apply (gc_substring_recorded "adb logcat started" 0
             ["adb logcat started"] __init__).
    vm_compute. reflexivity.
Defined.

(** The word "logcat" alone makes a garbage-collection finding. *)
Example logcat_line :
  performance_issues (analyze_lines ["adb logcat started"] __init__)
  = [mkFinding "Garbage Collection" "adb logcat started"].
Proof. vm_compute. reflexivity. Qed.

(** C7. A processed line in which one pattern of the error catalog and one
    pattern of the performance catalog are found gets exactly one finding
    for each of the two: one in the errors list and one in the performance
    list, and each of the two counters goes up by one. *)
Theorem error_and_performance_recorded
  (pe : Re.regex) (ne : string) (pp : Re.regex) (np : string)
  (line : string) (index : nat) (all_lines : list string) (self : LogAnalyzer) :
  In (pe, ne) error_patterns ->
  In (pp, np) perf_patterns ->
  Str.strip line <> "" ->
  Re.search pe line = true ->
  Re.search pp line = true ->
  let r := _process_line line index all_lines self in
  (exists new,
      errors r = errors self ++ new
      /\ filter (has_type ne) new = [mkFinding ne (Str.strip line)])
  /\ (exists new,
        performance_issues r = performance_issues self ++ new
        /\ filter (has_type np) new = [mkFinding np (Str.strip line)])
  /\ Counter.get ne (patterns r) = Counter.get ne (patterns self) + 1
  /\ Counter.get ("Performance: " ++ np)%string (patterns r)
     = Counter.get ("Performance: " ++ np)%string (patterns self) + 1.
Proof.
  intros Hine Hinp Hne Hse Hsp. cbn zeta.
  destruct (error_entry _ _ Hine) as [Hee Hie].
  destruct (performance_entry _ _ Hinp) as [Hep Hip].
  destruct (isolated_recorded PError _ line Hee Hse index all_lines self Hie Hne)
    as [Hnew1 Hcount1].
  destruct (isolated_recorded PPerformance _ line Hep Hsp index all_lines self
              Hip Hne) as [Hnew2 Hcount2].
  repeat split; assumption.
Qed.

Lemma error_and_performance_recorded_witness :
  In (Re.Lit "OutOfMemoryError", "Out of Memory") error_patterns
  /\ In (("OutOfMemory" <|> ("heap" <&> .* <&> "size"))%re, "Memory Issues")
       perf_patterns
  /\ Str.strip "OutOfMemoryError ANR" <> ""
  /\ Re.search (Re.Lit "OutOfMemoryError") "OutOfMemoryError ANR" = true
  /\ Re.search ("OutOfMemory" <|> ("heap" <&> .* <&> "size"))%re
       "OutOfMemoryError ANR" = true
  /\ let r := _process_line "OutOfMemoryError ANR" 0 ["OutOfMemoryError ANR"]
                __init__ in
     (exists new,
         errors r = errors __init__ ++ new
         /\ filter (has_type "Out of Memory") new
            = [mkFinding "Out of Memory" (Str.strip "OutOfMemoryError ANR")])
     /\ (exists new,
           performance_issues r = performance_issues __init__ ++ new
           /\ filter (has_type "Memory Issues") new
              = [mkFinding "Memory Issues" (Str.strip "OutOfMemoryError ANR")])
     /\ Counter.get "Out of Memory" (patterns r)
        = Counter.get "Out of Memory" (patterns __init__) + 1
     /\ Counter.get ("Performance: " ++ "Memory Issues")%string (patterns r)
        = Counter.get ("Performance: " ++ "Memory Issues")%string
            (patterns __init__) + 1.
Proof.
  assert (In (Re.Lit "OutOfMemoryError", "Out of Memory") error_patterns) as H1
      by (do 3 right; left; reflexivity).
  assert (In (("OutOfMemory" <|> ("heap" <&> .* <&> "size"))%re, "Memory Issues")
            perf_patterns) as H2 by (do 3 right; left; reflexivity).
  assert (Str.strip "OutOfMemoryError ANR" <> "") as H3
      by (vm_compute; discriminate).
  assert (Re.search (Re.Lit "OutOfMemoryError") "OutOfMemoryError ANR" = true)
    as H4 by (vm_compute; reflexivity).
  assert (Re.search ("OutOfMemory" <|> ("heap" <&> .* <&> "size"))%re
            "OutOfMemoryError ANR" = true) as H5 by (vm_compute; reflexivity).
  repeat (split; [assumption|]).
  exact (error_and_performance_recorded _ _ _ _ "OutOfMemoryError ANR" 0
           ["OutOfMemoryError ANR"] __init__ H1 H2 H3 H4 H5).
Defined.

(** The line of the example of the specification: the two findings are
    "Out of Memory" and "Memory Issues"; the pattern of the ANR entry asks
    for "application not responding" after "ANR" and is not found. *)
Example out_of_memory_anr_line :
  let r := analyze_lines ["OutOfMemoryError ANR"] __init__ in
  errors r = [mkFinding "Out of Memory" "OutOfMemoryError ANR"]
  /\ performance_issues r = [mkFinding "Memory Issues" "OutOfMemoryError ANR"]
  /\ patterns r = [("Out of Memory", 1); ("Performance: Memory Issues", 1)]
  /\ Counter.get "Performance: ANR (App Not Responding)" (patterns r) = 0.
Proof. vm_compute. repeat split. Qed.

(* ================================================================= *)
(** ** Analysis of a sequence of lines *)

Lemma fold_left_invariant {A B : Type} (P : A -> Prop) (f : A -> B -> A)
  (l : list B) :
  (forall a b, P a -> P (f a b)) -> forall a, P a -> P (fold_left f l a).
Proof.
  intros Hf. induction l as [|b l IH]; intros a Ha; simpl; [exact Ha|].
  apply IH, Hf, Ha.
Qed.

Lemma fold_left_ext {A B : Type} (f g : A -> B -> A) (l : list B) :
  (forall a b, f a b = g a b) -> forall a, fold_left f l a = fold_left g l a.
Proof.
  intros Hfg. induction l as [|b l IH]; intros a; simpl; [reflexivity|].
  now rewrite Hfg, IH.
Qed.

(** Two folds that keep a relation at every step keep it to the end. *)
Lemma fold_left_related {A B : Type} (R : A -> A -> Prop) (f g : A -> B -> A)
  (l : list B) :
  (forall a a' b, R a a' -> R (f a b) (g a' b)) ->
  forall a a', R a a' -> R (fold_left f l a) (fold_left g l a').
Proof.
  intros Hfg. induction l as [|b l IH]; intros a a' Ha; simpl; [exact Ha|].
  apply IH, Hfg, Ha.
Qed.

Lemma analyze_lines_source_order (lines : list string) (self : LogAnalyzer) :
  analyze_lines lines self = analyze_lines_in source_order lines self.
Proof.
  unfold analyze_lines, analyze_lines_in. apply fold_left_ext.
  intros a [i line]. apply _process_line_source_order.
Qed.

(** ** The counter and the number of findings *)

Lemma appended_lengths (order : list Pass) (line : string) :
  length (appended Errors order line) + length (appended Warnings order line)
  + length (appended SecurityIssues order line)
  + length (appended PerformanceIssues order line)
  = length (incremented order line).
Proof.
  induction order as [|p order IH]; [reflexivity|].
  rewrite !appended_cons, incremented_cons, !length_app, <- IH, length_map.
  destruct p; cbn [target Collection_eqb length]; rewrite ?length_map; lia.
Qed.

Lemma total_findings_collections (self : LogAnalyzer) :
  total_findings self
  = length (collection Errors self) + length (collection Warnings self)
    + length (collection SecurityIssues self)
    + length (collection PerformanceIssues self).
Proof. reflexivity. Qed.

(** One line, blank or not, keeps the counter equal to the number of
    findings. *)
Lemma process_line_in_total (order : list Pass) (line : string) (index : nat)
  (all_lines : list string) (self : LogAnalyzer) :
  Counter.total (patterns self) = total_findings self ->
  Counter.total (patterns (process_line_in order line index all_lines self))
  = total_findings (process_line_in order line index all_lines self).
Proof.
  intros Inv.
  destruct (string_dec (Str.strip line) "") as [Hb|Hne].
  - now rewrite process_line_in_blank.
  - destruct (process_line_in_spec order line index all_lines self Hne)
      as [Hc Hp].
    rewrite Hp, CounterFacts.total_incr_all, Inv.
    rewrite !total_findings_collections, !Hc, !length_app.
    rewrite <- (appended_lengths order line). lia.
Qed.

(** C9. After the analysis of any sequence of lines, by [analyze_file] or
    by [analyze_stdin], the values of the pattern counter add up to the
    number of findings in the four lists. *)
Theorem counts_sum_to_findings (lines : list string) :
  Counter.total (patterns (analyze_lines lines __init__))
  = total_findings (analyze_lines lines __init__)
  /\ Counter.total (patterns (analyze_stdin lines __init__))
     = total_findings (analyze_stdin lines __init__).
Proof.
  split.
  - unfold analyze_lines.
    apply (fold_left_invariant
             (fun a => Counter.total (patterns a) = total_findings a));
      [|reflexivity].
    intros a [i line] Inv. rewrite _process_line_source_order.
    now apply process_line_in_total.
  - unfold analyze_stdin.
    apply (fold_left_invariant
             (fun a => Counter.total (patterns a) = total_findings a));
      [|reflexivity].
    intros a [i line] Inv. rewrite _process_line_source_order.
    now apply process_line_in_total.
Qed.

(* ================================================================= *)
(** ** The order of the passes *)

Lemma stack_traces_process_line_in (order : list Pass) (line : string)
  (index : nat) (all_lines : list string) (self : LogAnalyzer) :
  stack_traces (process_line_in order line index all_lines self)
  = stack_traces self ++ recorded_block line index all_lines.
Proof.
  unfold process_line_in, recorded_block.
  destruct (String.eqb (Str.strip line) ""); [now rewrite app_nil_r|].
  cbn zeta.
  destruct (passes_spec line order self) as (_ & _ & Hs).
  unfold _check_stack_traces.
  destruct (trace_start line); [|now rewrite app_nil_r].
  destruct (1 <? _); [|now rewrite app_nil_r].
  cbn [stack_traces stack_traces_append]. now rewrite Hs.
Qed.

Lemma appended_app (c : Collection) (l l' : list Pass) (line : string) :
  appended c (l ++ l') line = appended c l line ++ appended c l' line.
Proof. unfold appended. apply flat_map_app. Qed.

Lemma appended_none (c : Collection) (order : list Pass) (line : string) :
  (forall q, In q order -> target q <> c) -> appended c order line = [].
Proof.
  induction order as [|q order IH]; intros H; [reflexivity|].
  rewrite appended_cons, IH by (intros; apply H; now right).
  destruct (Collection_eqb (target q) c) eqn:E; [|reflexivity].
  apply Collection_eqb_eq in E. exfalso. apply (H q); [now left | exact E].
Qed.

(** A collection with one writer gets the same findings in every order of
    the passes. *)
Lemma appended_unique (c : Collection) (p0 : Pass) (order : list Pass)
  (line : string) :
  (forall q, target q = c -> q = p0) ->
  NoDup order -> In p0 order ->
  appended c order line = appended c [p0] line.
Proof.
  intros Hu Hnd Hin.
  apply in_split in Hin as (l1 & l2 & ->).
  apply NoDup_remove_2 in Hnd.
  rewrite appended_app, (appended_cons c p0 l2).
  rewrite (appended_none c l1), (appended_none c l2).
  - reflexivity.
  - intros q Hq E. apply Hnd. rewrite <- (Hu q E). apply in_or_app. now right.
  - intros q Hq E. apply Hnd. rewrite <- (Hu q E). apply in_or_app. now left.
Qed.

(** The errors list has two writers; it gets the same findings whenever
    the error pass runs before the async pass. *)
Lemma appended_errors (order : list Pass) (line : string) :
  NoDup order -> runs_before PError PAsync order ->
  appended Errors order line = appended Errors [PError; PAsync] line.
Proof.
  intros Hnd (l1 & l2 & l3 & ->).
  assert (~ In PError (l1 ++ l2 ++ PAsync :: l3)) as HE
      by now apply NoDup_remove_2 in Hnd.
  apply NoDup_remove_1 in Hnd. rewrite app_assoc in Hnd, HE.
  assert (~ In PAsync ((l1 ++ l2) ++ l3)) as HA
      by now apply NoDup_remove_2 in Hnd.
  assert (forall l, (forall q, In q l -> In q ((l1 ++ l2) ++ PAsync :: l3)) ->
                    (forall q, In q l -> In q ((l1 ++ l2) ++ l3)) ->
                    appended Errors l line = []) as Hnone.
  { intros l H1 H2. apply appended_none. intros q Hq E.
    destruct q; try discriminate.
    - apply HE, H1, Hq.
    - apply HA, H2, Hq. }
  rewrite appended_app, (appended_cons Errors PError), appended_app,
    (appended_cons Errors PAsync).
  rewrite (Hnone l1), (Hnone l2), (Hnone l3).
  - rewrite !appended_cons. cbn [target Collection_eqb app appended flat_map].
    now rewrite !app_nil_r.
  - intros q Hq. apply in_or_app. right. now right.
  - intros q Hq. apply in_or_app. now right.
  - intros q Hq. apply in_or_app. left. apply in_or_app. now right.
  - intros q Hq. apply in_or_app. left. apply in_or_app. now right.
  - intros q Hq. apply in_or_app. left. apply in_or_app. now left.
  - intros q Hq. apply in_or_app. left. apply in_or_app. now left.
Qed.

Lemma source_order_runs_before : runs_before PError PAsync source_order.
Proof. exists [], [PNullSafety], [PSecurity; PPerformance]. reflexivity. Qed.

Lemma writer_unique (c : Collection) :
  c <> Errors -> exists p0, target p0 = c /\ forall q, target q = c -> q = p0.
Proof.
  destruct c; intros H; [contradiction | exists PNullSafety | exists PSecurity
                        | exists PPerformance];
    (split; [reflexivity | intros []; simpl; congruence]).
Qed.

Section PassOrder.

Variable order : list Pass.
Hypothesis Hperm : Permutation order source_order.

Lemma order_NoDup : NoDup order.
Proof.
  apply (Permutation_NoDup (Permutation_sym Hperm)), NoDup_source_order.
Qed.

Lemma order_complete (p : Pass) : In p order.
Proof.
  apply (Permutation_in p (Permutation_sym Hperm)).
  destruct p; simpl; tauto.
Qed.

Lemma appended_order (c : Collection) (line : string) :
  c <> Errors -> appended c order line = appended c source_order line.
Proof.
  intros Hc. destruct (writer_unique c Hc) as (p0 & _ & Hu).
  rewrite (appended_unique c p0 order line Hu order_NoDup (order_complete p0)).
  symmetry. apply (appended_unique c p0 source_order line Hu NoDup_source_order).
  destruct p0; simpl; tauto.
Qed.

Lemma appended_errors_order (line : string) :
  runs_before PError PAsync order ->
  appended Errors order line = appended Errors source_order line.
Proof.
  intros Hb. rewrite (appended_errors order line order_NoDup Hb).
  symmetry.
  apply (appended_errors source_order line NoDup_source_order
           source_order_runs_before).
Qed.

Lemma appended_errors_permutation (line : string) :
  Permutation (appended Errors order line) (appended Errors source_order line).
Proof. unfold appended. now apply Permutation_flat_map. Qed.

Lemma incremented_counts (line : string) (k : string) :
  count_occ string_dec (incremented order line) k
  = count_occ string_dec (incremented source_order line) k.
Proof.
  apply Permutation_count_occ. unfold incremented.
  now apply Permutation_flat_map.
Qed.

(** The two analyses stay [alike] line after line, for a relation [E] of
    the errors lists that the findings of a line preserve. *)
Variable E : list Finding -> list Finding -> Prop.
Hypothesis E_step :
  forall l l' line,
    E l l' ->
    E (l ++ appended Errors order line)
      (l' ++ appended Errors source_order line).

Lemma alike_line (line : string) (index : nat) (all_lines : list string)
  (a b : LogAnalyzer) :
  alike E a b ->
  alike E (process_line_in order line index all_lines a)
        (process_line_in source_order line index all_lines b).
Proof.
  intros (He & Hw & Hs & Hp & Ht & Hc).
  assert (stack_traces (process_line_in order line index all_lines a)
          = stack_traces (process_line_in source_order line index all_lines b))
    as Ht' by (rewrite !stack_traces_process_line_in; now rewrite Ht).
  destruct (string_dec (Str.strip line) "") as [Hb|Hne].
  - rewrite !process_line_in_blank by exact Hb. repeat split; assumption.
  - destruct (process_line_in_spec order line index all_lines a Hne)
      as [Ca Pa].
    destruct (process_line_in_spec source_order line index all_lines b Hne)
      as [Cb Pb].
    pose proof (Ca Errors) as CaE. pose proof (Cb Errors) as CbE.
    pose proof (Ca Warnings) as CaW. pose proof (Cb Warnings) as CbW.
    pose proof (Ca SecurityIssues) as CaS. pose proof (Cb SecurityIssues) as CbS.
    pose proof (Ca PerformanceIssues) as CaP.
    pose proof (Cb PerformanceIssues) as CbP.
    cbn [collection] in CaE, CbE, CaW, CbW, CaS, CbS, CaP, CbP.
    repeat split.
    + rewrite CaE, CbE. now apply E_step.
    + rewrite CaW, CbW, Hw. f_equal. apply appended_order. discriminate.
    + rewrite CaS, CbS, Hs. f_equal. apply appended_order. discriminate.
    + rewrite CaP, CbP, Hp. f_equal. apply appended_order. discriminate.
    + exact Ht'.
    + intros k. rewrite Pa, Pb, !CounterFacts.get_incr_all, (Hc k).
      now rewrite incremented_counts.
Qed.

Lemma alike_analysis (lines : list string) (a b : LogAnalyzer) :
  alike E a b ->
  alike E (analyze_lines_in order lines a) (analyze_lines lines b).
Proof.
  intros H. rewrite analyze_lines_source_order.
  unfold analyze_lines_in.
  apply (fold_left_related (alike E)); [|exact H].
  intros x y [i line]. apply alike_line.
Qed.

End PassOrder.

(** A pass only changes the collection it is aimed at. *)
Lemma writes_to_target (p : Pass) (c : Collection) :
  writes_to p c -> c = target p.
Proof.
  intros (line & self & H).
  rewrite run_pass_walk in H.
  destruct (walk_spec (target p) (entries p) line self) as (Hc & _).
  rewrite (Hc c) in H.
  destruct (Collection_eqb (target p) c) eqn:E.
  - symmetry. now apply Collection_eqb_eq.
  - exfalso. apply H. apply app_nil_r.
Qed.

(** The error pass and the async pass both append to the errors list. *)
Lemma errors_has_two_writers :
  writes_to PError Errors /\ writes_to PAsync Errors.
Proof.
  split.
  - exists "NullPointerException", __init__. vm_compute. discriminate.
  - exists "future failed", __init__. vm_compute. discriminate.
Qed.

(** C2, as the code has it.  Each pass appends to one collection, but the
    error pass and the async pass share the errors list.  For every order
    of the five passes, the warnings, the security issues, the performance
    issues and the stack traces are those of the source order, every
    counter holds the same count, and the errors list holds the same
    findings up to their order; it is the same list whenever the error pass
    still runs before the async pass. *)
Theorem pass_order_findings (lines : list string) (order : list Pass) :
  Permutation order source_order ->
  let r := analyze_lines_in order lines __init__ in
  let r0 := analyze_lines lines __init__ in
  (forall p c, writes_to p c -> c = target p)
  /\ warnings r = warnings r0
  /\ security_issues r = security_issues r0
  /\ performance_issues r = performance_issues r0
  /\ stack_traces r = stack_traces r0
  /\ same_counts (patterns r) (patterns r0)
  /\ Permutation (errors r) (errors r0)
  /\ (runs_before PError PAsync order -> errors r = errors r0).
Proof.
  intros Hperm. cbn zeta.
  assert (alike (@Permutation Finding)
            (analyze_lines_in order lines __init__)
            (analyze_lines lines __init__)) as HP.
  { apply (alike_analysis order Hperm).
    - intros l l' line Hl. apply Permutation_app; [exact Hl|].
      now apply appended_errors_permutation.
    - repeat split. apply perm_nil. }
  destruct HP as (He & Hw & Hs & Hp & Ht & Hc).
  split; [exact writes_to_target|].
  repeat (split; [assumption|]).
  intros Hb.
  assert (alike (@eq (list Finding))
            (analyze_lines_in order lines __init__)
            (analyze_lines lines __init__)) as HE.
  { apply (alike_analysis order Hperm).
    - intros l l' line ->. f_equal. now apply appended_errors_order.
    - repeat split. }
  apply HE.
Qed.

Lemma pass_order_findings_witness :
  Permutation [PPerformance; PError; PSecurity; PAsync; PNullSafety] source_order
  /\ let r := analyze_lines_in
                [PPerformance; PError; PSecurity; PAsync; PNullSafety]
                ["unhandled future: NullPointerException"] __init__ in
     let r0 := analyze_lines ["unhandled future: NullPointerException"]
                 __init__ in
     (forall p c, writes_to p c -> c = target p)
     /\ warnings r = warnings r0
     /\ security_issues r = security_issues r0
     /\ performance_issues r = performance_issues r0
     /\ stack_traces r = stack_traces r0
     /\ same_counts (patterns r) (patterns r0)
     /\ Permutation (errors r) (errors r0)
     /\ (runs_before PError PAsync
           [PPerformance; PError; PSecurity; PAsync; PNullSafety] ->
         errors r = errors r0).
Proof.
  assert (Permutation [PPerformance; PError; PSecurity; PAsync; PNullSafety]
            source_order) as H.
  { unfold source_order.
    apply (Permutation_cons_app [PError; PNullSafety; PAsync; PSecurity] []
             PPerformance).
    apply perm_skip. cbn [app].
    apply (Permutation_cons_app [PNullSafety; PAsync] [] PSecurity).
    cbn [app]. apply perm_swap. }
  split; [exact H|].
  exact (pass_order_findings ["unhandled future: NullPointerException"]
           [PPerformance; PError; PSecurity; PAsync; PNullSafety] H).
Defined.

(** C2 as stated fails: with the async pass run before the error pass, a
    line that both passes match leaves another errors list, although the
    order is a permutation of the five passes; the errors list is written
    by two passes. *)
Lemma pass_order_counterexample :
  Permutation async_first source_order
  /\ errors (analyze_lines_in async_first
               ["unhandled future: NullPointerException"] __init__)
     = [mkFinding "Async/Future Error" "unhandled future: NullPointerException";
        mkFinding "Null Pointer Exception" "unhandled future: NullPointerException"]
  /\ errors (analyze_lines ["unhandled future: NullPointerException"] __init__)
     = [mkFinding "Null Pointer Exception" "unhandled future: NullPointerException";
        mkFinding "Async/Future Error" "unhandled future: NullPointerException"]
  /\ ~ same_findings
         (analyze_lines_in async_first
            ["unhandled future: NullPointerException"] __init__)
         (analyze_lines ["unhandled future: NullPointerException"] __init__)
  /\ writes_to PError Errors /\ writes_to PAsync Errors.
Proof.
  split; [|split; [|split; [|split]]].
  - unfold async_first, source_order.
    apply perm_trans with [PError; PAsync; PNullSafety; PSecurity; PPerformance].
    + apply perm_swap.
    + apply perm_skip, perm_swap.
  - vm_compute. reflexivity.
  - vm_compute. reflexivity.
  - intros (H & _). vm_compute in H. discriminate.
  - exact errors_has_two_writers.
Qed.

(* ================================================================= *)
(** ** Stack traces *)

Lemma take_while_length {A : Type} (p : A -> bool) (l : list A) :
  length (take_while p l) <= length l.
Proof.
  induction l as [|x l IH]; simpl; [lia|]. destruct (p x); simpl; lia.
Qed.

Lemma take_while_nth {A : Type} (p : A -> bool) (l : list A) (k : nat) :
  k < length (take_while p l) ->
  exists x, nth_error l k = Some x /\ p x = true.
Proof.
  revert k. induction l as [|x l IH]; simpl; intros k Hk; [lia|].
  destruct (p x) eqn:E; simpl in Hk; [|lia].
  destruct k as [|k]; simpl.
  - now exists x.
  - apply IH. lia.
Qed.

Lemma take_while_stop {A : Type} (p : A -> bool) (l : list A) (x : A) :
  nth_error l (length (take_while p l)) = Some x -> p x = false.
Proof.
  induction l as [|y l IH]; simpl; [discriminate|].
  destruct (p y) eqn:E; simpl.
  - exact IH.
  - now intros [= <-].
Qed.

Lemma firstn_take_while {A : Type} (p : A -> bool) (l : list A) :
  firstn (length (take_while p l)) l = take_while p l.
Proof.
  induction l as [|x l IH]; simpl; [reflexivity|].
  destruct (p x); simpl; [now rewrite IH | reflexivity].
Qed.

Lemma skipn_nth {A : Type} (l : list A) (i : nat) (x : A) :
  nth_error l i = Some x -> skipn i l = x :: skipn (i + 1) l.
Proof.
  revert l. induction i as [|i IH]; intros [|y l]; simpl; try discriminate.
  - now intros [= ->].
  - apply IH.
Qed.

Lemma in_enumerate_from {A : Type} (l : list A) (s i : nat) (x : A) :
  In (i, x) (combine (seq s (length l)) l) ->
  s <= i /\ nth_error l (i - s) = Some x.
Proof.
  revert s. induction l as [|y l IH]; simpl; intros s H; [destruct H|].
  destruct H as [[= <- <-]|H].
  - split; [lia|]. now rewrite Nat.sub_diag.
  - destruct (IH _ H) as [Hle Hn]. split; [lia|].
    replace (i - s) with (S (i - S s)) by lia. exact Hn.
Qed.

Lemma in_enumerate {A : Type} (l : list A) (i : nat) (x : A) :
  In (i, x) (enumerate l) -> nth_error l i = Some x.
Proof.
  intros H. apply in_enumerate_from in H as [_ H].
  now rewrite Nat.sub_0_r in H.
Qed.

Lemma flat_map_map_in {A B C : Type} (f : A -> list C) (g : A -> list B)
  (h : B -> C) (l : list A) :
  (forall x, In x l -> f x = map h (g x)) ->
  flat_map f l = map h (flat_map g l).
Proof.
  induction l as [|x l IH]; intros H; simpl; [reflexivity|].
  rewrite map_app, H, IH; [reflexivity | | now left].
  intros y Hy. apply H. now right.
Qed.

(** The block of a line is the span of the line, cut out of the input. *)
Lemma recorded_block_span (lines : list string) (i : nat) (line : string) :
  nth_error lines i = Some line ->
  recorded_block line i lines
  = map (span_block lines)
      (match trace_span line i lines with Some sp => [sp] | None => [] end).
Proof.
  intros Hn. unfold recorded_block, trace_span.
  destruct (String.eqb (Str.strip line) ""); [reflexivity|].
  destruct (trace_start line); [|reflexivity].
  cbn zeta. cbn [length Nat.add].
  destruct (1 <? S _); [|reflexivity].
  cbn [map]. unfold span_block. cbn [fst snd].
  now rewrite (skipn_nth _ _ _ Hn), firstn_cons, firstn_take_while.
Qed.

Lemma stack_traces_fold (lines : list string) (l : list (nat * string)) :
  forall self,
    stack_traces
      (fold_left (fun self '(i, line) => _process_line line i lines self) l self)
    = stack_traces self
      ++ flat_map (fun '(i, line) => recorded_block line i lines) l.
Proof.
  induction l as [|[i line] l IH]; intros self; simpl.
  - now rewrite app_nil_r.
  - rewrite IH, _process_line_source_order, stack_traces_process_line_in.
    now rewrite app_assoc.
Qed.

(** The recorded blocks are the spans of the run, cut out of the input. *)
Lemma stack_traces_spans (lines : list string) :
  stack_traces (analyze_lines lines __init__)
  = map (span_block lines) (trace_spans lines).
Proof.
  unfold analyze_lines, trace_spans. rewrite stack_traces_fold.
  cbn [stack_traces __init__ app].
  apply flat_map_map_in. intros [i line] Hin.
  apply recorded_block_span, in_enumerate, Hin.
Qed.

Lemma trace_span_run (lines : list string) (i : nat) (line : string)
  (sp : nat * nat) :
  nth_error lines i = Some line ->
  trace_span line i lines = Some sp ->
  forward_maximal_run lines sp.
Proof.
  intros Hn. unfold trace_span.
  destruct (String.eqb_spec (Str.strip line) "") as [|Hne]; [discriminate|].
  destruct (trace_start line) eqn:Hs; [|discriminate].
  cbn zeta. destruct (Nat.ltb_spec 1 (1 + length
    (take_while trace_continues (skipn (i + 1) lines)))) as [Hlt|]; [|discriminate].
  intros [= <-]. unfold forward_maximal_run.
  set (rest := skipn (i + 1) lines) in *.
  set (tw := take_while trace_continues rest) in *.
  assert (length tw <= length rest) as Hle by apply take_while_length.
  assert (i < length lines) as Hi
      by (apply nth_error_Some; congruence).
  assert (length rest = length lines - (i + 1)) as Hr
      by (unfold rest; apply length_skipn).
  repeat split.
  - lia.
  - lia.
  - exists line. repeat split; assumption.
  - intros j Hj.
    destruct (take_while_nth trace_continues rest (j - (i + 1))) as (x & Hx & Hp).
    + fold tw. lia.
    + exists x. split; [|exact Hp].
      unfold rest in Hx. rewrite nth_error_skipn in Hx.
      now replace (i + 1 + (j - (i + 1))) with j in Hx by lia.
  - intros l Hl. apply (take_while_stop trace_continues rest).
    fold tw. unfold rest. rewrite nth_error_skipn.
    now replace (i + 1 + length tw) with (i + (1 + length tw)) by lia.
Qed.

Lemma trace_spans_runs (lines : list string) (sp : nat * nat) :
  In sp (trace_spans lines) -> forward_maximal_run lines sp.
Proof.
  unfold trace_spans. intros H.
  apply in_flat_map in H as ([i line] & Hin & Hsp).
  apply in_enumerate in Hin.
  destruct (trace_span line i lines) as [sp'|] eqn:E; [|destruct Hsp].
  destruct Hsp as [<-|[]]. exact (trace_span_run lines i line sp' Hin E).
Qed.

(** Two runs that cannot be extended forward and share a line end at the
    same line. *)
Lemma runs_end_together (lines : list string) (sp1 sp2 : nat * nat) (j : nat) :
  forward_maximal_run lines sp1 -> forward_maximal_run lines sp2 ->
  in_span j sp1 -> in_span j sp2 ->
  fst sp1 + snd sp1 = fst sp2 + snd sp2.
Proof.
  assert (forall a n b m,
             forward_maximal_run lines (a, n) ->
             forward_maximal_run lines (b, m) ->
             in_span j (a, n) -> in_span j (b, m) ->
             ~ a + n < b + m) as Hlt.
  { intros a n b m (_ & _ & _ & _ & Hstop) (_ & _ & _ & Hcont & _) J1 J2 Hlt.
    unfold in_span in J1, J2. cbn [fst snd] in J1, J2.
    destruct (Hcont (a + n)) as (l & Hl & Hc); [lia|].
    rewrite (Hstop l Hl) in Hc. discriminate. }
  destruct sp1 as [a n], sp2 as [b m]. intros R1 R2 J1 J2. cbn [fst snd].
  pose proof (Hlt a n b m R1 R2 J1 J2).
  pose proof (Hlt b m a n R2 R1 J2 J1). lia.
Qed.

(** A line whose successor does not continue a trace records no block. *)
Lemma lone_line_no_block (line : string) (index : nat)
  (all_lines : list string) :
  (forall l, nth_error all_lines (index + 1) = Some l ->
             trace_continues l = false) ->
  recorded_block line index all_lines = [].
Proof.
  intros H. unfold recorded_block.
  destruct (String.eqb (Str.strip line) ""); [reflexivity|].
  destruct (trace_start line); [|reflexivity].
  pose proof (hd_error_skipn (index + 1) all_lines) as Hhd.
  destruct (skipn (index + 1) all_lines) as [|x rest]; [reflexivity|].
  simpl in Hhd. symmetry in Hhd. simpl. now rewrite (H x Hhd).
Qed.

(** C3, as the code has it.  For the lines of the example the analysis
    records exactly one block; it consists of the 2 lines "  at bar()" and
    "  at baz()", since the line "Exception foo" holds no "at " and starts
    no trace.  For any input, a line (holding "at " or not) whose following
    line satisfies none of the continuation conditions, or that has no
    following line, adds no block. *)
Theorem stack_trace_example_and_lone_line :
  (stack_traces (analyze_lines trace_example __init__)
   = [Str.join Str.nl ["  at bar()"; "  at baz()"]]
   /\ block_lines (Str.join Str.nl ["  at bar()"; "  at baz()"]) = 2
   /\ trace_spans trace_example = [(1, 2)])
  /\ (forall line index all_lines self,
         (forall l, nth_error all_lines (index + 1) = Some l ->
                    trace_continues l = false) ->
         stack_traces (_process_line line index all_lines self)
         = stack_traces self).
Proof.
  split.
  - vm_compute. repeat split.
  - intros line index all_lines self H.
    rewrite _process_line_source_order, stack_traces_process_line_in.
    rewrite (lone_line_no_block line index all_lines H). apply app_nil_r.
Qed.

Lemma stack_trace_example_and_lone_line_witness :
  (forall l, nth_error ["see at once"; "done"] (0 + 1) = Some l ->
             trace_continues l = false)
  /\ Str.contains "at " "see at once" = true
  /\ stack_traces (_process_line "see at once" 0 ["see at once"; "done"] __init__)
     = stack_traces __init__.
Proof.
  assert (forall l, nth_error ["see at once"; "done"] (0 + 1) = Some l ->
                    trace_continues l = false) as H.
  { intros l [= <-]. vm_compute. reflexivity. }
  split; [exact H|]. split; [vm_compute; reflexivity|].
  exact (proj2 stack_trace_example_and_lone_line
           "see at once" 0 ["see at once"; "done"] __init__ H).
Defined.

(** C3 as stated fails: the only block recorded for the example has 2
    lines, not 3. *)
Lemma stack_trace_example_counterexample :
  ~ (exists block,
        stack_traces (analyze_lines trace_example __init__) = [block]
        /\ block_lines block = 3).
Proof.
  intros (block & H & Hn).
  assert (stack_traces (analyze_lines trace_example __init__)
          = [Str.join Str.nl ["  at bar()"; "  at baz()"]]) as E
      by (vm_compute; reflexivity).
  rewrite E in H. clear E. injection H as <-. vm_compute in Hn.
  discriminate Hn.
Qed.

(** *** Both drivers *)

Lemma take_while_length_eq {A : Type} (p : A -> bool) (l : list A) :
  forall k,
    (forall m, m < k -> exists x, nth_error l m = Some x /\ p x = true) ->
    (forall x, nth_error l k = Some x -> p x = false) ->
    length (take_while p l) = k.
Proof.
  induction l as [|y l IH]; intros k Hc Hs.
  - destruct k as [|k]; [reflexivity|].
    destruct (Hc 0) as (x & Hx & _); [lia | discriminate Hx].
  - cbn [take_while]. destruct (p y) eqn:Hy.
    + destruct k as [|k].
      * rewrite (Hs y eq_refl) in Hy. discriminate Hy.
      * cbn [length]. f_equal. apply IH.
        -- intros m Hm. destruct (Hc (S m)) as (x & Hx & Hp); [lia|].
           now exists x.
        -- intros x Hx. now apply Hs.
    + destruct k as [|k]; [reflexivity|].
      destruct (Hc 0) as (x & Hx & Hp); [lia|].
      injection Hx as <-. rewrite Hp in Hy. discriminate Hy.
Qed.

Lemma nth_error_in_enumerate_from {A : Type} (l : list A) :
  forall s k x,
    nth_error l k = Some x -> In (s + k, x) (combine (seq s (length l)) l).
Proof.
  induction l as [|y l IH]; intros s k x H; [destruct k; discriminate H|].
  destruct k as [|k]; simpl in H |- *.
  - injection H as <-. left. now rewrite Nat.add_0_r.
  - right. replace (s + S k) with (S s + k) by lia. now apply IH.
Qed.

Lemma nth_error_in_enumerate {A : Type} (l : list A) (k : nat) (x : A) :
  nth_error l k = Some x -> In (k, x) (enumerate l).
Proof. intros H. exact (nth_error_in_enumerate_from l 0 k x H). Qed.

(** What a span says, whatever text [x] the start test was given. *)
Lemma trace_span_facts (x : string) (i : nat) (lines : list string)
  (sp : nat * nat) :
  i < length lines ->
  trace_span x i lines = Some sp ->
  Str.strip x <> "" /\ trace_start x = true
  /\ fst sp = i /\ 2 <= snd sp /\ i + snd sp <= length lines
  /\ run_tail lines sp.
Proof.
  intros Hi. unfold trace_span.
  destruct (String.eqb_spec (Str.strip x) "") as [|Hne]; [discriminate|].
  destruct (trace_start x) eqn:Hs; [|discriminate].
  cbn zeta. destruct (Nat.ltb_spec 1 (1 + length
    (take_while trace_continues (skipn (i + 1) lines)))) as [Hlt|]; [|discriminate].
  intros [= <-]. unfold run_tail. cbn [fst snd].
  set (rest := skipn (i + 1) lines) in *.
  set (tw := take_while trace_continues rest) in *.
  assert (length tw <= length rest) as Hle by apply take_while_length.
  assert (length rest = length lines - (i + 1)) as Hr
      by (unfold rest; apply length_skipn).
  repeat split; try assumption; try lia.
  - intros j Hj.
    destruct (take_while_nth trace_continues rest (j - (i + 1))) as (y & Hy & Hp).
    + fold tw. lia.
    + exists y. split; [|exact Hp].
      unfold rest in Hy. rewrite nth_error_skipn in Hy.
      now replace (i + 1 + (j - (i + 1))) with j in Hy by lia.
  - intros l Hl. apply (take_while_stop trace_continues rest).
    fold tw. unfold rest. rewrite nth_error_skipn.
    now replace (i + 1 + length tw) with (i + (1 + length tw)) by lia.
Qed.

(** A start inside a span, before its last line, has the span that ends
    where the enclosing span ends. *)
Lemma trace_span_inside (x : string) (j : nat) (lines : list string)
  (sp : nat * nat) :
  run_tail lines sp -> fst sp + snd sp <= length lines ->
  fst sp < j -> j + 1 < fst sp + snd sp ->
  Str.strip x <> "" -> trace_start x = true ->
  trace_span x j lines = Some (j, fst sp + snd sp - j).
Proof.
  intros [Hc Hs] Hlen Hj Hj' Hne Hst. unfold trace_span.
  destruct (String.eqb_spec (Str.strip x) "") as [|_]; [contradiction|].
  rewrite Hst. cbn zeta.
  rewrite (take_while_length_eq trace_continues (skipn (j + 1) lines)
             (fst sp + snd sp - (j + 1))).
  - destruct (Nat.ltb_spec 1 (1 + (fst sp + snd sp - (j + 1)))) as [_|H];
      [|lia].
    f_equal. f_equal. lia.
  - intros m Hm. rewrite nth_error_skipn. apply Hc. lia.
  - intros l. rewrite nth_error_skipn.
    replace (j + 1 + (fst sp + snd sp - (j + 1))) with (fst sp + snd sp) by lia.
    apply Hs.
Qed.

Lemma tails_end_together (lines : list string) (sp1 sp2 : nat * nat) (j : nat) :
  run_tail lines sp1 -> run_tail lines sp2 ->
  in_span j sp1 -> in_span j sp2 ->
  fst sp1 + snd sp1 = fst sp2 + snd sp2.
Proof.
  assert (forall a b,
             run_tail lines a -> run_tail lines b ->
             in_span j a -> in_span j b ->
             ~ fst a + snd a < fst b + snd b) as Hlt.
  { intros a b [_ Hstop] [Hcont _] J1 J2 Hlt. unfold in_span in J1, J2.
    destruct (Hcont (fst a + snd a)) as (l & Hl & Hc); [lia|].
    rewrite (Hstop l Hl) in Hc. discriminate Hc. }
  intros R1 R2 J1 J2.
  pose proof (Hlt sp1 sp2 R1 R2 J1 J2).
  pose proof (Hlt sp2 sp1 R2 R1 J2 J1). lia.
Qed.

(** The spans of a driver that passes [f line] to [_process_line]. *)
Lemma in_spans_via (f : string -> string) (lines : list string)
  (sp : nat * nat) :
  In sp (flat_map (fun '(i, line) =>
                     match trace_span (f line) i lines with
                     | Some sp => [sp]
                     | None => []
                     end)
           (enumerate lines))
  <-> exists i line,
      nth_error lines i = Some line /\ trace_span (f line) i lines = Some sp.
Proof.
  rewrite in_flat_map. split.
  - intros ([i line] & Hin & Hsp). apply in_enumerate in Hin.
    destruct (trace_span (f line) i lines) as [sp'|] eqn:E; [|destruct Hsp].
    destruct Hsp as [<-|[]]. now exists i, line.
  - intros (i & line & Hn & E). exists (i, line).
    split; [now apply nth_error_in_enumerate|]. rewrite E. now left.
Qed.

Lemma spans_via_facts (f : string -> string) (lines : list string)
  (sp : nat * nat) :
  In sp (flat_map (fun '(i, line) =>
                     match trace_span (f line) i lines with
                     | Some sp => [sp]
                     | None => []
                     end)
           (enumerate lines)) ->
  2 <= snd sp /\ fst sp + snd sp <= length lines /\ run_tail lines sp
  /\ exists l, nth_error lines (fst sp) = Some l
               /\ Str.strip (f l) <> "" /\ trace_start (f l) = true.
Proof.
  intros H. apply in_spans_via in H as (i & line & Hn & E).
  assert (i < length lines) as Hi by (apply nth_error_Some; congruence).
  destruct (trace_span_facts (f line) i lines sp Hi E)
    as (Hne & Hs & Hf & H2 & Hlen & Ht).
  rewrite Hf.
  split; [exact H2|]. split; [exact Hlen|]. split; [exact Ht|].
  exists line. split; [exact Hn|]. now split.
Qed.

Lemma spans_via_inside (f : string -> string) (lines : list string)
  (sp : nat * nat) (j : nat) (l : string) :
  In sp (flat_map (fun '(i, line) =>
                     match trace_span (f line) i lines with
                     | Some sp => [sp]
                     | None => []
                     end)
           (enumerate lines)) ->
  fst sp < j -> j + 1 < fst sp + snd sp ->
  nth_error lines j = Some l ->
  Str.strip (f l) <> "" -> trace_start (f l) = true ->
  In (j, fst sp + snd sp - j)
    (flat_map (fun '(i, line) =>
                 match trace_span (f line) i lines with
                 | Some sp => [sp]
                 | None => []
                 end)
       (enumerate lines)).
Proof.
  intros H Hj Hj' Hn Hne Hst.
  destruct (spans_via_facts f lines sp H) as (_ & Hlen & Ht & _).
  apply in_spans_via. exists j, l. split; [exact Hn|].
  now apply (trace_span_inside (f l) j lines sp).
Qed.

Lemma stack_traces_fold_via (f : string -> string) (lines : list string)
  (l : list (nat * string)) :
  forall self,
    stack_traces
      (fold_left (fun self '(i, line) => _process_line (f line) i lines self)
         l self)
    = stack_traces self
      ++ flat_map (fun '(i, line) => recorded_block (f line) i lines) l.
Proof.
  induction l as [|[i line] l IH]; intros self; simpl.
  - now rewrite app_nil_r.
  - rewrite IH, _process_line_source_order, stack_traces_process_line_in.
    now rewrite app_assoc.
Qed.

Lemma recorded_block_stdin (lines : list string) (i : nat) (line : string) :
  nth_error lines i = Some line ->
  recorded_block (Str.strip line) i lines
  = map (stdin_block lines)
      (match trace_span (Str.strip line) i lines with
       | Some sp => [sp]
       | None => []
       end).
Proof.
  intros Hn. unfold recorded_block, trace_span.
  destruct (String.eqb (Str.strip (Str.strip line)) ""); [reflexivity|].
  destruct (trace_start (Str.strip line)); [|reflexivity].
  cbn zeta. cbn [length Nat.add].
  destruct (1 <? S _); [|reflexivity].
  cbn [map]. unfold stdin_block. cbn [fst snd].
  now rewrite (skipn_nth _ _ _ Hn), firstn_cons, firstn_take_while.
Qed.

Lemma stack_traces_stdin_spans (lines : list string) :
  stack_traces (analyze_stdin lines __init__)
  = map (stdin_block lines) (stdin_spans lines).
Proof.
  unfold analyze_stdin, stdin_spans.
  rewrite (stack_traces_fold_via Str.strip).
  cbn [stack_traces __init__ app].
  apply flat_map_map_in. intros [i line] Hin.
  apply recorded_block_stdin, in_enumerate, Hin.
Qed.

(** C4, as the code has it, for both drivers.  Every recorded block is made
    of a run of at least two consecutive input lines: the run begins at a
    line that, as the driver hands it to [_process_line] (as read by
    [analyze_file], stripped by [analyze_stdin]), is not blank and starts a
    trace, goes on over lines that continue it, and cannot be extended
    forward by a qualifying line; [analyze_stdin] stores the first line of
    the run stripped.  Every line is tried as a start, so blocks may
    overlap: a start line inside a recorded block, other than its last
    line, records a block of its own, and two blocks that share a line end
    at the same line. *)
Theorem recorded_blocks_are_forward_maximal (lines : list string) :
  (stack_traces (analyze_lines lines __init__)
   = map (span_block lines) (trace_spans lines)
   /\ (forall sp, In sp (trace_spans lines) -> forward_maximal_run lines sp)
   /\ (forall sp1 sp2 j,
          In sp1 (trace_spans lines) -> In sp2 (trace_spans lines) ->
          in_span j sp1 -> in_span j sp2 ->
          fst sp1 + snd sp1 = fst sp2 + snd sp2)
   /\ (forall sp j l,
          In sp (trace_spans lines) ->
          fst sp < j -> j + 1 < fst sp + snd sp ->
          nth_error lines j = Some l ->
          Str.strip l <> "" -> trace_start l = true ->
          In (j, fst sp + snd sp - j) (trace_spans lines)))
  /\ (stack_traces (analyze_stdin lines __init__)
      = map (stdin_block lines) (stdin_spans lines)
      /\ (forall sp, In sp (stdin_spans lines) -> stdin_run lines sp)
      /\ (forall sp1 sp2 j,
             In sp1 (stdin_spans lines) -> In sp2 (stdin_spans lines) ->
             in_span j sp1 -> in_span j sp2 ->
             fst sp1 + snd sp1 = fst sp2 + snd sp2)
      /\ (forall sp j l,
             In sp (stdin_spans lines) ->
             fst sp < j -> j + 1 < fst sp + snd sp ->
             nth_error lines j = Some l ->
             Str.strip (Str.strip l) <> "" ->
             trace_start (Str.strip l) = true ->
             In (j, fst sp + snd sp - j) (stdin_spans lines))).
Proof.
  split.
  - split; [apply stack_traces_spans|]. split; [apply trace_spans_runs|].
    split.
    + intros sp1 sp2 j H1 H2.
      destruct (spans_via_facts (fun x => x) lines sp1 H1) as (_ & _ & T1 & _).
      destruct (spans_via_facts (fun x => x) lines sp2 H2) as (_ & _ & T2 & _).
      now apply (tails_end_together lines).
    + intros sp j l H. exact (spans_via_inside (fun x => x) lines sp j l H).
  - split; [apply stack_traces_stdin_spans|]. split; [|split].
    + intros [i n] H.
      destruct (spans_via_facts Str.strip lines (i, n) H)
        as (H2 & Hlen & [Hc Hs] & Hstart).
      cbn [fst snd] in *. unfold stdin_run. repeat split; assumption.
    + intros sp1 sp2 j H1 H2.
      destruct (spans_via_facts Str.strip lines sp1 H1) as (_ & _ & T1 & _).
      destruct (spans_via_facts Str.strip lines sp2 H2) as (_ & _ & T2 & _).
      now apply (tails_end_together lines).
    + intros sp j l H. exact (spans_via_inside Str.strip lines sp j l H).
Qed.

(** [analyze_stdin] on lines as [readlines] returns them: the block starts
    with the stripped line and keeps the newlines of the lines that
    follow. *)
Example stdin_block_example :
  stack_traces
    (analyze_stdin
       [("boom" ++ Str.nl)%string; ("  at f()" ++ Str.nl)%string;
        ("  at g()" ++ Str.nl)%string; ("done" ++ Str.nl)%string]
       __init__)
  = [("at f()" ++ Str.nl ++ "  at g()" ++ Str.nl)%string]
  /\ stdin_spans
       [("boom" ++ Str.nl)%string; ("  at f()" ++ Str.nl)%string;
        ("  at g()" ++ Str.nl)%string; ("done" ++ Str.nl)%string]
     = [(1, 2)].
Proof. vm_compute. split; reflexivity. Qed.

(** C4 as stated fails: of three frames in a row, the first starts a block
    of lines 0 to 2 and the second a block of lines 1 to 2, so lines 1 and
    2 lie inside two distinct recorded blocks. *)
Lemma blocks_overlap_counterexample :
  stack_traces (analyze_lines three_frames __init__)
  = [Str.join Str.nl ["  at a"; "  at b"; "  at c"];
     Str.join Str.nl ["  at b"; "  at c"]]
  /\ trace_spans three_frames = [(0, 3); (1, 2)]
  /\ ~ non_overlapping (trace_spans three_frames).
Proof.
  assert (trace_spans three_frames = [(0, 3); (1, 2)]) as E
      by (vm_compute; reflexivity).
  split; [vm_compute; reflexivity|]. split; [exact E|].
  rewrite E. intros H.
  assert ((0, 3) = (1, 2)) as Habs.
  { apply (H (0, 3) (1, 2) 1); [now left | right; now left | |];
      unfold in_span; cbn [fst snd]; lia. }
  discriminate Habs.
Qed.

(* ================================================================= *)
(** ** Independent invocations *)

Lemma length_modify (r : Ref) (g : Value -> Value) (h : Heap) :
  length (OnHeap.modify r g h) = length h.
Proof.
  revert r. induction h as [|v h IH]; intros [|r]; simpl; try reflexivity.
  now rewrite IH.
Qed.

Lemma nth_error_modify_same (r : Ref) (g : Value -> Value) (h : Heap)
  (v : Value) :
  nth_error h r = Some v -> nth_error (OnHeap.modify r g h) r = Some (g v).
Proof.
  revert r. induction h as [|w h IH]; intros [|r]; simpl; try discriminate.
  - now intros [= ->].
  - apply IH.
Qed.

Lemma nth_error_modify_other (r r' : Ref) (g : Value -> Value) (h : Heap) :
  r' <> r -> nth_error (OnHeap.modify r g h) r' = nth_error h r'.
Proof.
  revert r r'. induction h as [|w h IH]; intros [|r] [|r'] H; simpl;
    try reflexivity.
  - contradiction.
  - apply IH. congruence.
Qed.

Lemma modify_outside (o : Object) (r : Ref) (g : Value -> Value)
  (h0 h : Heap) :
  In r (refs o) -> unchanged_outside o h0 h ->
  unchanged_outside o h0 (OnHeap.modify r g h).
Proof.
  intros Hr [Hl Hc]. split; [now rewrite length_modify|].
  intros r' Hr'. rewrite nth_error_modify_other; [now apply Hc|].
  intros ->. contradiction.
Qed.

(** The six attributes refer to six distinct objects. *)
Lemma refs_distinct (o : Object) :
  NoDup (refs o) ->
  (r_warnings o <> r_errors o /\ r_stack_traces o <> r_errors o
   /\ r_patterns o <> r_errors o /\ r_security_issues o <> r_errors o
   /\ r_performance_issues o <> r_errors o)
  /\ (r_stack_traces o <> r_warnings o /\ r_patterns o <> r_warnings o
      /\ r_security_issues o <> r_warnings o
      /\ r_performance_issues o <> r_warnings o)
  /\ (r_patterns o <> r_stack_traces o
      /\ r_security_issues o <> r_stack_traces o
      /\ r_performance_issues o <> r_stack_traces o)
  /\ (r_security_issues o <> r_patterns o
      /\ r_performance_issues o <> r_patterns o)
  /\ r_performance_issues o <> r_security_issues o.
Proof.
  unfold refs. intros H.
  apply NoDup_cons_iff in H as [H1 H].
  apply NoDup_cons_iff in H as [H2 H].
  apply NoDup_cons_iff in H as [H3 H].
  apply NoDup_cons_iff in H as [H4 H].
  apply NoDup_cons_iff in H as [H5 _].
  simpl in H1, H2, H3, H4, H5. tauto.
Qed.

Ltac own_cell :=
  first [ erewrite nth_error_modify_same by eassumption; reflexivity
        | rewrite nth_error_modify_other by congruence; assumption ].

Ltac base_step :=
  let Hnd := fresh "Hnd" in
  let Hout := fresh "Hout" in
  intros (Hnd & (?H & ?H & ?H & ?H & ?H & ?H) & Hout);
  destruct (refs_distinct _ Hnd)
    as ((? & ? & ? & ? & ?) & (? & ? & ? & ?) & (? & ? & ?) & (? & ?) & ?);
  split; [exact Hnd|]; split;
  [ unfold holds, OnHeap.append_finding, OnHeap.append_string,
      OnHeap.increment;
    cbn [errors warnings stack_traces patterns security_issues
         performance_issues errors_append warnings_append
         security_issues_append performance_issues_append
         stack_traces_append patterns_incr];
    repeat split; own_cell
  | apply modify_outside; [simpl; tauto | exact Hout] ].

Section Mirror.

Variables (o : Object) (h0 : Heap).

Lemma mirrors_errors_append (f : Finding) (a : LogAnalyzer) (h : Heap) :
  mirrors o h0 a h ->
  mirrors o h0 (errors_append f a) (OnHeap.append_finding (r_errors o) f h).
Proof. base_step. Qed.

Lemma mirrors_warnings_append (f : Finding) (a : LogAnalyzer) (h : Heap) :
  mirrors o h0 a h ->
  mirrors o h0 (warnings_append f a)
    (OnHeap.append_finding (r_warnings o) f h).
Proof. base_step. Qed.

Lemma mirrors_security_issues_append (f : Finding) (a : LogAnalyzer)
  (h : Heap) :
  mirrors o h0 a h ->
  mirrors o h0 (security_issues_append f a)
    (OnHeap.append_finding (r_security_issues o) f h).
Proof. base_step. Qed.

Lemma mirrors_performance_issues_append (f : Finding) (a : LogAnalyzer)
  (h : Heap) :
  mirrors o h0 a h ->
  mirrors o h0 (performance_issues_append f a)
    (OnHeap.append_finding (r_performance_issues o) f h).
Proof. base_step. Qed.

Lemma mirrors_stack_traces_append (t : string) (a : LogAnalyzer) (h : Heap) :
  mirrors o h0 a h ->
  mirrors o h0 (stack_traces_append t a)
    (OnHeap.append_string (r_stack_traces o) t h).
Proof. base_step. Qed.

Lemma mirrors_patterns_incr (k : string) (a : LogAnalyzer) (h : Heap) :
  mirrors o h0 a h ->
  mirrors o h0 (patterns_incr k a) (OnHeap.increment (r_patterns o) k h).
Proof. base_step. Qed.

Lemma mirrors_fold {X : Type} (l : list X)
  (f : LogAnalyzer -> X -> LogAnalyzer) (F : Heap -> X -> Heap) :
  (forall x a h, mirrors o h0 a h -> mirrors o h0 (f a x) (F h x)) ->
  forall a h,
    mirrors o h0 a h -> mirrors o h0 (fold_left f l a) (fold_left F l h).
Proof.
  intros Hstep. induction l as [|x l IH]; intros a h H; simpl; [exact H|].
  apply IH, Hstep, H.
Qed.

Lemma mirrors_check_error_patterns (line : string) (a : LogAnalyzer)
  (h : Heap) :
  mirrors o h0 a h ->
  mirrors o h0 (_check_error_patterns line a)
    (OnHeap._check_error_patterns o line h).
Proof.
  unfold _check_error_patterns, OnHeap._check_error_patterns.
  apply mirrors_fold. intros [pattern name] a' h' H'. cbv beta iota.
  destruct (Re.search pattern line); [|exact H'].
  apply mirrors_patterns_incr, mirrors_errors_append, H'.
Qed.

Lemma mirrors_check_null_safety_issues (line : string) (a : LogAnalyzer)
  (h : Heap) :
  mirrors o h0 a h ->
  mirrors o h0 (_check_null_safety_issues line a)
    (OnHeap._check_null_safety_issues o line h).
Proof.
  unfold _check_null_safety_issues, OnHeap._check_null_safety_issues.
  apply mirrors_fold. intros pattern a' h' H'. cbv beta iota.
  destruct (Re.search pattern line); [|exact H'].
  apply mirrors_patterns_incr, mirrors_warnings_append, H'.
Qed.

Lemma mirrors_check_async_errors (line : string) (a : LogAnalyzer)
  (h : Heap) :
  mirrors o h0 a h ->
  mirrors o h0 (_check_async_errors line a)
    (OnHeap._check_async_errors o line h).
Proof.
  unfold _check_async_errors, OnHeap._check_async_errors.
  apply mirrors_fold. intros pattern a' h' H'. cbv beta iota.
  destruct (Re.search pattern line); [|exact H'].
  apply mirrors_patterns_incr, mirrors_errors_append, H'.
Qed.

Lemma mirrors_check_security_issues (line : string) (a : LogAnalyzer)
  (h : Heap) :
  mirrors o h0 a h ->
  mirrors o h0 (_check_security_issues line a)
    (OnHeap._check_security_issues o line h).
Proof.
  unfold _check_security_issues, OnHeap._check_security_issues.
  apply mirrors_fold. intros [pattern issue_type] a' h' H'. cbv beta iota.
  destruct (Re.search pattern line); [|exact H'].
  apply mirrors_patterns_incr, mirrors_security_issues_append, H'.
Qed.

Lemma mirrors_check_performance_issues (line : string) (a : LogAnalyzer)
  (h : Heap) :
  mirrors o h0 a h ->
  mirrors o h0 (_check_performance_issues line a)
    (OnHeap._check_performance_issues o line h).
Proof.
  unfold _check_performance_issues, OnHeap._check_performance_issues.
  apply mirrors_fold. intros [pattern issue_type] a' h' H'. cbv beta iota.
  destruct (Re.search pattern line); [|exact H'].
  apply mirrors_patterns_incr, mirrors_performance_issues_append, H'.
Qed.

Lemma mirrors_check_stack_traces (line : string) (index : nat)
  (all_lines : list string) (a : LogAnalyzer) (h : Heap) :
  mirrors o h0 a h ->
  mirrors o h0 (_check_stack_traces line index all_lines a)
    (OnHeap._check_stack_traces o line index all_lines h).
Proof.
  intros H. unfold _check_stack_traces, OnHeap._check_stack_traces.
  destruct (trace_start line); [|exact H].
  cbv zeta. destruct (1 <? _); [|exact H].
  apply mirrors_stack_traces_append, H.
Qed.

Lemma mirrors_process_line (line : string) (index : nat)
  (all_lines : list string) (a : LogAnalyzer) (h : Heap) :
  mirrors o h0 a h ->
  mirrors o h0 (_process_line line index all_lines a)
    (OnHeap._process_line o line index all_lines h).
Proof.
  intros H. unfold _process_line, OnHeap._process_line.
  destruct (String.eqb (Str.strip line) ""); [exact H|].
  cbv zeta.
  apply mirrors_check_stack_traces, mirrors_check_performance_issues,
    mirrors_check_security_issues, mirrors_check_async_errors,
    mirrors_check_null_safety_issues, mirrors_check_error_patterns, H.
Qed.

(** The methods on the store do to the objects of the analyzer what the
    methods on the analyzer do to its fields, and touch nothing else. *)
Lemma mirrors_analyze_lines (lines : list string) (a : LogAnalyzer)
  (h : Heap) :
  mirrors o h0 a h ->
  mirrors o h0 (analyze_lines lines a) (OnHeap.analyze_lines o lines h).
Proof.
  unfold analyze_lines, OnHeap.analyze_lines.
  apply mirrors_fold. intros [i line] a' h'. apply mirrors_process_line.
Qed.

Lemma mirrors_analyze_stdin (lines : list string) (a : LogAnalyzer)
  (h : Heap) :
  mirrors o h0 a h ->
  mirrors o h0 (analyze_stdin lines a) (OnHeap.analyze_stdin o lines h).
Proof.
  unfold analyze_stdin, OnHeap.analyze_stdin.
  apply mirrors_fold. intros [i line] a' h'. apply mirrors_process_line.
Qed.

End Mirror.

Lemma init_eq (h : Heap) :
  OnHeap.__init__ h
  = (mkObject (length h) (length h + 1) (length h + 2) (length h + 3)
       (length h + 4) (length h + 5),
     h ++ [VFindings []; VFindings []; VStrings []; VCounter [];
           VFindings []; VFindings []]).
Proof.
  cbv beta iota zeta delta [OnHeap.__init__ OnHeap.alloc].
  rewrite !length_app. cbn [length]. rewrite <- !app_assoc. cbn [app].
  f_equal. f_equal; lia.
Qed.

(** [__init__] binds the attributes to six new objects, all distinct, and
    leaves the objects that exist as they are. *)
Lemma init_fresh (h : Heap) :
  let o := fst (OnHeap.__init__ h) in
  let h' := snd (OnHeap.__init__ h) in
  mirrors o h' __init__ h'
  /\ (forall r, In r (refs o) -> length h <= r < length h')
  /\ length h' = length h + 6
  /\ (forall r, r < length h -> nth_error h' r = nth_error h r).
Proof.
  cbv zeta. rewrite init_eq. cbn [fst snd].
  split; [|split; [|split]].
  - split; [|split].
    + unfold refs. cbn [r_errors r_warnings r_stack_traces r_patterns
                        r_security_issues r_performance_issues].
      repeat (apply NoDup_cons; [simpl; lia|]). apply NoDup_nil.
    + unfold holds.
      cbn [r_errors r_warnings r_stack_traces r_patterns r_security_issues
           r_performance_issues errors warnings stack_traces patterns
           security_issues performance_issues __init__].
      repeat split;
        (rewrite nth_error_app2 by lia;
         match goal with
         | |- nth_error _ (?n - length h) = _ =>
             let k := fresh "k" in
             let E := fresh "E" in
             remember (n - length h) as k eqn:E;
             first [ replace k with 0 by lia | replace k with 1 by lia
                   | replace k with 2 by lia | replace k with 3 by lia
                   | replace k with 4 by lia | replace k with 5 by lia ];
             reflexivity
         end).
    + split; [reflexivity | intros; reflexivity].
  - unfold refs. cbn [r_errors r_warnings r_stack_traces r_patterns
                      r_security_issues r_performance_issues].
    rewrite length_app. cbn [length In]. intros r Hr. lia.
  - rewrite length_app. reflexivity.
  - intros r Hr. now apply nth_error_app1.
Qed.

Lemma holds_transport (o : Object) (a : LogAnalyzer) (h h' : Heap) :
  holds o a h ->
  (forall r, In r (refs o) -> nth_error h' r = nth_error h r) ->
  holds o a h'.
Proof.
  unfold holds. intros (H1 & H2 & H3 & H4 & H5 & H6) E.
  rewrite !E by (simpl; tauto). repeat split; assumption.
Qed.

(** Two invocations, one after the other, of a driver that the store
    follows. *)
Lemma two_invocations
  (pure : list string -> LogAnalyzer -> LogAnalyzer)
  (heap : Object -> list string -> Heap -> Heap) :
  (forall o h0 lines a h,
      mirrors o h0 a h -> mirrors o h0 (pure lines a) (heap o lines h)) ->
  forall lines h,
    let o1 := fst (OnHeap.__init__ h) in
    let h1 := heap o1 lines (snd (OnHeap.__init__ h)) in
    let o2 := fst (OnHeap.__init__ h1) in
    let h2 := heap o2 lines (snd (OnHeap.__init__ h1)) in
    holds o1 (pure lines __init__) h1
    /\ holds o1 (pure lines __init__) h2
    /\ holds o2 (pure lines __init__) h2
    /\ NoDup (refs o1) /\ NoDup (refs o2)
    /\ (forall r, In r (refs o1) -> ~ In r (refs o2))
    /\ (forall r, r < length h -> nth_error h2 r = nth_error h r).
Proof.
  intros Hm lines h. cbv zeta.
  destruct (init_fresh h) as (I1 & R1 & L1 & O1). cbv zeta in I1, R1, L1, O1.
  set (o1 := fst (OnHeap.__init__ h)) in *.
  set (hA := snd (OnHeap.__init__ h)) in *.
  pose proof (Hm o1 hA lines __init__ hA I1) as (N1 & H1 & (Len1 & Out1)).
  set (h1 := heap o1 lines hA) in *.
  destruct (init_fresh h1) as (I2 & R2 & L2 & O2). cbv zeta in I2, R2, L2, O2.
  set (o2 := fst (OnHeap.__init__ h1)) in *.
  set (hB := snd (OnHeap.__init__ h1)) in *.
  pose proof (Hm o2 hB lines __init__ hB I2) as (N2 & H2 & (Len2 & Out2)).
  set (h2 := heap o2 lines hB) in *.
  assert (forall r, In r (refs o1) -> ~ In r (refs o2)) as Hdisj.
  { intros r Hr1 Hr2. specialize (R1 r Hr1). specialize (R2 r Hr2). lia. }
  split; [exact H1|]. split; [|split; [exact H2|]].
  - apply (holds_transport o1 _ h1); [exact H1|].
    intros r Hr. rewrite Out2 by now apply Hdisj.
    apply O2. specialize (R1 r Hr). lia.
  - split; [exact N1|]. split; [exact N2|]. split; [exact Hdisj|].
    intros r Hr.
    rewrite Out2 by (intros Hr2; specialize (R2 r Hr2); lia).
    rewrite O2 by lia.
    rewrite Out1 by (intros Hr1; specialize (R1 r Hr1); lia).
    now apply O1.
Qed.

(** C8. Two invocations of the analysis over the same lines, each on a
    fresh analyzer, one after the other in the same interpreter and
    whatever objects its store already holds.  [__init__] binds the six
    attributes of each analyzer to objects of its own, the analysis reads
    and changes these objects only, and so, after both runs, the two
    analyzers hold the same report, which is a function of the lines
    alone; the second run leaves the objects of the first and every older
    object as they were.  This holds of the loop of [analyze_file] and of
    [analyze_stdin]. *)
Theorem independent_invocations (lines : list string) (h : Heap) :
  (let o1 := fst (OnHeap.__init__ h) in
   let h1 := OnHeap.analyze_lines o1 lines (snd (OnHeap.__init__ h)) in
   let o2 := fst (OnHeap.__init__ h1) in
   let h2 := OnHeap.analyze_lines o2 lines (snd (OnHeap.__init__ h1)) in
   holds o1 (analyze_lines lines __init__) h1
   /\ holds o1 (analyze_lines lines __init__) h2
   /\ holds o2 (analyze_lines lines __init__) h2
   /\ NoDup (refs o1) /\ NoDup (refs o2)
   /\ (forall r, In r (refs o1) -> ~ In r (refs o2))
   /\ (forall r, r < length h -> nth_error h2 r = nth_error h r))
  /\ (let o1 := fst (OnHeap.__init__ h) in
      let h1 := OnHeap.analyze_stdin o1 lines (snd (OnHeap.__init__ h)) in
      let o2 := fst (OnHeap.__init__ h1) in
      let h2 := OnHeap.analyze_stdin o2 lines (snd (OnHeap.__init__ h1)) in
      holds o1 (analyze_stdin lines __init__) h1
      /\ holds o1 (analyze_stdin lines __init__) h2
      /\ holds o2 (analyze_stdin lines __init__) h2
      /\ NoDup (refs o1) /\ NoDup (refs o2)
      /\ (forall r, In r (refs o1) -> ~ In r (refs o2))
      /\ (forall r, r < length h -> nth_error h2 r = nth_error h r)).
Proof.
  split.
  - apply (two_invocations analyze_lines OnHeap.analyze_lines).
    intros o h0 lines' a h'. apply mirrors_analyze_lines.
  - apply (two_invocations analyze_stdin OnHeap.analyze_stdin).
    intros o h0 lines' a h'. apply mirrors_analyze_stdin.
Qed.

(** Not every store behaves so: were the [errors] attribute of a second
    analyzer bound to the list of the first, the run of the second would
    add to what the first holds. *)
Example shared_list_is_seen :
  let o1 := fst (OnHeap.__init__ []) in
  let h1 := OnHeap.analyze_lines o1 ["NullPointerException"]
              (snd (OnHeap.__init__ [])) in
  let o2 := fst (OnHeap.__init__ h1) in
  let shared := mkObject (r_errors o1) (r_warnings o2) (r_stack_traces o2)
                  (r_patterns o2) (r_security_issues o2)
                  (r_performance_issues o2) in
  let h2 := OnHeap.analyze_lines shared ["NullPointerException"]
              (snd (OnHeap.__init__ h1)) in
  nth_error h1 (r_errors o1)
  = Some (VFindings [mkFinding "Null Pointer Exception" "NullPointerException"])
  /\ nth_error h2 (r_errors o1)
     = Some (VFindings
               [mkFinding "Null Pointer Exception" "NullPointerException";
                mkFinding "Null Pointer Exception" "NullPointerException"]).
Proof. vm_compute. split; reflexivity. Qed.

(** The analyzer itself accumulates: a second run on the same object adds
    to the first. *)
Example reused_analyzer_accumulates :
  errors (analyze_lines ["NullPointerException"]
            (analyze_lines ["NullPointerException"] __init__))
  = errors (analyze_lines ["NullPointerException"] __init__)
    ++ errors (analyze_lines ["NullPointerException"] __init__).
Proof. vm_compute. reflexivity. Qed.

(* ================================================================= *)
(** ** The report and the exit status *)

Lemma bind_safe {B : Type} (m : IO unit) (f : unit -> IO B) :
  safe m -> bind m f = (stdout m ++ stdout (f tt), outcome (f tt)).
Proof.
  unfold safe, outcome, stdout. destruct m as [out [e|[]]]; simpl; [discriminate|].
  intros _. now destruct (f tt).
Qed.

Lemma outcome_bind {B : Type} (m : IO unit) (f : unit -> IO B) :
  safe m -> outcome (bind m f) = outcome (f tt).
Proof. intros H. now rewrite bind_safe. Qed.

Lemma stdout_bind {B : Type} (m : IO unit) (f : unit -> IO B) :
  safe m -> stdout (bind m f) = stdout m ++ stdout (f tt).
Proof. intros H. now rewrite bind_safe. Qed.

Lemma safe_print (s : string) : safe (print s).
Proof. reflexivity. Qed.

Lemma safe_ret : safe (ret tt).
Proof. reflexivity. Qed.

Lemma safe_bind (m : IO unit) (f : unit -> IO unit) :
  safe m -> safe (f tt) -> safe (bind m f).
Proof. intros Hm Hf. unfold safe. now rewrite outcome_bind. Qed.

Lemma safe_when (c : bool) (body : IO unit) : safe body -> safe (when c body).
Proof. destruct c; [trivial | intros _; reflexivity]. Qed.

Lemma safe_for_each {A : Type} (l : list A) (body : A -> IO unit) :
  (forall x, safe (body x)) -> safe (for_each l body).
Proof.
  intros H. induction l as [|x l IH]; simpl; [reflexivity|].
  now apply safe_bind.
Qed.

Lemma safe_print_finding (entry : nat * Finding) : safe (print_finding entry).
Proof. destruct entry. reflexivity. Qed.

Create HintDb safe.
#[local] Hint Resolve safe_print safe_ret safe_bind safe_when safe_for_each
  safe_print_finding : safe.
#[local] Hint Extern 1 (safe (let (_, _) := ?x in _)) => destruct x : safe.

(** No attribute [async_errors]: [__init__] does not assign it and the
    class does not define it. *)
Lemma getattr_async_errors (self : LogAnalyzer) :
  getattr self "async_errors" = raise (AttributeError "async_errors").
Proof. reflexivity. Qed.

(** The attributes that [__init__] assigns are found. *)
Lemma getattr_errors (self : LogAnalyzer) :
  getattr self "errors" = ret (VFindings (errors self))
  /\ getattr self "security_issues" = ret (VFindings (security_issues self))
  /\ getattr self "performance_issues"
     = ret (VFindings (performance_issues self)).
Proof. repeat split. Qed.

Ltac step_report :=
  repeat (first [ rewrite outcome_bind by auto 10 with safe
                | rewrite stdout_bind by auto 10 with safe ]).

Lemma print_report_outcome (self : LogAnalyzer) :
  outcome (print_report self) = inl (AttributeError "async_errors").
Proof.
  unfold print_report. step_report.
  rewrite getattr_async_errors. reflexivity.
Qed.

Lemma print_report_stdout (self : LogAnalyzer) :
  exists sections,
    stdout (print_report self)
    = report_head self ++ sections
      ++ [rule "="; "RECOMMENDATIONS:"; rule "-"]
      ++ (if nonempty (errors self)
          then ["  1. Address critical errors immediately (NullPointerException, etc.)"]
          else []).
Proof.
  unfold print_report. step_report.
  rewrite getattr_async_errors.
  unfold report_head. cbn [stdout print fst app].
  eexists. do 9 f_equal.
  cbn [raise bind]. rewrite !app_assoc.
  apply (f_equal2 (@app string)); [reflexivity|].
  do 3 f_equal. destruct (nonempty (errors self)); reflexivity.
Qed.

Lemma outcome_bind_inl {A B : Type} (m : IO A) (f : A -> IO B) (e : Exn) :
  outcome m = inl e -> outcome (bind m f) = inl e.
Proof.
  unfold outcome. destruct m as [out [e'|a]]; cbn; intros H;
    [injection H as ->; reflexivity | discriminate H].
Qed.

Lemma outcome_bind_inr {A B : Type} (m : IO A) (f : A -> IO B) (a : A) :
  outcome m = inr a -> outcome (bind m f) = outcome (f a).
Proof.
  unfold outcome. destruct m as [out [e|a']]; simpl; [discriminate|].
  intros [= ->]. now destruct (f a).
Qed.

(** [main] ends in one of two ways: the file is missing and [sys.exit(1)]
    is called before any analysis, or the report is printed and fails. *)
Lemma main_outcome (argv : list string) (fs : FileSystem)
  (stdin_lines : list string) :
  (2 <= length argv /\ fs (nth 1 argv "") = None
   /\ main argv fs stdin_lines
      = (["Error: File not found: " ++ nth 1 argv ""]%string,
         inl (SystemExit 1)))
  \/ outcome (main argv fs stdin_lines) = inl (AttributeError "async_errors").
Proof.
  unfold main.
  destruct (Nat.ltb_spec (length argv) 2) as [Hlt|Hge].
  - right.
    rewrite (outcome_bind_inr _ _ (analyze_stdin stdin_lines __init__))
      by reflexivity.
    apply outcome_bind_inl, print_report_outcome.
  - unfold analyze_file.
    destruct (fs (nth 1 argv "")) as [content|] eqn:E.
    + right.
      rewrite (outcome_bind_inr _ _
                 (analyze_lines (Str.split_newline content) __init__))
        by reflexivity.
      apply outcome_bind_inl, print_report_outcome.
    + left. repeat split; assumption.
Qed.

Lemma main_exit_status (argv : list string) (fs : FileSystem)
  (stdin_lines : list string) :
  exit_status (main argv fs stdin_lines) = 1.
Proof.
  unfold exit_status.
  destruct (main_outcome argv fs stdin_lines) as [(_ & _ & ->) | ->];
    reflexivity.
Qed.

(** C1. Whatever the analyzer holds, [print_report] reaches the read of
    [self.async_errors] in the recommendations and fails there: the
    analyzer has no such attribute, the call raises [AttributeError], and
    what was printed ends with the head of the recommendations (and its
    first item if there are errors).  Every run of [main] ends with that
    exception, unless the named file is missing and no report is printed. *)
Theorem print_report_fails_at_async_errors (self : LogAnalyzer) :
  getattr self "async_errors" = raise (AttributeError "async_errors")
  /\ outcome (print_report self) = inl (AttributeError "async_errors")
  /\ (exists sections,
        stdout (print_report self)
        = report_head self ++ sections
          ++ [rule "="; "RECOMMENDATIONS:"; rule "-"]
          ++ (if nonempty (errors self)
              then ["  1. Address critical errors immediately (NullPointerException, etc.)"]
              else []))
  /\ (forall argv fs stdin_lines,
        outcome (main argv fs stdin_lines)
        = inl (AttributeError "async_errors")
        \/ (2 <= length argv /\ fs (nth 1 argv "") = None)).
Proof.
  split; [apply getattr_async_errors|].
  split; [apply print_report_outcome|].
  split; [apply print_report_stdout|].
  intros argv fs stdin_lines.
  destruct (main_outcome argv fs stdin_lines) as [(Hlen & Hfs & _) | H];
    [right; now split | left; exact H].
Qed.


(** C5, on the code.  A log file without any finding: the analysis
    completes with no finding, and the last statement of [main] would leave
    the exit status at 0; but [print_report] raises [AttributeError] before
    it, and the exit status is 1.  The exit status of [main] is 1 on every
    input. *)
Theorem clean_run_exit_status :
  total_findings (analyze_lines (Str.split_newline clean_log) __init__) = 0
  /\ final_status (analyze_lines (Str.split_newline clean_log) __init__) = 0
  /\ outcome (main ["analyze_logs.py"; "app.log"]
                (one_file "app.log" clean_log) [])
     = inl (AttributeError "async_errors")
  /\ exit_status (main ["analyze_logs.py"; "app.log"]
                    (one_file "app.log" clean_log) []) = 1
  /\ (forall argv fs stdin_lines,
         exit_status (main argv fs stdin_lines) = 1).
Proof.
  split; [vm_compute; reflexivity|].
  split; [vm_compute; reflexivity|].
  split; [vm_compute; reflexivity|].
  split; [vm_compute; reflexivity|].
  exact main_exit_status.
Qed.

(** With an error finding or with a missing file the exit status is 1 as
    well: by the failing report in the first case, by [sys.exit(1)] in the
    second. *)
Example error_run_and_missing_file :
  outcome (main ["analyze_logs.py"; "app.log"]
             (one_file "app.log" "NullPointerException") [])
  = inl (AttributeError "async_errors")
  /\ main ["analyze_logs.py"; "gone.log"] (one_file "app.log" clean_log) []
     = (["Error: File not found: gone.log"], inl (SystemExit 1)).
Proof. vm_compute. split; reflexivity. Qed.

(* ================================================================= *)
(** * Further properties *)

(** ** Findings line by line *)

Lemma map_snd_enumerate_from {A : Type} (l : list A) (s : nat) :
  map snd (combine (seq s (length l)) l) = l.
Proof.
  revert s. induction l as [|x l IH]; intros s; simpl; [reflexivity|].
  now rewrite IH.
Qed.

Lemma map_snd_enumerate {A : Type} (l : list A) : map snd (enumerate l) = l.
Proof. apply map_snd_enumerate_from. Qed.

Lemma process_line_contrib (line : string) (index : nat)
  (all_lines : list string) (self : LogAnalyzer) :
  (forall c, collection c (_process_line line index all_lines self)
             = collection c self ++ line_findings c line)
  /\ patterns (_process_line line index all_lines self)
     = Counter.incr_all (line_keys line) (patterns self).
Proof.
  rewrite _process_line_source_order. unfold line_findings, line_keys, is_blank.
  destruct (String.eqb_spec (Str.strip line) "") as [Hb|Hne].
  - rewrite process_line_in_blank by exact Hb.
    split; [intros c; now rewrite app_nil_r | reflexivity].
  - exact (process_line_in_spec source_order line index all_lines self Hne).
Qed.

(** A run of [_process_line] over numbered lines, each passed through [f]
    first, appends the findings of the lines one after the other. *)
Lemma fold_contrib (f : string -> string) (all_lines : list string)
  (l : list (nat * string)) :
  forall self,
    let r := fold_left
               (fun self '(i, line) => _process_line (f line) i all_lines self)
               l self in
    (forall c, collection c r
               = collection c self
                 ++ flat_map (line_findings c) (map f (map snd l)))
    /\ patterns r
       = Counter.incr_all (flat_map line_keys (map f (map snd l)))
           (patterns self).
Proof.
  induction l as [|[i line] l IH]; intros self; cbn zeta.
  - split; [intros c; simpl; now rewrite app_nil_r | reflexivity].
  - cbn [fold_left map snd flat_map].
    destruct (IH (_process_line (f line) i all_lines self)) as [Hc Hp].
    destruct (process_line_contrib (f line) i all_lines self) as [Lc Lp].
    split.
    + intros c. now rewrite Hc, Lc, app_assoc.
    + now rewrite Hp, Lp, CounterFacts.incr_all_app.
Qed.

Lemma analyze_lines_contrib (lines : list string) (self : LogAnalyzer) :
  (forall c, collection c (analyze_lines lines self)
             = collection c self ++ flat_map (line_findings c) lines)
  /\ patterns (analyze_lines lines self)
     = Counter.incr_all (flat_map line_keys lines) (patterns self).
Proof.
  pose proof (fold_contrib (fun x => x) lines (enumerate lines) self) as H.
  cbn zeta in H. rewrite map_snd_enumerate, map_id in H. exact H.
Qed.

Lemma analyze_stdin_contrib (lines : list string) (self : LogAnalyzer) :
  (forall c, collection c (analyze_stdin lines self)
             = collection c self
               ++ flat_map (line_findings c) (map Str.strip lines))
  /\ patterns (analyze_stdin lines self)
     = Counter.incr_all (flat_map line_keys (map Str.strip lines))
         (patterns self).
Proof.
  pose proof (fold_contrib Str.strip lines (enumerate lines) self) as H.
  cbn zeta in H. rewrite map_snd_enumerate in H. exact H.
Qed.

Lemma analyze_lines_stack_traces (lines : list string) (self : LogAnalyzer) :
  stack_traces (analyze_lines lines self)
  = stack_traces self
    ++ flat_map (fun '(i, line) => recorded_block line i lines) (enumerate lines).
Proof. unfold analyze_lines. apply stack_traces_fold. Qed.

Lemma fold_left_invariant_in {A B : Type} (P : A -> Prop) (f : A -> B -> A)
  (l : list B) :
  (forall a b, In b l -> P a -> P (f a b)) ->
  forall a, P a -> P (fold_left f l a).
Proof.
  induction l as [|b l IH]; intros Hf a Ha; simpl; [exact Ha|].
  apply IH.
  - intros a' b' Hin. apply Hf. now right.
  - apply Hf; [now left | exact Ha].
Qed.

Lemma line_findings_blank (c : Collection) (line : string) :
  Str.all_space line = true -> line_findings c line = [].
Proof.
  intros H. apply StrFacts.strip_empty in H.
  unfold line_findings, is_blank. now rewrite H.
Qed.

Lemma line_keys_blank (line : string) :
  Str.all_space line = true -> line_keys line = [].
Proof.
  intros H. apply StrFacts.strip_empty in H.
  unfold line_keys, is_blank. now rewrite H.
Qed.

Lemma flat_map_not_blank {B : Type} (g : string -> list B) (lines : list string) :
  (forall line, Str.all_space line = true -> g line = []) ->
  flat_map g (filter (fun line => negb (Str.all_space line)) lines)
  = flat_map g lines.
Proof.
  intros Hg. induction lines as [|line lines IH]; [reflexivity|].
  cbn [filter flat_map]. destruct (Str.all_space line) eqn:E; cbn [negb].
  - now rewrite (Hg line E).
  - cbn [flat_map]. now rewrite IH.
Qed.

(** X1. A line of white space only changes nothing, the findings and the
    counter of an analysis do not change when the blank lines are taken out
    of the input, and an input of blank lines only (the empty file, the
    empty input) leaves the analyzer as it was. *)
Theorem blank_lines_are_skipped :
  (forall line index all_lines self,
      Str.all_space line = true ->
      _process_line line index all_lines self = self)
  /\ (forall lines,
         let r := analyze_lines lines __init__ in
         let r' := analyze_lines
                     (filter (fun line => negb (Str.all_space line)) lines)
                     __init__ in
         same_findings r' r /\ patterns r' = patterns r)
  /\ (forall lines self,
         forallb Str.all_space lines = true ->
         analyze_lines lines self = self).
Proof.
  assert (forall line index all_lines self,
             Str.all_space line = true ->
             _process_line line index all_lines self = self) as Hblank.
  { intros line index all_lines self H.
    apply StrFacts.strip_empty in H.
    unfold _process_line. now rewrite H. }
  split; [exact Hblank|]. split.
  2:{ intros lines self H. unfold analyze_lines.
      apply (fold_left_invariant_in (fun a => a = self)); [|reflexivity].
      intros a [i line] Hin ->. apply Hblank.
      rewrite forallb_forall in H. apply H.
      apply in_enumerate in Hin. now apply nth_error_In in Hin. }
  - intros lines. cbn zeta.
    destruct (analyze_lines_contrib lines __init__) as [Hc Hp].
    destruct (analyze_lines_contrib
                (filter (fun line => negb (Str.all_space line)) lines) __init__)
      as [Hc' Hp'].
    pose proof (fun c => flat_map_not_blank (line_findings c) lines
                           (line_findings_blank c)) as Ef.
    pose proof (flat_map_not_blank line_keys lines line_keys_blank) as Ek.
    split.
    + pose proof (Hc Errors) as E1. pose proof (Hc' Errors) as E1'.
      pose proof (Hc Warnings) as E2. pose proof (Hc' Warnings) as E2'.
      pose proof (Hc SecurityIssues) as E3. pose proof (Hc' SecurityIssues) as E3'.
      pose proof (Hc PerformanceIssues) as E4.
      pose proof (Hc' PerformanceIssues) as E4'.
      cbn [collection] in E1, E1', E2, E2', E3, E3', E4, E4'.
      unfold same_findings.
      rewrite E1, E1', E2, E2', E3, E3', E4, E4', !Ef. repeat split.
    + now rewrite Hp, Hp', Ek.
Qed.

Lemma keys_incr (k : string) (m : Counter) :
  exists added, Counter.keys (Counter.incr k m) = Counter.keys m ++ added.
Proof.
  unfold Counter.keys. induction m as [|[k' v] m (added & IH)]; simpl.
  - now exists [k].
  - destruct (String.eqb k k'); simpl.
    + exists []. now rewrite app_nil_r.
    + exists added. now rewrite IH.
Qed.

Lemma keys_incr_all (ks : list string) (m : Counter) :
  exists added, Counter.keys (Counter.incr_all ks m) = Counter.keys m ++ added.
Proof.
  unfold Counter.incr_all. revert m.
  induction ks as [|k ks IH]; intros m; simpl.
  - exists []. now rewrite app_nil_r.
  - destruct (IH (Counter.incr k m)) as (a2 & ->).
    destruct (keys_incr k m) as (a1 & ->).
    exists (a1 ++ a2). now rewrite app_assoc.
Qed.

(** X2. The analysis only appends: whatever the analyzer held before, each
    of the four lists and the list of stack traces keeps its content as a
    prefix, no count goes down, and the keys of the counter keep their
    order, new keys coming last. *)
Theorem analysis_only_appends (lines : list string) (self : LogAnalyzer) :
  let r := analyze_lines lines self in
  (forall c, exists new, collection c r = collection c self ++ new)
  /\ (exists new, stack_traces r = stack_traces self ++ new)
  /\ (forall k, Counter.get k (patterns self) <= Counter.get k (patterns r))
  /\ (exists added,
        Counter.keys (patterns r) = Counter.keys (patterns self) ++ added).
Proof.
  cbn zeta. destruct (analyze_lines_contrib lines self) as [Hc Hp].
  split; [intros c; eexists; apply Hc|].
  split; [eexists; apply analyze_lines_stack_traces|].
  split.
  - intros k. rewrite Hp, CounterFacts.get_incr_all. lia.
  - rewrite Hp. apply keys_incr_all.
Qed.

(** X3. The four lists and the counter of the analysis of two inputs put
    one after the other are those of the first input followed by those of
    the second: the lists are concatenated and the counts add up.  They
    are also, lists and counter alike, what the analysis of the second
    input leaves on the analyzer that the first input left. *)
Theorem findings_of_concatenated_input (l1 l2 : list string) :
  (forall c,
      collection c (analyze_lines (l1 ++ l2) __init__)
      = collection c (analyze_lines l1 __init__)
        ++ collection c (analyze_lines l2 __init__))
  /\ (forall k,
         Counter.get k (patterns (analyze_lines (l1 ++ l2) __init__))
         = Counter.get k (patterns (analyze_lines l1 __init__))
           + Counter.get k (patterns (analyze_lines l2 __init__)))
  /\ (forall c,
         collection c (analyze_lines (l1 ++ l2) __init__)
         = collection c (analyze_lines l2 (analyze_lines l1 __init__)))
  /\ patterns (analyze_lines (l1 ++ l2) __init__)
     = patterns (analyze_lines l2 (analyze_lines l1 __init__)).
Proof.
  destruct (analyze_lines_contrib (l1 ++ l2) __init__) as [Hc Hp].
  destruct (analyze_lines_contrib l1 __init__) as [Hc1 Hp1].
  destruct (analyze_lines_contrib l2 __init__) as [Hc2 Hp2].
  destruct (analyze_lines_contrib l2 (analyze_lines l1 __init__)) as [Hc3 Hp3].
  assert (forall c, collection c __init__ = []) as Hi by (intros []; reflexivity).
  split; [|split; [|split]].
  4:{ now rewrite Hp, Hp3, Hp1, flat_map_app, CounterFacts.incr_all_app. }
  - intros c. rewrite Hc, Hc1, Hc2, !Hi, flat_map_app. reflexivity.
  - intros k. rewrite Hp, Hp1, Hp2, !CounterFacts.get_incr_all, flat_map_app,
      count_occ_app. cbn [patterns __init__ Counter.get]. lia.
  - intros c. rewrite Hc, Hc3, Hc1, !Hi, flat_map_app. reflexivity.
Qed.

(** X4. [analyze_stdin] strips every line before the pattern passes see
    it: its four lists and its counter are those of [analyze_file]'s loop
    over the stripped lines. *)
Theorem stdin_findings_are_those_of_stripped_lines (lines : list string) :
  same_findings (analyze_stdin lines __init__)
    (analyze_lines (map Str.strip lines) __init__)
  /\ patterns (analyze_stdin lines __init__)
     = patterns (analyze_lines (map Str.strip lines) __init__).
Proof.
  destruct (analyze_stdin_contrib lines __init__) as [Hc Hp].
  destruct (analyze_lines_contrib (map Str.strip lines) __init__) as [Hc' Hp'].
  split.
  - pose proof (Hc Errors) as E1. pose proof (Hc' Errors) as E1'.
    pose proof (Hc Warnings) as E2. pose proof (Hc' Warnings) as E2'.
    pose proof (Hc SecurityIssues) as E3. pose proof (Hc' SecurityIssues) as E3'.
    pose proof (Hc PerformanceIssues) as E4.
    pose proof (Hc' PerformanceIssues) as E4'.
    cbn [collection] in E1, E1', E2, E2', E3, E3', E4, E4'.
    unfold same_findings.
    rewrite E1, E1', E2, E2', E3, E3', E4, E4'. repeat split.
  - now rewrite Hp, Hp'.
Qed.

(** ** Where a finding comes from *)

Lemma in_source_order (p : Pass) : In p source_order.
Proof. destruct p; simpl; tauto. Qed.

Lemma in_appended (c : Collection) (line : string) (f : Finding) :
  In f (appended c source_order line)
  <-> exists p e,
      target p = c /\ In e (entries p)
      /\ Re.search (e_pattern e) line = true /\ f = finding_of line e.
Proof.
  unfold appended. rewrite in_flat_map. split.
  - intros (p & _ & Hin).
    destruct (Collection_eqb (target p) c) eqn:E; [|destruct Hin].
    apply Collection_eqb_eq in E.
    apply in_map_iff in Hin as (e & <- & He).
    unfold hits in He. apply filter_In in He as [He Hs].
    now exists p, e.
  - intros (p & e & Ht & He & Hs & ->).
    exists p. split; [apply in_source_order|].
    apply Collection_eqb_eq in Ht. rewrite Ht.
    apply in_map. unfold hits. apply filter_In. now split.
Qed.

Lemma in_analysis (lines : list string) (c : Collection) (f : Finding) :
  In f (collection c (analyze_lines lines __init__))
  <-> exists line p e,
      In line lines /\ Str.strip line <> ""
      /\ target p = c /\ In e (entries p)
      /\ Re.search (e_pattern e) line = true
      /\ f = mkFinding (e_type e) (Str.strip line).
Proof.
  destruct (analyze_lines_contrib lines __init__) as [Hc _].
  rewrite Hc.
  assert (collection c __init__ = []) as -> by (destruct c; reflexivity).
  cbn [app]. rewrite in_flat_map. split.
  - intros (line & Hl & Hin). unfold line_findings, is_blank in Hin.
    destruct (String.eqb_spec (Str.strip line) "") as [|Hne]; [destruct Hin|].
    apply in_appended in Hin as (p & e & Ht & He & Hs & ->).
    exists line, p, e. repeat split; assumption.
  - intros (line & p & e & Hl & Hne & Ht & He & Hs & ->).
    exists line. split; [exact Hl|]. unfold line_findings, is_blank.
    destruct (String.eqb_spec (Str.strip line) "") as [|_]; [contradiction|].
    apply in_appended. now exists p, e.
Qed.

(** X5. The four lists hold exactly the matches: a finding is in a list of
    the analysis if and only if some line of the input that is not blank
    and some entry of a catalog that appends to that list are such that the
    pattern of the entry is found in the line; the finding then has the
    type of the entry and the stripped line. *)
Theorem findings_are_exactly_the_matches (lines : list string)
  (c : Collection) (f : Finding) :
  In f (collection c (analyze_lines lines __init__))
  <-> exists line p e,
      In line lines /\ Str.strip line <> ""
      /\ target p = c /\ In e (entries p)
      /\ Re.search (e_pattern e) line = true
      /\ f = mkFinding (e_type e) (Str.strip line).
Proof. apply in_analysis. Qed.

(** ** Bounds *)

Lemma hits_length (catalog : list Entry) (line : string) :
  length (hits catalog line) <= length catalog.
Proof. apply filter_length_le. Qed.

Lemma appended_length (c : Collection) (order : list Pass) (line : string) :
  length (appended c order line)
  <= length (flat_map (fun p => if Collection_eqb (target p) c
                                then entries p else [])
               order).
Proof.
  induction order as [|p order IH]; [apply Nat.le_refl|].
  rewrite appended_cons. cbn [flat_map]. rewrite !length_app.
  destruct (Collection_eqb (target p) c).
  - rewrite length_map. pose proof (hits_length (entries p) line). lia.
  - cbn [length]. lia.
Qed.

Lemma flat_map_length_bound {A B : Type} (g : A -> list B) (n : nat)
  (l : list A) :
  (forall x, length (g x) <= n) -> length (flat_map g l) <= n * length l.
Proof.
  intros Hg. induction l as [|x l IH]; simpl; [lia|].
  rewrite length_app. pose proof (Hg x). lia.
Qed.

Lemma line_findings_length (c : Collection) (line : string) :
  length (line_findings c line) <= writers_size c.
Proof.
  unfold line_findings. destruct (is_blank line); [simpl; lia|].
  apply appended_length.
Qed.

Lemma recorded_block_length (line : string) (index : nat)
  (all_lines : list string) :
  length (recorded_block line index all_lines) <= 1.
Proof.
  unfold recorded_block.
  destruct (String.eqb _ _); [simpl; lia|].
  destruct (trace_start line); [|simpl; lia].
  cbn zeta. destruct (1 <? _); simpl; lia.
Qed.

Lemma writers_sizes :
  writers_size Errors = 16 /\ writers_size Warnings = 5
  /\ writers_size SecurityIssues = 6 /\ writers_size PerformanceIssues = 6.
Proof. vm_compute. repeat split. Qed.

(** X6. For an input of [n] lines the analysis leaves at most [16 n]
    errors (10 error patterns and 6 async patterns), [5 n] warnings, [6 n]
    security issues, [6 n] performance issues and [n] stack traces. *)
Theorem list_length_bounds (lines : list string) :
  let r := analyze_lines lines __init__ in
  length (errors r) <= 16 * length lines
  /\ length (warnings r) <= 5 * length lines
  /\ length (security_issues r) <= 6 * length lines
  /\ length (performance_issues r) <= 6 * length lines
  /\ length (stack_traces r) <= length lines.
Proof.
  cbn zeta. destruct (analyze_lines_contrib lines __init__) as [Hc _].
  assert (forall c, length (collection c (analyze_lines lines __init__))
                    <= writers_size c * length lines) as Hb.
  { intros c. rewrite Hc.
    assert (collection c __init__ = []) as -> by (destruct c; reflexivity).
    apply flat_map_length_bound, line_findings_length. }
  destruct writers_sizes as (S1 & S2 & S3 & S4).
  pose proof (Hb Errors) as B1. pose proof (Hb Warnings) as B2.
  pose proof (Hb SecurityIssues) as B3. pose proof (Hb PerformanceIssues) as B4.
  rewrite S1 in B1. rewrite S2 in B2. rewrite S3 in B3. rewrite S4 in B4.
  cbn [collection] in B1, B2, B3, B4.
  repeat (split; [assumption|]).
  rewrite analyze_lines_stack_traces. cbn [stack_traces __init__ app].
  assert (length (enumerate lines) = length lines) as <-.
  { unfold enumerate. rewrite length_combine, length_seq. apply Nat.min_id. }
  rewrite <- (Nat.mul_1_l (length (enumerate lines))).
  apply flat_map_length_bound. intros [i line]. apply recorded_block_length.
Qed.

(** ** The counter, key by key *)

Lemma count_agree (catalog : list Entry) (line : string) (t k : string) :
  forallb (fun a => Bool.eqb (String.eqb (e_type a) t) (String.eqb (e_key a) k))
    catalog = true ->
  count_type t (map (finding_of line) (hits catalog line))
  = count_occ string_dec (map e_key (hits catalog line)) k.
Proof.
  unfold count_type.
  induction catalog as [|a catalog IH]; intros H; [reflexivity|].
  cbn [forallb] in H. apply andb_true_iff in H as [Ha H].
  rewrite hits_cons. destruct (Re.search (e_pattern a) line); [|now apply IH].
  cbn [map filter count_occ]. rewrite has_type_finding_of.
  apply Bool.eqb_prop in Ha. rewrite Ha.
  destruct (string_dec (e_key a) k) as [E|N].
  - apply String.eqb_eq in E. rewrite E. cbn [length]. now rewrite IH.
  - apply String.eqb_neq in N. rewrite N. now apply IH.
Qed.

Lemma agrees_chunk (c : Collection) (t k : string) (q : Pass) (line : string) :
  agrees c t k q = true ->
  count_type t (if Collection_eqb (target q) c
                then map (finding_of line) (hits (entries q) line) else [])
  = count_occ string_dec (map e_key (hits (entries q) line)) k.
Proof.
  unfold agrees. destruct (Collection_eqb (target q) c).
  - apply count_agree.
  - intros H. apply negb_true_iff in H.
    rewrite count_key_none by now apply mem_false. reflexivity.
Qed.

Lemma count_type_app (t : string) (l l' : list Finding) :
  count_type t (l ++ l') = count_type t l + count_type t l'.
Proof. unfold count_type. now rewrite filter_app, length_app. Qed.

Lemma agrees_order (c : Collection) (t k : string) (order : list Pass)
  (line : string) :
  forallb (agrees c t k) order = true ->
  count_type t (appended c order line)
  = count_occ string_dec (incremented order line) k.
Proof.
  induction order as [|q order IH]; intros H; [reflexivity|].
  cbn [forallb] in H. apply andb_true_iff in H as [Hq H].
  rewrite appended_cons, incremented_cons, count_type_app, count_occ_app.
  now rewrite (agrees_chunk c t k q line Hq), IH.
Qed.

Lemma agrees_lines (c : Collection) (t k : string) (lines : list string) :
  forallb (agrees c t k) source_order = true ->
  count_type t (flat_map (line_findings c) lines)
  = count_occ string_dec (flat_map line_keys lines) k.
Proof.
  intros H. induction lines as [|line lines IH]; [reflexivity|].
  cbn [flat_map]. rewrite count_type_app, count_occ_app, IH. f_equal.
  unfold line_findings, line_keys. destruct (is_blank line); [reflexivity|].
  now apply agrees_order.
Qed.

(** Every entry of every catalog passes the check. *)
Lemma entries_agree :
  forallb (fun p =>
             forallb (fun e =>
                        forallb (agrees (target p) (e_type e) (e_key e))
                          source_order)
               (entries p))
    source_order = true.
Proof. vm_compute. reflexivity. Qed.

(** X7. For every entry of every catalog, the count that the counter holds
    under the key of the entry is the number of findings of the type of the
    entry in the list of its pass. *)
Theorem count_is_number_of_findings (lines : list string) (p : Pass)
  (e : Entry) :
  In e (entries p) ->
  let r := analyze_lines lines __init__ in
  Counter.get (e_key e) (patterns r)
  = count_type (e_type e) (collection (target p) r).
Proof.
  intros He. cbn zeta.
  destruct (analyze_lines_contrib lines __init__) as [Hc Hp].
  rewrite Hp, Hc, CounterFacts.get_incr_all.
  assert (collection (target p) __init__ = []) as ->
      by (destruct p; reflexivity).
  cbn [app patterns __init__ Counter.get Nat.add].
  symmetry. apply agrees_lines.
  pose proof entries_agree as H.
  rewrite forallb_forall in H. specialize (H p (in_source_order p)).
  rewrite forallb_forall in H. exact (H e He).
Qed.

Lemma count_is_number_of_findings_witness :
  In (Re.Lit "MissingPluginException", "Async/Future Error", "Async Error")
    (entries PAsync)
  /\ let r := analyze_lines
                ["MissingPluginException: NullPointerException"; "stream closed"]
                __init__ in
     Counter.get "Async Error" (patterns r)
     = count_type "Async/Future Error" (collection (target PAsync) r).
Proof.
  assert (In (Re.Lit "MissingPluginException", "Async/Future Error", "Async Error")
            (entries PAsync)) as H by (do 5 right; left; reflexivity).
  split; [exact H|].
  exact (count_is_number_of_findings
           ["MissingPluginException: NullPointerException"; "stream closed"]
           PAsync _ H).
Defined.

(** ** The shape of the counter *)

Lemma in_keys_incr (k k' : string) (m : Counter) :
  In k' (Counter.keys (Counter.incr k m)) -> In k' (Counter.keys m) \/ k' = k.
Proof.
  unfold Counter.keys. induction m as [|[k0 v] m IH]; simpl.
  - intros [<-|[]]. now right.
  - destruct (String.eqb k k0); simpl.
    + intros [H|H]; [left; now left | left; now right].
    + intros [H|H]; [left; now left|].
      destruct (IH H) as [H'|H']; [left; now right | now right].
Qed.

Lemma NoDup_keys_incr (k : string) (m : Counter) :
  NoDup (Counter.keys m) -> NoDup (Counter.keys (Counter.incr k m)).
Proof.
  induction m as [|[k0 v] m IH]; intros H.
  - simpl. constructor; [intros [] | constructor].
  - cbn [Counter.keys map fst] in H. apply NoDup_cons_iff in H as [Hk0 H].
    cbn [Counter.incr]. destruct (String.eqb_spec k k0) as [->|N].
    + cbn [Counter.keys map fst]. now constructor.
    + cbn [Counter.keys map fst]. constructor; [|now apply IH].
      intros Hin. apply in_keys_incr in Hin as [Hin|Hin]; [|congruence].
      now apply Hk0.
Qed.

Lemma positive_incr (k : string) (m : Counter) :
  Forall (fun kv => 1 <= snd kv) m ->
  Forall (fun kv => 1 <= snd kv) (Counter.incr k m).
Proof.
  induction m as [|[k0 v] m IH]; intros H; simpl.
  - constructor; [simpl; lia | constructor].
  - apply Forall_cons_iff in H as [Hv H].
    destruct (String.eqb k k0); constructor; simpl in *; auto; lia.
Qed.

Lemma get_in (k : string) (v : nat) (m : Counter) :
  NoDup (Counter.keys m) -> In (k, v) m -> Counter.get k m = v.
Proof.
  induction m as [|[k0 v0] m IH]; intros Hnd Hin; [destruct Hin|].
  cbn [Counter.keys map fst] in Hnd. apply NoDup_cons_iff in Hnd as [Hk0 Hnd].
  simpl. destruct Hin as [[= -> ->]|Hin].
  - now rewrite String.eqb_refl.
  - destruct (String.eqb_spec k k0) as [->|N]; [|now apply IH].
    exfalso. apply Hk0. unfold Counter.keys.
    apply in_map_iff. now exists (k0, v).
Qed.

Lemma incr_all_well_formed (ks : list string) (m : Counter) :
  NoDup (Counter.keys m) /\ Forall (fun kv => 1 <= snd kv) m ->
  NoDup (Counter.keys (Counter.incr_all ks m))
  /\ Forall (fun kv => 1 <= snd kv) (Counter.incr_all ks m)
  /\ (forall k, In k (Counter.keys (Counter.incr_all ks m)) ->
                In k (Counter.keys m) \/ In k ks).
Proof.
  unfold Counter.incr_all. revert m.
  induction ks as [|k ks IH]; intros m [Hnd Hpos]; simpl.
  - repeat split; auto.
  - destruct (IH (Counter.incr k m)) as (H1 & H2 & H3).
    { split; [now apply NoDup_keys_incr | now apply positive_incr]. }
    repeat split; try assumption.
    intros k' Hin. destruct (H3 k' Hin) as [H|H]; [|right; now right].
    apply in_keys_incr in H as [H|H]; [now left | right; left; congruence].
Qed.

Lemma in_line_keys (line k : string) :
  In k (line_keys line) ->
  exists p e, In e (entries p) /\ Re.search (e_pattern e) line = true
              /\ k = e_key e.
Proof.
  unfold line_keys. destruct (is_blank line); [intros []|].
  unfold incremented. rewrite in_flat_map. intros (p & _ & Hin).
  apply in_map_iff in Hin as (e & <- & He).
  unfold hits in He. apply filter_In in He as [He Hs]. now exists p, e.
Qed.

(** X8. The counter that an analysis leaves has no key twice, every count
    in it is at least 1 and is what a lookup of its key returns, and every
    key is the key of a catalog entry whose pattern is found in some line
    of the input. *)
Theorem counter_is_well_formed (lines : list string) :
  let m := patterns (analyze_lines lines __init__) in
  NoDup (Counter.keys m)
  /\ (forall k v,
         In (k, v) m ->
         1 <= v /\ Counter.get k m = v
         /\ exists line p e,
             In line lines /\ In e (entries p)
             /\ Re.search (e_pattern e) line = true /\ k = e_key e).
Proof.
  cbn zeta. destruct (analyze_lines_contrib lines __init__) as [_ Hp].
  rewrite Hp. cbn [patterns __init__].
  destruct (incr_all_well_formed (flat_map line_keys lines) [])
    as (Hnd & Hpos & Hkeys).
  { split; constructor. }
  split; [exact Hnd|]. intros k v Hin. split; [|split].
  - rewrite Forall_forall in Hpos. exact (Hpos (k, v) Hin).
  - now apply get_in.
  - destruct (Hkeys k) as [[]|Hk].
    { unfold Counter.keys. apply in_map_iff. now exists (k, v). }
    apply in_flat_map in Hk as (line & Hl & Hk).
    destruct (in_line_keys line k Hk) as (p & e & He & Hs & ->).
    now exists line, p, e.
Qed.

(** ** Letter case *)

Lemma lower_facts (c : ascii) :
  Str.lower (Str.lower c) = Str.lower c
  /\ Ascii.eqb (Str.lower c) Str.newline = Ascii.eqb c Str.newline
  /\ Str.isspace (Str.lower c) = Str.isspace c.
Proof.
  destruct c as [[] [] [] [] [] [] [] []]; vm_compute; repeat split.
Qed.

Lemma eqb_ci_lower (c d : ascii) :
  Str.eqb_ci c (Str.lower d) = Str.eqb_ci c d.
Proof. unfold Str.eqb_ci. now rewrite (proj1 (lower_facts d)). Qed.

Lemma eat_literal_lower (p t : string) :
  Re.eat_literal p (Str.lower_str t)
  = option_map Str.lower_str (Re.eat_literal p t).
Proof.
  revert t. induction p as [|c p IH]; intros t; [reflexivity|].
  destruct t as [|d t]; [reflexivity|].
  cbn [Str.lower_str Re.eat_literal]. rewrite eqb_ci_lower.
  destruct (Str.eqb_ci c d); [apply IH | reflexivity].
Qed.

Lemma dotstar_lower (k k' : string -> bool) (t : string) :
  (forall s, k' (Str.lower_str s) = k s) ->
  Re.dotstar k' (Str.lower_str t) = Re.dotstar k t.
Proof.
  intros Hk. induction t as [|c t IH]; [apply (Hk "")|].
  cbn [Str.lower_str Re.dotstar].
  rewrite (proj1 (proj2 (lower_facts c))), IH.
  now rewrite <- (Hk (String c t)).
Qed.

Lemma match_here_lower (r : Re.regex) :
  forall t k k',
    (forall s, k' (Str.lower_str s) = k s) ->
    Re.match_here r (Str.lower_str t) k' = Re.match_here r t k.
Proof.
  induction r as [p | | a IHa b IHb | a IHa b IHb]; intros t k k' Hk;
    cbn [Re.match_here].
  - rewrite eat_literal_lower.
    destruct (Re.eat_literal p t); [apply Hk | reflexivity].
  - now apply dotstar_lower.
  - apply IHa. intros s. now apply IHb.
  - now rewrite (IHa t k k' Hk), (IHb t k k' Hk).
Qed.

(** A search does not see the letter case of the text. *)
Lemma search_lower (r : Re.regex) (t : string) :
  Re.search r (Str.lower_str t) = Re.search r t.
Proof.
  induction t as [|c t IH]; [reflexivity|].
  pose proof (match_here_lower r (String c t) (fun _ => true) (fun _ => true)
                (fun _ => eq_refl)) as H.
  cbn [Str.lower_str] in H. cbn [Str.lower_str Re.search].
  now rewrite IH, H.
Qed.

Lemma hits_lower (catalog : list Entry) (line : string) :
  hits catalog (Str.lower_str line) = hits catalog line.
Proof.
  unfold hits. apply filter_ext. intros e. apply search_lower.
Qed.

Lemma all_space_lower (s : string) :
  Str.all_space (Str.lower_str s) = Str.all_space s.
Proof.
  induction s as [|c s IH]; simpl; [reflexivity|].
  now rewrite (proj2 (proj2 (lower_facts c))), IH.
Qed.

Lemma is_blank_all_space (line : string) : is_blank line = Str.all_space line.
Proof.
  unfold is_blank.
  destruct (String.eqb_spec (Str.strip line) "") as [E|N];
    destruct (Str.all_space line) eqn:A; try reflexivity.
  - apply StrFacts.strip_empty in E. congruence.
  - apply StrFacts.strip_empty in A. contradiction.
Qed.

Lemma line_keys_lower (line : string) :
  line_keys (Str.lower_str line) = line_keys line.
Proof.
  unfold line_keys. rewrite !is_blank_all_space, all_space_lower.
  destruct (Str.all_space line); [reflexivity|].
  unfold incremented. apply flat_map_ext. intros p. now rewrite hits_lower.
Qed.

Lemma line_types_lower (c : Collection) (line : string) :
  map ftype (line_findings c (Str.lower_str line))
  = map ftype (line_findings c line).
Proof.
  unfold line_findings. rewrite !is_blank_all_space, all_space_lower.
  destruct (Str.all_space line); [reflexivity|].
  unfold appended. rewrite !flat_map_concat_map, !concat_map, !map_map.
  f_equal. apply map_ext. intros p.
  destruct (Collection_eqb (target p) c); [|reflexivity].
  rewrite hits_lower, !map_map. reflexivity.
Qed.

Lemma flat_map_lower {B : Type} (g : string -> list B) (lines : list string) :
  (forall line, g (Str.lower_str line) = g line) ->
  flat_map g (map Str.lower_str lines) = flat_map g lines.
Proof.
  intros Hg. induction lines as [|line lines IH]; [reflexivity|].
  cbn [map flat_map]. now rewrite Hg, IH.
Qed.

Lemma types_lower_lines (c : Collection) (lines : list string) :
  map ftype (flat_map (line_findings c) (map Str.lower_str lines))
  = map ftype (flat_map (line_findings c) lines).
Proof.
  induction lines as [|line lines IH]; [reflexivity|].
  cbn [map flat_map]. now rewrite !map_app, line_types_lower, IH.
Qed.

(** X9. The case of the ASCII letters of the input does not matter to the
    classification: two inputs that are equal line by line once their
    letters [A] to [Z] are put in lower case (all other characters being
    the same) leave the same counter and, in each of the four lists,
    findings of the same types in the same order. *)
Theorem classification_ignores_letter_case (lines lines' : list string) :
  map Str.lower_str lines = map Str.lower_str lines' ->
  patterns (analyze_lines lines __init__)
  = patterns (analyze_lines lines' __init__)
  /\ (forall c,
         map ftype (collection c (analyze_lines lines __init__))
         = map ftype (collection c (analyze_lines lines' __init__))).
Proof.
  intros H.
  destruct (analyze_lines_contrib lines __init__) as [Hc Hp].
  destruct (analyze_lines_contrib lines' __init__) as [Hc' Hp'].
  split.
  - rewrite Hp, Hp'.
    rewrite <- (flat_map_lower line_keys lines line_keys_lower).
    rewrite <- (flat_map_lower line_keys lines' line_keys_lower).
    now rewrite H.
  - intros c. rewrite Hc, Hc', !map_app. f_equal.
    rewrite <- (types_lower_lines c lines), <- (types_lower_lines c lines').
    now rewrite H.
Qed.

Lemma classification_ignores_letter_case_witness :
  map Str.lower_str ["NULLPOINTEREXCEPTION in LogCat"]
  = map Str.lower_str ["nullPointerException IN logcat"]
  /\ patterns (analyze_lines ["NULLPOINTEREXCEPTION in LogCat"] __init__)
     = patterns (analyze_lines ["nullPointerException IN logcat"] __init__)
  /\ (forall c,
         map ftype
           (collection c
              (analyze_lines ["NULLPOINTEREXCEPTION in LogCat"] __init__))
         = map ftype
             (collection c
                (analyze_lines ["nullPointerException IN logcat"] __init__))).
Proof.
  assert (map Str.lower_str ["NULLPOINTEREXCEPTION in LogCat"]
          = map Str.lower_str ["nullPointerException IN logcat"]) as H
      by (vm_compute; reflexivity).
  split; [exact H|].
  exact (classification_ignores_letter_case _ _ H).
Defined.

(** ** Lines of a file and lines of a block *)

Lemma split_newline_nonempty (s : string) : Str.split_newline s <> [].
Proof.
  destruct s as [|c s]; simpl; [discriminate|].
  destruct (Ascii.eqb c Str.newline); [discriminate|].
  destruct (Str.split_newline s); discriminate.
Qed.

Lemma join_cons (x y : string) (rest : list string) :
  Str.join Str.nl (x :: y :: rest)
  = (x ++ Str.nl ++ Str.join Str.nl (y :: rest))%string.
Proof. reflexivity. Qed.

Lemma join_split_newline (s : string) :
  Str.join Str.nl (Str.split_newline s) = s.
Proof.
  induction s as [|c s IH]; [reflexivity|].
  cbn [Str.split_newline].
  pose proof (split_newline_nonempty s) as Hne.
  destruct (Str.split_newline s) as [|p ps]; [contradiction|].
  destruct (Ascii.eqb_spec c Str.newline) as [->|_].
  - rewrite join_cons, IH. reflexivity.
  - destruct ps as [|q ps].
    + cbn in IH |- *. now rewrite IH.
    + rewrite join_cons in IH |- *. cbn [append]. now rewrite IH.
Qed.

Lemma split_newline_pieces (s : string) :
  forallb no_newline (Str.split_newline s) = true.
Proof.
  induction s as [|c s IH]; [reflexivity|].
  cbn [Str.split_newline].
  destruct (Ascii.eqb c Str.newline) eqn:E; [exact IH|].
  destruct (Str.split_newline s) as [|p ps]; cbn [forallb no_newline] in *;
    rewrite E; [reflexivity | exact IH].
Qed.

Lemma split_newline_piece (x : string) :
  no_newline x = true -> Str.split_newline x = [x].
Proof.
  induction x as [|c x IH]; [reflexivity|].
  cbn [no_newline Str.split_newline]. intros H.
  apply andb_true_iff in H as [Hc H]. apply negb_true_iff in Hc.
  now rewrite Hc, (IH H).
Qed.

Lemma split_newline_app (x s : string) :
  no_newline x = true ->
  Str.split_newline (x ++ Str.nl ++ s) = x :: Str.split_newline s.
Proof.
  induction x as [|c x IH]; [reflexivity|].
  cbn [no_newline append Str.split_newline]. intros H.
  apply andb_true_iff in H as [Hc H]. apply negb_true_iff in Hc.
  now rewrite Hc, (IH H).
Qed.

Lemma split_newline_join (l : list string) :
  l <> [] -> forallb no_newline l = true ->
  Str.split_newline (Str.join Str.nl l) = l.
Proof.
  induction l as [|x l IH]; intros Hne H; [contradiction|].
  cbn [forallb] in H. apply andb_true_iff in H as [Hx H].
  destruct l as [|y l].
  - now apply split_newline_piece.
  - rewrite join_cons, (split_newline_app _ _ Hx), IH; [reflexivity | discriminate | exact H].
Qed.

(** X10. The lines that [analyze_file] gets from the content of a file:
    there is at least one, none holds a newline, and joined with newlines
    they give the content back. *)
Theorem file_lines_rejoin (content : string) :
  Str.split_newline content <> []
  /\ forallb no_newline (Str.split_newline content) = true
  /\ Str.join Str.nl (Str.split_newline content) = content.
Proof.
  split; [apply split_newline_nonempty|].
  split; [apply split_newline_pieces | apply join_split_newline].
Qed.

Lemma forallb_firstn {A : Type} (p : A -> bool) (n : nat) (l : list A) :
  forallb p l = true -> forallb p (firstn n l) = true.
Proof.
  revert l. induction n as [|n IH]; intros [|x l]; simpl; try reflexivity.
  intros H. apply andb_true_iff in H as [-> H]. now apply IH.
Qed.

Lemma forallb_skipn {A : Type} (p : A -> bool) (n : nat) (l : list A) :
  forallb p l = true -> forallb p (skipn n l) = true.
Proof.
  revert l. induction n as [|n IH]; intros [|x l]; simpl; try reflexivity.
  - trivial.
  - intros H. apply andb_true_iff in H as [_ H]. now apply IH.
Qed.

(** X11. In the analysis of a file, every recorded block splits back at
    its newlines into the consecutive lines of the file it was made of, as
    many as its span says. *)
Theorem file_blocks_split_back (content : string) (sp : nat * nat) :
  In sp (trace_spans (Str.split_newline content)) ->
  Str.split_newline (span_block (Str.split_newline content) sp)
  = firstn (snd sp) (skipn (fst sp) (Str.split_newline content))
  /\ block_lines (span_block (Str.split_newline content) sp) = snd sp
  /\ 2 <= snd sp.
Proof.
  intros Hin. apply trace_spans_runs in Hin.
  destruct sp as [i n]. destruct Hin as (Hn & Hlen & _). cbn [fst snd].
  set (lines := Str.split_newline content) in *.
  assert (length (firstn n (skipn i lines)) = n) as Hl.
  { rewrite length_firstn, length_skipn. lia. }
  assert (Str.split_newline (span_block lines (i, n))
          = firstn n (skipn i lines)) as E.
  { unfold span_block. cbn [fst snd]. apply split_newline_join.
    - intros E. rewrite E in Hl. simpl in Hl. lia.
    - apply forallb_firstn, forallb_skipn, split_newline_pieces. }
  split; [exact E|]. split; [|exact Hn].
  unfold block_lines. now rewrite E.
Qed.

Lemma file_blocks_split_back_witness :
  In (1, 2) (trace_spans (Str.split_newline
                            ("boom" ++ Str.nl ++ "  at f()" ++ Str.nl
                             ++ "  at g()" ++ Str.nl ++ "done")))
  /\ Str.split_newline
       (span_block (Str.split_newline
                      ("boom" ++ Str.nl ++ "  at f()" ++ Str.nl
                       ++ "  at g()" ++ Str.nl ++ "done")) (1, 2))
     = firstn (snd (1, 2))
         (skipn (fst (1, 2))
            (Str.split_newline
               ("boom" ++ Str.nl ++ "  at f()" ++ Str.nl
                ++ "  at g()" ++ Str.nl ++ "done")))
  /\ block_lines
       (span_block (Str.split_newline
                      ("boom" ++ Str.nl ++ "  at f()" ++ Str.nl
                       ++ "  at g()" ++ Str.nl ++ "done")) (1, 2))
     = snd (1, 2)
  /\ 2 <= snd (1, 2).
Proof.
  assert (In (1, 2) (trace_spans (Str.split_newline
                                    ("boom" ++ Str.nl ++ "  at f()" ++ Str.nl
                                     ++ "  at g()" ++ Str.nl ++ "done")))) as H
      by (vm_compute; left; reflexivity).
  split; [exact H|].
  exact (file_blocks_split_back _ (1, 2) H).
Defined.

(** ** The text of the report *)

Lemma stdout_when (c : bool) (m : IO unit) :
  stdout (when c m) = if c then stdout m else [].
Proof. destruct c; reflexivity. Qed.

Lemma for_each_eq {A : Type} (l : list A) (body : A -> IO unit)
  (g : A -> list string) :
  (forall x, body x = (g x, inr tt)) ->
  for_each l body = (flat_map g l, inr tt).
Proof.
  intros H. induction l as [|x l IH]; [reflexivity|].
  cbn [for_each flat_map]. rewrite IH, H. reflexivity.
Qed.

Lemma stdout_for_each {A : Type} (l : list A) (body : A -> IO unit)
  (g : A -> list string) :
  (forall x, body x = (g x, inr tt)) ->
  stdout (for_each l body) = flat_map g l.
Proof. intros H. now rewrite (for_each_eq l body g H). Qed.

Lemma flat_map_singleton {A B : Type} (g : A -> B) (l : list A) :
  flat_map (fun x => [g x]) l = map g l.
Proof. induction l as [|x l IH]; simpl; [reflexivity | now rewrite IH]. Qed.

Lemma table_section (m : Counter) :
  stdout
    (when (nonempty m)
       (print "ERROR PATTERNS DETECTED:" ;;
        print (rule "-") ;;
        for_each (sorted_desc m)
          (fun '(pattern, count) =>
             print ("  " ++ bullet ++ " " ++ pattern ++ ": "
                    ++ Str.of_nat count ++ " occurrence(s)")%string) ;;
        print ""))
  = table_text m.
Proof.
  unfold table_text. rewrite stdout_when.
  destruct (nonempty m); [|reflexivity].
  step_report.
  rewrite (stdout_for_each _ _ (fun e => [pattern_row e]))
    by (intros [pattern count]; reflexivity).
  now rewrite flat_map_singleton.
Qed.

Lemma listing_section (title : string) (limit : nat) (l : list Finding) :
  stdout
    (when (nonempty l)
       (print title ;;
        print (rule "-") ;;
        for_each (enumerate1 (firstn limit l)) print_finding ;;
        when (limit <? length l)
          (print ("  ... and " ++ Str.of_nat (length l - limit)
                  ++ " more")%string) ;;
        print ""))
  = listing_text title limit l.
Proof.
  unfold listing_text. rewrite stdout_when.
  destruct (nonempty l); [|reflexivity].
  step_report.
  rewrite (stdout_for_each _ _ finding_lines)
    by (intros [i f]; reflexivity).
  rewrite stdout_when. reflexivity.
Qed.

Lemma traces_section (l : list string) :
  stdout
    (when (nonempty l)
       (print "STACK TRACES:" ;;
        print (rule "-") ;;
        for_each (enumerate1 (firstn 3 l))
          (fun '(i, trace) =>
             print (Str.nl ++ "Trace " ++ Str.of_nat i ++ ":")%string ;;
             print (Str.upto 500 trace
                    ++ (if (500 <? String.length trace)%nat then "..." else ""))%string) ;;
        when (3 <? length l)
          (print (Str.nl ++ "... and " ++ Str.of_nat (length l - 3)
                  ++ " more stack traces")%string) ;;
        print ""))
  = traces_text l.
Proof.
  unfold traces_text. rewrite stdout_when.
  destruct (nonempty l); [|reflexivity].
  step_report.
  rewrite (stdout_for_each _ _ trace_lines)
    by (intros [i trace]; reflexivity).
  rewrite stdout_when. reflexivity.
Qed.

(** What [print_report] prints, line for line, before it fails. *)
Lemma print_report_text (self : LogAnalyzer) :
  stdout (print_report self) = report_text self.
Proof.
  unfold print_report. step_report.
  rewrite table_section, !listing_section, traces_section.
  rewrite getattr_async_errors, stdout_when.
  unfold report_text, report_head. cbn [stdout print fst raise bind app].
  rewrite app_nil_r. reflexivity.
Qed.

Lemma insert_desc_permutation (x : string * nat) (l : list (string * nat)) :
  Permutation (insert_desc x l) (x :: l).
Proof.
  induction l as [|y l IH]; simpl; [apply Permutation_refl|].
  destruct (snd x <? snd y); [|apply Permutation_refl].
  apply perm_trans with (y :: x :: l); [now apply perm_skip | apply perm_swap].
Qed.

Lemma sorted_desc_permutation (l : list (string * nat)) :
  Permutation (sorted_desc l) l.
Proof.
  induction l as [|x l IH]; simpl; [apply perm_nil|].
  apply perm_trans with (x :: sorted_desc l);
    [apply insert_desc_permutation | now apply perm_skip].
Qed.

Lemma insert_desc_sorted (x : string * nat) (l : list (string * nat)) :
  StronglySorted (fun a b => snd b <= snd a) l ->
  StronglySorted (fun a b => snd b <= snd a) (insert_desc x l).
Proof.
  induction l as [|y l IH]; intros H; simpl.
  - constructor; constructor.
  - apply StronglySorted_inv in H as [Hl Hy].
    destruct (Nat.ltb_spec (snd x) (snd y)) as [Hlt|Hge].
    + constructor; [now apply IH|].
      apply Forall_forall. intros z Hz.
      apply (Permutation_in _ (insert_desc_permutation x l)) in Hz.
      destruct Hz as [<-|Hz]; [lia|].
      rewrite Forall_forall in Hy. now apply Hy.
    + constructor; [now constructor|].
      constructor; [exact Hge|].
      apply Forall_forall. intros z Hz.
      rewrite Forall_forall in Hy. specialize (Hy z Hz). simpl in Hy. lia.
Qed.

Lemma sorted_desc_sorted (l : list (string * nat)) :
  StronglySorted (fun a b => snd b <= snd a) (sorted_desc l).
Proof.
  induction l as [|x l IH]; simpl; [constructor|].
  now apply insert_desc_sorted.
Qed.

Lemma insert_desc_stable (c : nat) (x : string * nat)
  (l : list (string * nat)) :
  filter (fun e => snd e =? c) (insert_desc x l)
  = filter (fun e => snd e =? c) (x :: l).
Proof.
  induction l as [|y l IH]; [reflexivity|].
  cbn [insert_desc]. destruct (Nat.ltb_spec (snd x) (snd y)) as [Hlt|_];
    [|reflexivity].
  cbn [filter] in IH |- *. rewrite IH.
  destruct (Nat.eqb_spec (snd x) c), (Nat.eqb_spec (snd y) c);
    try reflexivity.
  lia.
Qed.

Lemma sorted_desc_stable (c : nat) (l : list (string * nat)) :
  filter (fun e => snd e =? c) (sorted_desc l)
  = filter (fun e => snd e =? c) l.
Proof.
  induction l as [|x l IH]; [reflexivity|].
  cbn [sorted_desc fold_right]. fold (sorted_desc l).
  rewrite insert_desc_stable. cbn [filter]. now rewrite IH.
Qed.

(** X12. Right after its summary, [print_report] prints the table of
    pattern counts (nothing if the counter is empty): a title, a rule, one
    row for each entry of the counter, and an empty line.  The rows come by
    descending count, every entry of the counter once, and entries of equal
    count in the order in which their keys were first counted. *)
Theorem pattern_table_order (self : LogAnalyzer) :
  (exists rest,
      stdout (print_report self)
      = report_head self
        ++ (if nonempty (patterns self)
            then "ERROR PATTERNS DETECTED:" :: rule "-"
                 :: map pattern_row (sorted_desc (patterns self)) ++ [""]
            else [])
        ++ rest)
  /\ Permutation (sorted_desc (patterns self)) (patterns self)
  /\ StronglySorted (fun a b => snd b <= snd a) (sorted_desc (patterns self))
  /\ (forall c,
         filter (fun e => snd e =? c) (sorted_desc (patterns self))
         = filter (fun e => snd e =? c) (patterns self)).
Proof.
  split.
  - rewrite print_report_text. unfold report_text, table_text.
    eexists. reflexivity.
  - split; [apply sorted_desc_permutation|].
    split; [apply sorted_desc_sorted | intros c; apply sorted_desc_stable].
Qed.

(** ** Listed findings *)

Lemma upto_prefix (n : nat) (s : string) :
  String.length (Str.upto n s) = Nat.min n (String.length s)
  /\ exists rest, s = (Str.upto n s ++ rest)%string.
Proof.
  unfold Str.upto. revert s.
  induction n as [|n IH]; intros s.
  - destruct s; simpl; (split; [reflexivity | eexists; reflexivity]).
  - destruct s as [|c s]; simpl.
    + split; [reflexivity | now exists ""].
    + destruct (IH s) as (Hl & rest & Hr). split; [now rewrite Hl|].
      exists rest. now rewrite <- Hr.
Qed.

Lemma length_enumerate1 {A : Type} (l : list A) :
  length (enumerate1 l) = length l.
Proof.
  unfold enumerate1. rewrite length_combine, length_seq. apply Nat.min_id.
Qed.

Lemma listed_lines_length (limit : nat) (l : list Finding) :
  length (flat_map finding_lines (enumerate1 (firstn limit l)))
  = 2 * Nat.min limit (length l).
Proof.
  assert (forall es, length (flat_map finding_lines es) = 2 * length es) as H.
  { induction es as [|e es IH]; [reflexivity|].
    cbn [flat_map length app finding_lines]. rewrite IH. lia. }
  now rewrite H, length_enumerate1, length_firstn.
Qed.

(** X13. After the table, [print_report] prints the listing of the errors,
    of the security issues and of the performance issues, in this order.
    A listing (nothing for an empty list) is a title, a rule, two lines for
    each of the first 10 findings (5 for the performance issues), a line
    that says how many more there are if there are more, and an empty
    line.  The second line of a finding shows the first 80 characters of
    its text, or the whole text if it is shorter, and always ends with
    three dots. *)
Theorem report_lists_truncated_findings (self : LogAnalyzer) :
  (exists before after,
      stdout (print_report self)
      = before
        ++ listing_text "CRITICAL ERRORS:" 10 (errors self)
        ++ listing_text "SECURITY ISSUES:" 10 (security_issues self)
        ++ listing_text "PERFORMANCE ISSUES:" 5 (performance_issues self)
        ++ after)
  /\ (forall title limit l,
         l <> [] ->
         listing_text title limit l
         = title :: rule "-"
           :: flat_map finding_lines (enumerate1 (firstn limit l))
              ++ (if limit <? length l
                  then [("  ... and " ++ Str.of_nat (length l - limit)
                         ++ " more")%string]
                  else [])
              ++ [""])
  /\ (forall limit l,
         length (flat_map finding_lines (enumerate1 (firstn limit l)))
         = 2 * Nat.min limit (length l))
  /\ (forall i f,
         exists shown rest,
           finding_lines (i, f)
           = [("  " ++ Str.of_nat i ++ ". [" ++ ftype f ++ "]")%string;
              ("     " ++ shown ++ "...")%string]
           /\ fline f = (shown ++ rest)%string
           /\ String.length shown = Nat.min 80 (String.length (fline f))).
Proof.
  split; [|split; [|split]].
  - rewrite print_report_text. unfold report_text.
    exists (report_head self ++ table_text (patterns self)).
    eexists. rewrite <- !app_assoc. reflexivity.
  - intros title limit l Hne. unfold listing_text.
    destruct l; [contradiction | reflexivity].
  - apply listed_lines_length.
  - intros i f. destruct (upto_prefix 80 (fline f)) as (Hl & rest & Hr).
    exists (Str.upto 80 (fline f)), rest.
    split; [reflexivity | split; assumption].
Qed.

(** ** A missing file *)

(** X14. When the file named on the command line does not exist,
    [analyze_file] leaves the analyzer as it was and returns false, and
    [main] prints the one line that says so and exits with status 1: no
    line is analysed and no report is printed. *)
Theorem missing_file_stops_main (argv : list string) (fs : FileSystem)
  (stdin_lines : list string) :
  2 <= length argv ->
  fs (nth 1 argv "") = None ->
  (forall self,
      analyze_file fs (nth 1 argv "") self
      = (["Error: File not found: " ++ nth 1 argv ""]%string,
         inr (false, self)))
  /\ main argv fs stdin_lines
     = (["Error: File not found: " ++ nth 1 argv ""]%string,
        inl (SystemExit 1))
  /\ exit_status (main argv fs stdin_lines) = 1.
Proof.
  intros Hlen Hfs.
  assert (main argv fs stdin_lines
          = (["Error: File not found: " ++ nth 1 argv ""]%string,
             inl (SystemExit 1))) as Hm.
  { unfold main. destruct (Nat.ltb_spec (length argv) 2) as [Hlt|_]; [lia|].
    unfold analyze_file. rewrite Hfs. reflexivity. }
  split; [|split].
  - intros self. unfold analyze_file. now rewrite Hfs.
  - exact Hm.
  - now rewrite Hm.
Qed.

Lemma missing_file_stops_main_witness :
  2 <= length ["analyze_logs.py"; "gone.log"]
  /\ one_file "app.log" clean_log (nth 1 ["analyze_logs.py"; "gone.log"] "")
     = None
  /\ (forall self,
         analyze_file (one_file "app.log" clean_log)
           (nth 1 ["analyze_logs.py"; "gone.log"] "") self
         = (["Error: File not found: "
             ++ nth 1 ["analyze_logs.py"; "gone.log"] ""]%string,
            inr (false, self)))
  /\ main ["analyze_logs.py"; "gone.log"] (one_file "app.log" clean_log) []
     = (["Error: File not found: "
         ++ nth 1 ["analyze_logs.py"; "gone.log"] ""]%string,
        inl (SystemExit 1))
  /\ exit_status
       (main ["analyze_logs.py"; "gone.log"] (one_file "app.log" clean_log) [])
     = 1.
Proof.
  assert (2 <= length ["analyze_logs.py"; "gone.log"]) as H1 by (simpl; lia).
  assert (one_file "app.log" clean_log
            (nth 1 ["analyze_logs.py"; "gone.log"] "") = None) as H2
      by (vm_compute; reflexivity).
  split; [exact H1|]. split; [exact H2|].
  exact (missing_file_stops_main ["analyze_logs.py"; "gone.log"]
           (one_file "app.log" clean_log) [] H1 H2).
Defined.

(** ** The text of a finding *)

Lemma rstrip_idempotent (s : string) : Str.rstrip (Str.rstrip s) = Str.rstrip s.
Proof.
  induction s as [|c s IH]; [reflexivity|].
  cbn [Str.rstrip]. destruct (Str.rstrip s) as [|d r] eqn:E.
  - destruct (Str.isspace c) eqn:Hc; [reflexivity|].
    cbn [Str.rstrip]. now rewrite Hc.
  - cbn [Str.rstrip]. cbn [Str.rstrip] in IH. now rewrite IH.
Qed.

Lemma rstrip_head (c : ascii) (s : string) :
  Str.isspace c = false -> Str.rstrip (String c s) = String c (Str.rstrip s).
Proof.
  intros Hc. cbn [Str.rstrip]. destruct (Str.rstrip s); [now rewrite Hc | reflexivity].
Qed.

Lemma lstrip_head (s : string) (c : ascii) (r : string) :
  Str.lstrip s = String c r -> Str.isspace c = false.
Proof.
  induction s as [|d s IH]; simpl; [discriminate|].
  destruct (Str.isspace d) eqn:Hd; [exact IH|].
  now intros [= <- <-].
Qed.

(** Stripping twice is stripping once. *)
Lemma strip_idempotent (s : string) : Str.strip (Str.strip s) = Str.strip s.
Proof.
  unfold Str.strip. destruct (Str.lstrip s) as [|c r] eqn:E; [reflexivity|].
  pose proof (lstrip_head s c r E) as Hc.
  rewrite (rstrip_head c r Hc). cbn [Str.lstrip]. rewrite Hc.
  now rewrite (rstrip_head c _ Hc), rstrip_idempotent.
Qed.

Lemma in_line_findings (c : Collection) (line : string) (f : Finding) :
  In f (line_findings c line) ->
  fline f = Str.strip line /\ Str.strip line <> "".
Proof.
  unfold line_findings, is_blank.
  destruct (String.eqb_spec (Str.strip line) "") as [|Hne]; [intros []|].
  intros Hin. apply in_appended in Hin as (p & e & _ & _ & _ & ->).
  now split.
Qed.

(** X15. Whichever driver ran, the text of every finding is a line that is
    not empty and has no white space at either end: stripping it gives it
    back. *)
Theorem finding_text_is_stripped (lines : list string) (c : Collection)
  (f : Finding) :
  In f (collection c (analyze_lines lines __init__))
  \/ In f (collection c (analyze_stdin lines __init__)) ->
  fline f <> "" /\ Str.strip (fline f) = fline f.
Proof.
  destruct (analyze_lines_contrib lines __init__) as [Hc _].
  destruct (analyze_stdin_contrib lines __init__) as [Hc' _].
  rewrite Hc, Hc'.
  assert (collection c __init__ = []) as -> by (destruct c; reflexivity).
  cbn [app]. rewrite !in_flat_map.
  intros [(line & _ & Hin)|(line & _ & Hin)];
    apply in_line_findings in Hin as [-> Hne];
    (split; [exact Hne | apply strip_idempotent]).
Qed.

Lemma finding_text_is_stripped_witness :
  (In (mkFinding "Timeout Error" "TimeoutException: late")
     (collection Errors
        (analyze_lines ["   TimeoutException: late  "] __init__))
   \/ In (mkFinding "Timeout Error" "TimeoutException: late")
        (collection Errors
           (analyze_stdin ["   TimeoutException: late  "] __init__)))
  /\ fline (mkFinding "Timeout Error" "TimeoutException: late") <> ""
  /\ Str.strip (fline (mkFinding "Timeout Error" "TimeoutException: late"))
     = fline (mkFinding "Timeout Error" "TimeoutException: late").
Proof.
  assert (In (mkFinding "Timeout Error" "TimeoutException: late")
            (collection Errors
               (analyze_lines ["   TimeoutException: late  "] __init__))
          \/ In (mkFinding "Timeout Error" "TimeoutException: late")
               (collection Errors
                  (analyze_stdin ["   TimeoutException: late  "] __init__)))
    as H by (left; vm_compute; left; reflexivity).
  split; [exact H|].
  exact (finding_text_is_stripped _ _ _ H).
Defined.
